(** * water-monitor-ts: the WebSocket relay of [src/server.ts]

    A shallow embedding of the three revisions of the relay server that the
    repository holds, and the properties of the producer/consumer registry,
    the fan-out and the liveness sweep.

    - [ServerTs]  : [src/server.ts], role taken from the [x-device-type] header;
    - [Part000]   : the logging revision of the same server (initial sample
                    sent under [try]/[catch]);
    - [Part002]   : the revision with the [register] handshake;
    - [WsClient]  : the dashboard of [static/ws-client.js];
    - [Part001]   : the logging revision of the dashboard.

    Sockets are object identities ([conn]); the [ws] library and the console
    are the environment: a [transport] says which calls throw, and every call
    into them, as well as every assignment to a field of the server object,
    is recorded in a trace of [action]s. *)

From Stdlib Require Import String List ZArith QArith Bool Lia Lqa.
From stdpp Require Import base option list gmap strings.
Import ListNotations.
Local Open Scope string_scope.
Local Open Scope list_scope.

(** ** JSON values, as [JSON.parse] returns them *)

#[warnings="-register-all"]
Inductive json : Type :=
| JNull
| JBool (b : bool)
| JNum (q : Q)
| JStr (s : string)
| JArr (items : list json)
| JObj (fields : list (string * json)).

(** A parsed object: the keyed structure behind [SensorData]. *)
Definition obj : Type := list (string * json).

Fixpoint lookup_key (k : string) (o : obj) : option json :=
  match o with
  | [] => None
  | (k', v) :: rest => if String.eqb k k' then Some v else lookup_key k rest
  end.

Definition has_key (k : string) (o : obj) : bool :=
  match lookup_key k o with Some _ => true | None => false end.

Fixpoint remove_key (k : string) (o : obj) : obj :=
  match o with
  | [] => []
  | (k', v) :: rest =>
      if String.eqb k k' then remove_key k rest else (k', v) :: remove_key k rest
  end.

(** [Object.keys(o).length > 0] *)
Definition nonempty (o : obj) : bool :=
  match o with [] => false | _ :: _ => true end.

(** [{ type: "data", ...data }]: the tag comes first, a [type] field of
    [data] overrides its value. *)
Definition spread_data (data : obj) : obj :=
  ("type", match lookup_key "type" data with
           | Some v => v
           | None => JStr "data"
           end) :: remove_key "type" data.

Definition is_str (s : string) (v : option json) : bool :=
  match v with
  | Some (JStr s') => String.eqb s s'
  | _ => false
  end.

(** What a socket delivers: text that [JSON.parse] rejects, or the value it
    returns. The text [ping] is not JSON, so it only occurs as [Unparseable]. *)
Inductive inbound : Type :=
| Unparseable (raw : string)
| Parsed (data : json).

(** What the server writes to a socket: a literal text frame, or
    [JSON.stringify] of a value. *)
Inductive frame : Type :=
| FText (s : string)
| FJson (j : json).

(** ** Sockets, the transport and the trace *)

Definition conn : Type := nat.

Inductive level : Type := INFO | ERROR | DEBUG | WARN.

Inductive action : Type :=
| Send (c : conn) (f : frame)
| Close (c : conn) (code : Z) (reason : string)
| Ping (c : conn)
| Terminate (c : conn)
| Log (l : level) (msg : string)
| SetPublisher (p : option conn)
| SetLatestData (d : obj)
| SetSubscribers (l : list conn).

(** The calls of the [ws] library that can throw, and the [readyState] of a
    socket, at the time a handler runs. *)
Record transport : Type := mkTransport {
  send_throws : conn -> frame -> bool;
  close_throws : conn -> bool;
  ping_throws : conn -> bool;
  ready_open : conn -> bool
}.

(** ** A state, exception and trace monad for the handlers *)

Inductive result (A : Type) : Type :=
| Val (a : A)
| Throw.
Arguments Val {A} a.
Arguments Throw {A}.

Definition M (S A : Type) : Type := S -> result A * S * list action.

Definition ret {S A} (a : A) : M S A := fun s => (Val a, s, []).

Definition bind {S A B} (m : M S A) (k : A -> M S B) : M S B :=
  fun s =>
    match m s with
    | (Val a, s1, t1) =>
        match k a s1 with
        | (r, s2, t2) => (r, s2, t1 ++ t2)
        end
    | (Throw, s1, t1) => (Throw, s1, t1)
    end.

Definition throw {S A} : M S A := fun s => (Throw, s, []).

(** [try { m } catch (e) { h }] *)
Definition try_catch {S A} (m : M S A) (h : M S A) : M S A :=
  fun s =>
    match m s with
    | (Val a, s1, t1) => (Val a, s1, t1)
    | (Throw, s1, t1) =>
        match h s1 with
        | (r, s2, t2) => (r, s2, t1 ++ t2)
        end
    end.

Definition emit {S} (a : action) : M S unit := fun s => (Val tt, s, [a]).

Definition get {S} : M S S := fun s => (Val s, s, []).

Definition modify {S} (f : S -> S) : M S unit := fun s => (Val tt, f s, []).

Declare Scope relay_scope.
Delimit Scope relay_scope with relay.
Notation "x <- m ;; k" := (bind m (fun x => k))
  (at level 100, m at next level, k at level 200, right associativity) : relay_scope.
Notation "m ;; k" := (bind m (fun _ => k))
  (at level 100, k at level 200, right associativity) : relay_scope.
Local Open Scope relay_scope.

Fixpoint forEach {S A} (l : list A) (body : A -> M S unit) : M S unit :=
  match l with
  | [] => ret tt
  | x :: rest => body x ;; forEach rest body
  end.

(** A loop that carries a local variable, as [forEach] over a counter. *)
Fixpoint foldM {S A B} (f : B -> A -> M S B) (l : list A) (b : B) : M S B :=
  match l with
  | [] => ret b
  | x :: rest => b' <- f b x ;; foldM f rest b'
  end.

Definition when {S} (b : bool) (m : M S unit) : M S unit :=
  if b then m else ret tt.

Definition state_of {S A} (x : result A * S * list action) : S := snd (fst x).
Definition trace_of {S A} (x : result A * S * list action) : list action := snd x.
Definition result_of {S A} (x : result A * S * list action) : result A := fst (fst x).

Section Transport.
Context {S : Type} (env : transport).

Definition send (c : conn) (f : frame) : M S unit :=
  fun s => (if send_throws env c f then Throw else Val tt, s, [Send c f]).

Definition close (c : conn) (code : Z) (reason : string) : M S unit :=
  fun s => (if close_throws env c then Throw else Val tt, s, [Close c code reason]).

Definition ping (c : conn) : M S unit :=
  fun s => (if ping_throws env c then Throw else Val tt, s, [Ping c]).

Definition terminate (c : conn) : M S unit := emit (Terminate c).

Definition log (l : level) (msg : string) : M S unit := emit (Log l msg).
End Transport.

(** [JSON.parse(message.toString())] *)
Definition JSON_parse {S} (message : inbound) : M S json :=
  match message with
  | Unparseable _ => throw
  | Parsed data => ret data
  end.

(** ['k' in data]: a [TypeError] on a primitive, [false] on an array. *)
Definition js_in {S} (k : string) (data : json) : M S bool :=
  match data with
  | JObj o => ret (has_key k o)
  | JArr _ => ret false
  | _ => throw
  end.

(** [data.k]: a [TypeError] on [null], [undefined] on the other primitives
    and on arrays. *)
Definition js_get {S} (data : json) (k : string) : M S (option json) :=
  match data with
  | JObj o => ret (lookup_key k o)
  | JNull => throw
  | _ => ret None
  end.

(** The object behind a value that passed the test for the [C] field. *)
Definition fields_of (data : json) : obj :=
  match data with JObj o => o | _ => [] end.

(** [array.indexOf(c)], [None] for [-1]. *)
Fixpoint indexOf (c : conn) (l : list conn) : option nat :=
  match l with
  | [] => None
  | x :: rest => if Nat.eqb x c then Some 0 else option_map S (indexOf c rest)
  end.

(** [array.splice(i, 1)] *)
Fixpoint splice1 (i : nat) (l : list conn) : list conn :=
  match i, l with
  | _, [] => []
  | 0, _ :: rest => rest
  | S j, x :: rest => x :: splice1 j rest
  end.

Definition alive_flag (m : gmap conn bool) (c : conn) : bool :=
  match m !! c with Some b => b | None => false end.

(** ** [src/server.ts]: the role comes from the [x-device-type] header *)

Module ServerTs.

Inductive ClientType : Type := PUBLISHER | SUBSCRIBER.

(** The fields of [WaterMonitorServer], the [isAlive] and [type] fields the
    handlers keep on each socket, the [clients] set of the [ws] server, and
    the sockets whose listeners are attached, each with the [isPublisher]
    constant its closures captured. *)
Record server : Type := mkServer {
  subscribers : list conn;
  publisher : option conn;
  latestData : obj;
  clients : list conn;
  isAlive : gmap conn bool;
  type : gmap conn ClientType;
  listeners : gmap conn bool
}.

Definition init : server :=
  mkServer [] None [] [] ∅ ∅ ∅.

Definition set_isAlive (c : conn) (b : bool) : M server unit :=
  modify (fun s => mkServer (subscribers s) (publisher s) (latestData s)
                     (clients s) (<[c := b]> (isAlive s)) (type s) (listeners s)).

Definition set_type (c : conn) (t : ClientType) : M server unit :=
  modify (fun s => mkServer (subscribers s) (publisher s) (latestData s)
                     (clients s) (isAlive s) (<[c := t]> (type s)) (listeners s)).

Definition set_publisher (p : option conn) : M server unit :=
  modify (fun s => mkServer (subscribers s) p (latestData s)
                     (clients s) (isAlive s) (type s) (listeners s)) ;;
  emit (SetPublisher p).

Definition set_latestData (d : obj) : M server unit :=
  modify (fun s => mkServer (subscribers s) (publisher s) d
                     (clients s) (isAlive s) (type s) (listeners s)) ;;
  emit (SetLatestData d).

Definition set_subscribers (l : list conn) : M server unit :=
  modify (fun s => mkServer l (publisher s) (latestData s)
                     (clients s) (isAlive s) (type s) (listeners s)) ;;
  emit (SetSubscribers l).

Definition set_clients (l : list conn) : M server unit :=
  modify (fun s => mkServer (subscribers s) (publisher s) (latestData s)
                     l (isAlive s) (type s) (listeners s)).

(** [extWs.on('pong' | 'message' | 'close' | 'error', ...)] *)
Definition attach (c : conn) (isPublisher : bool) : M server unit :=
  modify (fun s => mkServer (subscribers s) (publisher s) (latestData s)
                     (clients s) (isAlive s) (type s) (<[c := isPublisher]> (listeners s))).

Section Handlers.
Variable env : transport.

(** The body of the loop of [broadcastToSubscribers]. *)
Definition deliver (jsonData : frame) (subscriber : conn) : M server unit :=
  try_catch
    (send env subscriber jsonData)
    (log ERROR "Error al enviar datos" ;;
     s' <- get ;;
     match indexOf subscriber (subscribers s') with
     | Some index => set_subscribers (splice1 index (subscribers s'))
     | None => ret tt
     end).

(** [broadcastToSubscribers(data)] *)
Definition broadcastToSubscribers (data : obj) : M server unit :=
  set_latestData data ;;
  s <- get ;;
  if Nat.eqb (length (subscribers s)) 0 then
    log INFO "No hay subscribers activos"
  else
    log INFO "Enviando datos a subscribers" ;;
    let jsonData := FJson (JObj data) in
    let copy := subscribers s in
    forEach copy (deliver jsonData).

(** The body of [wss.on('connection', (ws, req) => ...)];
    [header] is [req.headers['x-device-type']]. *)
Definition onConnection (extWs : conn) (header : option string) : M server unit :=
  set_isAlive extWs true ;;
  let isPublisher :=
    match header with
    | Some h => String.eqb h "arduino-publisher"
    | None => false
    end in
  set_type extWs (if isPublisher then PUBLISHER else SUBSCRIBER) ;;
  (if isPublisher then
     s <- get ;;
     match publisher s with
     | Some old =>
         try_catch
           (close env old 1000 "New publisher connected")
           (log ERROR "Error closing previous publisher:")
     | None => ret tt
     end ;;
     set_publisher (Some extWs) ;;
     log INFO "Nuevo PUBLISHER conectado (Arduino)"
   else
     s <- get ;;
     set_subscribers (subscribers s ++ [extWs]) ;;
     log INFO "Nuevo SUBSCRIBER conectado - Total" ;;
     s' <- get ;;
     when (nonempty (latestData s'))
          (send env extWs (FJson (JObj (latestData s'))))) ;;
  attach extWs isPublisher.

(** [extWs.on('pong', ...)] *)
Definition onPong (extWs : conn) : M server unit :=
  set_isAlive extWs true.

(** [extWs.on('message', ...)] *)
Definition onMessage (extWs : conn) (isPublisher : bool) (message : inbound)
  : M server unit :=
  try_catch
    (data <- JSON_parse message ;;
     log INFO "Datos recibidos" ;;
     hasC <- (if isPublisher then js_in "C" data else ret false) ;;
     if hasC then broadcastToSubscribers (fields_of data)
     else if negb isPublisher then
       t <- js_get data "type" ;;
       if is_str "control" t then ret tt else ret tt
     else ret tt)
    (log ERROR "Error: Datos no validos").

(** [extWs.on('close', ...)] *)
Definition onClose (extWs : conn) (isPublisher : bool) : M server unit :=
  s <- get ;;
  if isPublisher then
    match publisher s with
    | Some p =>
        if Nat.eqb p extWs then
          set_publisher None ;;
          log INFO "Publisher desconectado"
        else ret tt
    | None => ret tt
    end
  else
    match indexOf extWs (subscribers s) with
    | Some index =>
        set_subscribers (splice1 index (subscribers s)) ;;
        log INFO "Subscriber desconectado - Quedan"
    | None => ret tt
    end.

(** The callback of [this.wss.clients.forEach]. *)
Definition probe (ws : conn) : M server unit :=
  s' <- get ;;
  if negb (alive_flag (isAlive s') ws) then terminate ws
  else
    set_isAlive ws false ;;
    try_catch (ping env ws) (terminate ws).

(** The callback of [setInterval(..., 30000)]. *)
Definition pingInterval : M server unit :=
  s <- get ;;
  forEach (clients s) probe.

(** [GET /health] *)
Definition health (s : server) : json :=
  JObj [("status", JStr "healthy");
        ("subscribers", JNum (inject_Z (Z.of_nat (length (subscribers s)))));
        ("publisher", JStr (match publisher s with
                            | Some _ => "connected"
                            | None => "disconnected"
                            end))].
End Handlers.

(** What the [ws] library and the timer deliver to the server. *)
Inductive event : Type :=
| Connection (c : conn) (header : option string)
| Pong (c : conn)
| Message (c : conn) (message : inbound)
| Closed (c : conn)
| Tick.

(** One turn of the event loop. The library adds a socket to [clients]
    before it emits [connection] and drops it when the socket closes; an
    event of a socket without listeners runs no handler. *)
Definition fire (env : transport) (ev : event) : M server unit :=
  match ev with
  | Connection c header =>
      s <- get ;;
      set_clients (clients s ++ [c]) ;;
      onConnection env c header
  | Pong c =>
      s <- get ;;
      match listeners s !! c with
      | Some _ => onPong c
      | None => ret tt
      end
  | Message c message =>
      s <- get ;;
      match listeners s !! c with
      | Some isPublisher => onMessage env c isPublisher message
      | None => ret tt
      end
  | Closed c =>
      s <- get ;;
      set_clients (List.filter (fun x => negb (Nat.eqb x c)) (clients s)) ;;
      match listeners s !! c with
      | Some isPublisher => onClose c isPublisher
      | None => ret tt
      end
  | Tick => pingInterval env
  end.

(** A [connection] event carries a socket object that did not exist before. *)
Definition enabled (s : server) (ev : event) : Prop :=
  match ev with
  | Connection c _ => isAlive s !! c = None
  | _ => True
  end.

(** A run of the event loop: the events delivered, the state reached and
    the trace left. A handler that throws ends the process, so a run only
    continues after a handler that returns. *)
Inductive steps : server -> list event -> server -> list action -> Prop :=
| steps_nil s : steps s [] s []
| steps_cons s env ev s1 tr1 evs s2 tr2 :
    enabled s ev ->
    fire env ev s = (Val tt, s1, tr1) ->
    steps s1 evs s2 tr2 ->
    steps s (ev :: evs) s2 (tr1 ++ tr2).

Definition reachable (s : server) : Prop :=
  exists evs tr, steps init evs s tr.

End ServerTs.

(** ** The logging revision of [src/server.ts]

    The same class and fields; the handlers log through [log(level, ...)],
    and the sample sent to a new subscriber is under [try]/[catch]. *)

Module Part000.
Import ServerTs.

Section Handlers.
Variable env : transport.

(** The body of the loop of [broadcastToSubscribers]. *)
Definition deliver (jsonData : frame) (subscriber : conn) : M server unit :=
  try_catch
    (send env subscriber jsonData)
    (log ERROR "Failed to send data to subscriber" ;;
     s' <- get ;;
     match indexOf subscriber (subscribers s') with
     | Some index =>
         set_subscribers (splice1 index (subscribers s')) ;;
         log INFO "Removed problematic subscriber - Remaining"
     | None => ret tt
     end).

(** [broadcastToSubscribers(data)] *)
Definition broadcastToSubscribers (data : obj) : M server unit :=
  set_latestData data ;;
  s <- get ;;
  if Nat.eqb (length (subscribers s)) 0 then
    log WARN "No active subscribers to receive data"
  else
    log INFO "Broadcasting data to subscribers" ;;
    let jsonData := FJson (JObj data) in
    let copy := subscribers s in
    forEach copy (deliver jsonData) ;;
    log INFO "Broadcast complete".

(** The body of [wss.on('connection', (ws, req) => ...)]. *)
Definition onConnection (extWs : conn) (header : option string) : M server unit :=
  set_isAlive extWs true ;;
  let isPublisher :=
    match header with
    | Some h => String.eqb h "arduino-publisher"
    | None => false
    end in
  set_type extWs (if isPublisher then PUBLISHER else SUBSCRIBER) ;;
  log INFO "New connection from" ;;
  (if isPublisher then
     s <- get ;;
     match publisher s with
     | Some old =>
         log WARN "Disconnecting previous publisher" ;;
         try_catch
           (close env old 1000 "New publisher connected")
           (log ERROR "Error closing previous publisher")
     | None => ret tt
     end ;;
     set_publisher (Some extWs) ;;
     log INFO "Publisher connected (Arduino)"
   else
     s <- get ;;
     set_subscribers (subscribers s ++ [extWs]) ;;
     log INFO "Subscriber connected - Total" ;;
     s' <- get ;;
     when (nonempty (latestData s'))
          (log DEBUG "Sending latest data to new subscriber" ;;
           try_catch
             (send env extWs (FJson (JObj (latestData s'))))
             (log ERROR "Failed to send initial data to subscriber"))) ;;
  attach extWs isPublisher.

(** [extWs.on('pong', ...)] *)
Definition onPong (extWs : conn) : M server unit :=
  log DEBUG "Received pong from client" ;;
  set_isAlive extWs true.

(** [extWs.on('message', ...)] *)
Definition onMessage (extWs : conn) (isPublisher : bool) (message : inbound)
  : M server unit :=
  try_catch
    (log DEBUG "Raw message received" ;;
     data <- JSON_parse message ;;
     log INFO "Parsed data" ;;
     hasC <- (if isPublisher then js_in "C" data else ret false) ;;
     if hasC then
       log INFO "Valid sensor data received, broadcasting" ;;
       broadcastToSubscribers (fields_of data)
     else
       isControl <- (if negb isPublisher then
                       t <- js_get data "type" ;; ret (is_str "control" t)
                     else ret false) ;;
       if isControl then log INFO "Control message received from subscriber"
       else log WARN "Received message with unexpected format")
    (log ERROR "Failed to process message").

(** [extWs.on('close', ...)] *)
Definition onClose (extWs : conn) (isPublisher : bool) : M server unit :=
  log INFO "WebSocket closed" ;;
  s <- get ;;
  if isPublisher then
    match publisher s with
    | Some p =>
        if Nat.eqb p extWs then
          set_publisher None ;;
          log INFO "Publisher disconnected"
        else ret tt
    | None => ret tt
    end
  else
    match indexOf extWs (subscribers s) with
    | Some index =>
        set_subscribers (splice1 index (subscribers s)) ;;
        log INFO "Subscriber disconnected - Remaining"
    | None => ret tt
    end.

(** The callback of [this.wss.clients.forEach]. *)
Definition probe (ws : conn) : M server unit :=
  s' <- get ;;
  if negb (alive_flag (isAlive s') ws) then
    log WARN "Terminating inactive connection" ;;
    terminate ws
  else
    set_isAlive ws false ;;
    try_catch
      (log DEBUG "Sending ping" ;; ping env ws)
      (log ERROR "Failed to ping client" ;; terminate ws).

(** The callback of [setInterval(..., 30000)]. *)
Definition pingInterval : M server unit :=
  log DEBUG "Running ping check" ;;
  s <- get ;;
  forEach (clients s) probe ;;
  s'' <- get ;;
  match publisher s'' with
  | None => log DEBUG "No publisher connected"
  | Some _ => ret tt
  end.
End Handlers.

Definition fire (env : transport) (ev : event) : M server unit :=
  match ev with
  | Connection c header =>
      s <- get ;;
      set_clients (clients s ++ [c]) ;;
      onConnection env c header
  | Pong c =>
      s <- get ;;
      match listeners s !! c with
      | Some _ => onPong c
      | None => ret tt
      end
  | Message c message =>
      s <- get ;;
      match listeners s !! c with
      | Some isPublisher => onMessage env c isPublisher message
      | None => ret tt
      end
  | Closed c =>
      s <- get ;;
      set_clients (List.filter (fun x => negb (Nat.eqb x c)) (clients s)) ;;
      match listeners s !! c with
      | Some isPublisher => onClose c isPublisher
      | None => ret tt
      end
  | Tick => pingInterval env
  end.

End Part000.

(** ** The revision with the [register] handshake

    A socket starts without a role; a [{type: "register", role}] message
    makes it the publisher or a subscriber. *)

Module Part002.

Record server : Type := mkServer {
  subscribers : list conn;
  publisher : option conn;
  latestData : obj;
  clients : list conn;
  isAlive : gmap conn bool;
  isPublisher : gmap conn bool
}.

Definition init : server :=
  mkServer [] None [] [] ∅ ∅.

Definition set_isAlive (c : conn) (b : bool) : M server unit :=
  modify (fun s => mkServer (subscribers s) (publisher s) (latestData s)
                     (clients s) (<[c := b]> (isAlive s)) (isPublisher s)).

Definition set_isPublisher (c : conn) (b : bool) : M server unit :=
  modify (fun s => mkServer (subscribers s) (publisher s) (latestData s)
                     (clients s) (isAlive s) (<[c := b]> (isPublisher s))).

Definition set_publisher (p : option conn) : M server unit :=
  modify (fun s => mkServer (subscribers s) p (latestData s)
                     (clients s) (isAlive s) (isPublisher s)) ;;
  emit (SetPublisher p).

Definition set_latestData (d : obj) : M server unit :=
  modify (fun s => mkServer (subscribers s) (publisher s) d
                     (clients s) (isAlive s) (isPublisher s)) ;;
  emit (SetLatestData d).

Definition set_subscribers (l : list conn) : M server unit :=
  modify (fun s => mkServer l (publisher s) (latestData s)
                     (clients s) (isAlive s) (isPublisher s)) ;;
  emit (SetSubscribers l).

Definition set_clients (l : list conn) : M server unit :=
  modify (fun s => mkServer (subscribers s) (publisher s) (latestData s)
                     l (isAlive s) (isPublisher s)).

(** [extWs.isPublisher] *)
Definition publisher_flag (s : server) (c : conn) : bool :=
  match isPublisher s !! c with Some b => b | None => false end.

(** [this.publisher === extWs] *)
Definition is_publisher (s : server) (c : conn) : bool :=
  match publisher s with Some p => Nat.eqb p c | None => false end.

Definition disconnect_notice : frame :=
  FJson (JObj [("type", JStr "disconnect"); ("reason", JStr "new-publisher")]).

Definition registered (role : string) : frame :=
  FJson (JObj [("type", JStr "registered"); ("role", JStr role)]).

Section Handlers.
Variable env : transport.

(** The callback of [this.subscribers.forEach], with the local
    [failedCount] it increments. *)
Definition deliver (message : frame) (failedCount : nat) (client : conn)
  : M server nat :=
  try_catch
    (send env client message ;; ret failedCount)
    (log ERROR "Failed to send to subscriber" ;; ret (S failedCount)).

(** [broadcastToSubscribers(data)] *)
Definition broadcastToSubscribers (data : obj) : M server unit :=
  s <- get ;;
  if Nat.eqb (length (subscribers s)) 0 then
    log WARN "No subscribers to broadcast to"
  else
    log INFO "Broadcasting to subscribers" ;;
    let message := FJson (JObj (spread_data data)) in
    failedCount <- foldM (deliver message) (subscribers s) 0 ;;
    s' <- get ;;
    set_subscribers (List.filter (ready_open env) (subscribers s')) ;;
    when (Nat.ltb 0 failedCount)
         (log WARN "Failed to send to subscribers, cleaned up connections").

(** [handleRegistration(ws, role, clientIp)] *)
Definition handleRegistration (ws : conn) (role : option json) : M server unit :=
  if is_str "publisher" role then
    s <- get ;;
    match publisher s with
    | Some old =>
        log WARN "Replacing existing publisher" ;;
        try_catch
          (send env old disconnect_notice)
          (log ERROR "Error notifying old publisher")
    | None => ret tt
    end ;;
    set_isPublisher ws true ;;
    set_publisher (Some ws) ;;
    log INFO "Publisher registered" ;;
    send env ws (registered "publisher")
  else
    s <- get ;;
    set_subscribers (subscribers s ++ [ws]) ;;
    log INFO "Subscriber registered, total" ;;
    send env ws (registered "subscriber") ;;
    s' <- get ;;
    when (nonempty (latestData s'))
         (send env ws (FJson (JObj (spread_data (latestData s'))))).

(** [extWs.on("message", ...)] *)
Definition onMessage (extWs : conn) (message : inbound) : M server unit :=
  try_catch
    (log DEBUG "Received message" ;;
     try_catch
       (data <- JSON_parse message ;;
        t <- js_get data "type" ;;
        if is_str "register" t then
          role <- js_get data "role" ;;
          handleRegistration extWs role
        else
          s <- get ;;
          c <- (if publisher_flag s extWs then js_get data "C" else ret None) ;;
          match c with
          | Some _ =>
              log INFO "Received sensor data from publisher" ;;
              set_latestData (fields_of data) ;;
              broadcastToSubscribers (fields_of data)
          | None => log WARN "Unhandled message type"
          end)
       (match message with
        | Unparseable raw =>
            if String.eqb raw "ping" then send env extWs (FText "pong")
            else log ERROR "Failed to parse message as JSON"
        | Parsed _ => log ERROR "Failed to parse message as JSON"
        end))
    (log ERROR "Error handling message").

(** [extWs.on("close", ...)] *)
Definition onClose (extWs : conn) : M server unit :=
  s <- get ;;
  if publisher_flag s extWs && is_publisher s extWs then
    log INFO "Publisher disconnected" ;;
    set_publisher None
  else
    set_subscribers (List.filter (fun sub => negb (Nat.eqb sub extWs)) (subscribers s)) ;;
    log INFO "Subscriber disconnected, remaining".

(** The body of [wss.on("connection", ...)]. *)
Definition onConnection (extWs : conn) : M server unit :=
  set_isAlive extWs true ;;
  set_isPublisher extWs false ;;
  log INFO "New WebSocket connection" ;;
  send env extWs (FText "connected").

(** The callback of [this.wss.clients.forEach]. *)
Definition probe (ws : conn) : M server unit :=
  s' <- get ;;
  if negb (alive_flag (isAlive s') ws) then
    log WARN "Terminating inactive connection" ;;
    terminate ws
  else
    set_isAlive ws false ;;
    try_catch
      (send env ws (FText "ping"))
      (log ERROR "Failed to ping client" ;; terminate ws).

(** The callback of [setInterval(..., 30000)]. *)
Definition pingInterval : M server unit :=
  s <- get ;;
  forEach (clients s) probe.

(** [GET /health] *)
Definition health (s : server) : json :=
  JObj [("status", JStr "healthy");
        ("subscribers", JNum (inject_Z (Z.of_nat (length (subscribers s)))));
        ("publisher", JStr (match publisher s with
                            | Some _ => "connected"
                            | None => "disconnected"
                            end))].
End Handlers.

Inductive event : Type :=
| Connection (c : conn)
| Message (c : conn) (message : inbound)
| Closed (c : conn)
| Tick.

(** One turn of the event loop; the listeners of a socket are attached
    when it connects, so only connected sockets run a handler. *)
Definition fire (env : transport) (ev : event) : M server unit :=
  match ev with
  | Connection c =>
      s <- get ;;
      set_clients (clients s ++ [c]) ;;
      onConnection env c
  | Message c message =>
      s <- get ;;
      match isAlive s !! c with
      | Some _ => onMessage env c message
      | None => ret tt
      end
  | Closed c =>
      s <- get ;;
      set_clients (List.filter (fun x => negb (Nat.eqb x c)) (clients s)) ;;
      match isAlive s !! c with
      | Some _ => onClose c
      | None => ret tt
      end
  | Tick => pingInterval env
  end.

Definition enabled (s : server) (ev : event) : Prop :=
  match ev with
  | Connection c => isAlive s !! c = None
  | _ => True
  end.

Inductive steps : server -> list event -> server -> list action -> Prop :=
| steps_nil s : steps s [] s []
| steps_cons s env ev s1 tr1 evs s2 tr2 :
    enabled s ev ->
    fire env ev s = (Val tt, s1, tr1) ->
    steps s1 evs s2 tr2 ->
    steps s (ev :: evs) s2 (tr1 ++ tr2).

Definition reachable (s : server) : Prop :=
  exists evs tr, steps init evs s tr.

End Part002.

(** ** The dashboard: [static/ws-client.js]

    The page is the state: the two arrays of [chartData] and the elements
    the handlers write. A number is shown as [toFixed(0)] formats it, so the
    element [#conductivity] is modelled by the number itself. The clock and
    the chart library are the environment: the handlers take the strings
    [toLocaleTimeString()] returns, and [plotly_throws] says whether
    [Plotly.update] throws. *)

Module WsClient.

Definition MAX_DATA_POINTS : nat := 50.

Record chartData : Type := mkChart {
  time : list string;
  conductivity : list Q
}.

Record thresholds : Type := mkThresholds {
  ideal : Q;
  good : Q;
  acceptable : Q;
  warning : Q;
  danger : Q
}.

Definition CONDUCTIVITY_THRESHOLDS : thresholds :=
  mkThresholds 300 600 900 1200 1400.

Record evaluation : Type := mkEvaluation {
  status : string;
  class : string
}.

Record page : Type := mkPage {
  chart : chartData;
  conductivity_text : option Q;
  conductivityStatus_text : string;
  conductivityStatus_className : string;
  lastUpdate : option string
}.

Record browser : Type := mkBrowser {
  plotly_throws : bool
}.

Definition set_chart (c : chartData) : M page unit :=
  modify (fun p => mkPage c (conductivity_text p) (conductivityStatus_text p)
                     (conductivityStatus_className p) (lastUpdate p)).

(** [Plotly.update('conductivityChart', ...)] *)
Definition Plotly_update (env : browser) : M page unit :=
  if plotly_throws env then throw else ret tt.

(** [updateChart(conductivity)]; [timeStr] is [now.toLocaleTimeString()]. *)
Definition updateChart (env : browser) (timeStr : string) (reading : Q)
  : M page unit :=
  p <- get ;;
  set_chart (mkChart (time (chart p) ++ [timeStr])
               (conductivity (chart p) ++ [reading])) ;;
  p' <- get ;;
  when (Nat.ltb MAX_DATA_POINTS (length (time (chart p'))))
       (set_chart (mkChart (tl (time (chart p'))) (tl (conductivity (chart p'))))) ;;
  Plotly_update env.

(** [evaluateConductivity(conductivity)]; [value] is
    [parseFloat(conductivity)], which for a number is the number. *)
Definition evaluateConductivity (value : Q) : evaluation :=
  if Qle_bool value (ideal CONDUCTIVITY_THRESHOLDS) then
    mkEvaluation "Excelente - Agua muy pura" "alert-success"
  else if Qle_bool value (good CONDUCTIVITY_THRESHOLDS) then
    mkEvaluation "Buena calidad - Rango normal" "alert-success"
  else if Qle_bool value (acceptable CONDUCTIVITY_THRESHOLDS) then
    mkEvaluation "Aceptable - Monitorear" "alert-info"
  else if Qle_bool value (warning CONDUCTIVITY_THRESHOLDS) then
    mkEvaluation "Advertencia: Conductividad elevada" "alert-warning"
  else
    mkEvaluation "PELIGRO: Conductividad muy alta" "alert-danger".

(** [conductivity.toFixed(0)]: a [TypeError] unless [conductivity] is a
    number. *)
Definition toFixed (conductivity : option json) : M page Q :=
  match conductivity with
  | Some (JNum q) => ret q
  | _ => throw
  end.

(** [updateInterface(data)]; [now] and [now'] are the two readings of the
    clock. *)
Definition updateInterface (env : browser) (now now' : string) (data : json)
  : M page unit :=
  conductivity <- js_get data "C" ;;
  reading <- toFixed conductivity ;;
  modify (fun p => mkPage (chart p) (Some reading) (conductivityStatus_text p)
                     (conductivityStatus_className p) (lastUpdate p)) ;;
  let evaluation := evaluateConductivity reading in
  modify (fun p => mkPage (chart p) (conductivity_text p) (status evaluation)
                     ("sensor-status " ++ class evaluation) (lastUpdate p)) ;;
  modify (fun p => mkPage (chart p) (conductivity_text p) (conductivityStatus_text p)
                     (conductivityStatus_className p) (Some now)) ;;
  updateChart env now' reading.

(** [ws.onmessage] *)
Definition onmessage (env : browser) (now now' : string) (event_data : inbound)
  : M page unit :=
  data <- JSON_parse event_data ;;
  log INFO "Datos recibidos:" ;;
  c <- js_get data "C" ;;
  match c with
  | Some _ => updateInterface env now now' data
  | None => ret tt
  end.

End WsClient.

(** ** The logging revision of the dashboard

    The same page and thresholds; every handler logs and catches. *)

Module Part001.
Import WsClient.

Definition updateChart (env : browser) (timeStr : string) (reading : Q)
  : M page unit :=
  log DEBUG "Updating chart with conductivity" ;;
  try_catch
    (p <- get ;;
     set_chart (mkChart (time (chart p) ++ [timeStr])
                  (conductivity (chart p) ++ [reading])) ;;
     p' <- get ;;
     when (Nat.ltb MAX_DATA_POINTS (length (time (chart p'))))
          (set_chart (mkChart (tl (time (chart p'))) (tl (conductivity (chart p'))))) ;;
     Plotly_update env ;;
     log DEBUG "Chart updated successfully")
    (log ERROR "Failed to update chart").

Definition evaluateConductivity (value : Q) : M page evaluation :=
  log DEBUG "Evaluating conductivity" ;;
  ret (WsClient.evaluateConductivity value).

Definition updateInterface (env : browser) (now now' : string) (data : json)
  : M page unit :=
  log INFO "Updating interface with new data" ;;
  try_catch
    (conductivity <- js_get data "C" ;;
     match conductivity with
     | None | Some JNull => log WARN "Invalid conductivity value received"
     | Some _ =>
         reading <- toFixed conductivity ;;
         modify (fun p => mkPage (chart p) (Some reading) (conductivityStatus_text p)
                            (conductivityStatus_className p) (lastUpdate p)) ;;
         evaluation <- evaluateConductivity reading ;;
         log DEBUG "Conductivity evaluation" ;;
         modify (fun p => mkPage (chart p) (conductivity_text p) (status evaluation)
                            ("sensor-status " ++ class evaluation) (lastUpdate p)) ;;
         modify (fun p => mkPage (chart p) (conductivity_text p)
                            (conductivityStatus_text p)
                            (conductivityStatus_className p) (Some now)) ;;
         updateChart env now' reading
     end)
    (log ERROR "Failed to update interface").

Definition onmessage (env : browser) (now now' : string) (event_data : inbound)
  : M page unit :=
  log DEBUG "Raw WebSocket message received" ;;
  try_catch
    (data <- JSON_parse event_data ;;
     log INFO "Parsed WebSocket data" ;;
     c <- js_get data "C" ;;
     match c with
     | Some _ => updateInterface env now now' data
     | None => log WARN "Received data missing conductivity value"
     end)
    (log ERROR "Failed to parse WebSocket message").

End Part001.

(** * The vocabulary of the properties *)

(** The payload of a message that carries the conductivity field [C]. *)
Definition sample_of (message : inbound) : option obj :=
  match message with
  | Parsed (JObj o) => if has_key "C" o then Some o else None
  | _ => None
  end.

Definition is_log (a : action) : Prop :=
  match a with Log _ _ => True | _ => False end.

(** The role asked for by a [register] frame. *)
Definition register_role (message : inbound) : option (option json) :=
  match message with
  | Parsed (JObj o) =>
      if is_str "register" (lookup_key "type" o) then Some (lookup_key "role" o)
      else None
  | _ => None
  end.

(** The send of [f] to [c] returns. *)
Definition ok (env : transport) (f : frame) (c : conn) : bool :=
  negb (send_throws env c f).

Section ServerTsVocabulary.
Import ServerTs.

(** The fields of the registry other than the liveness flags. *)
Definition ts_same_registry (s s' : server) : Prop :=
  subscribers s' = subscribers s /\ publisher s' = publisher s /\
  latestData s' = latestData s /\ clients s' = clients s /\
  type s' = type s /\ listeners s' = listeners s.

Definition ts_with_subscribers (s : server) (l : list conn) : server :=
  mkServer l (publisher s) (latestData s) (clients s) (isAlive s) (type s)
    (listeners s).

Definition is_publisher_header (header : option string) : bool :=
  match header with
  | Some h => String.eqb h "arduino-publisher"
  | None => false
  end.

(** Roles are those assigned at connection time, no socket is subscribed
    twice, and every client of the [ws] server has its listeners. *)
Record ts_wf (s : server) : Prop := mk_ts_wf {
  ts_wf_pub : forall c, publisher s = Some c -> type s !! c = Some PUBLISHER;
  ts_wf_sub : forall c, In c (subscribers s) -> type s !! c = Some SUBSCRIBER;
  ts_wf_nodup : List.NoDup (subscribers s);
  ts_wf_lis : forall (c : conn) (b : bool), listeners s !! c = Some b ->
                type s !! c = Some (if b then PUBLISHER else SUBSCRIBER);
  ts_wf_type : forall c : conn, is_Some (type s !! c) -> is_Some (isAlive s !! c);
  ts_wf_clients_nodup : List.NoDup (clients s);
  ts_wf_clients : forall c, In c (clients s) -> is_Some (listeners s !! c)
}.

Definition ts_drop_client (c : conn) (s : server) : server :=
  mkServer (subscribers s) (publisher s) (latestData s)
    (List.filter (fun x => negb (Nat.eqb x c)) (clients s))
    (isAlive s) (type s) (listeners s).

Definition ts_add_client (c : conn) (s : server) : server :=
  mkServer (subscribers s) (publisher s) (latestData s) (clients s ++ [c])
    (isAlive s) (type s) (listeners s).

End ServerTsVocabulary.

Section Part002Vocabulary.
Import Part002.

Definition p2_same_registry (s s' : server) : Prop :=
  subscribers s' = subscribers s /\ publisher s' = publisher s /\
  latestData s' = latestData s /\ clients s' = clients s /\
  isPublisher s' = isPublisher s.

Definition is_pong_reply (c : conn) (a : action) : Prop :=
  match a with
  | Log _ _ => True
  | Send c' (FText "pong") => c' = c
  | _ => False
  end.

Definition p2_drop_client (c : conn) (s : server) : server :=
  mkServer (subscribers s) (publisher s) (latestData s)
    (List.filter (fun x => negb (Nat.eqb x c)) (clients s))
    (isAlive s) (isPublisher s).

Definition p2_add_client (c : conn) (s : server) : server :=
  mkServer (subscribers s) (publisher s) (latestData s)
    (clients s ++ [c]) (isAlive s) (isPublisher s).

(** The installed publisher carries the [isPublisher] flag, every socket
    the registry knows has connected, and no client is listed twice. *)
Record p2_wf (s : server) : Prop := mk_p2_wf {
  p2_wf_flag : forall c, publisher s = Some c -> publisher_flag s c = true;
  p2_wf_pub : forall c, publisher s = Some c -> is_Some (isAlive s !! c);
  p2_wf_sub : forall c, In c (subscribers s) -> is_Some (isAlive s !! c);
  p2_wf_clients : forall c, In c (clients s) -> is_Some (isAlive s !! c);
  p2_wf_clients_nodup : List.NoDup (clients s)
}.

End Part002Vocabulary.

(** A producer registers: in [src/server.ts] by connecting with the
    [x-device-type: arduino-publisher] header, in the handshake revision by
    sending the [register] frame with the role [publisher]. *)
Definition ts_registerProducer (reg : transport * conn) : M ServerTs.server unit :=
  ServerTs.onConnection (fst reg) (snd reg) (Some "arduino-publisher").

Definition register_frame (role : string) : inbound :=
  Parsed (JObj [("type", JStr "register"); ("role", JStr role)]).

Definition p2_registerProducer (reg : transport * conn) : M Part002.server unit :=
  Part002.onMessage (fst reg) (snd reg) (register_frame "publisher").

(** The close signal a superseded producer gets in [src/server.ts]. *)
Definition ts_superseded (old : conn) : action :=
  Close old 1000 "New publisher connected".

(** What a superseded producer gets in the handshake revision: the
    [disconnect] notice, a frame as any other. The socket is neither closed
    nor terminated. *)
Definition p2_notified (old : conn) : action :=
  Send old Part002.disconnect_notice.

(** The action closes or terminates a socket. *)
Definition ends_socket (a : action) : bool :=
  match a with
  | Close _ _ _ | Terminate _ => true
  | _ => false
  end.

(** [tr] installs [c] once, after the action [signal]. *)
Definition installs_after (signal : option action) (c : conn) (tr : list action)
  : Prop :=
  exists pre post,
    tr = pre ++ SetPublisher (Some c) :: post /\
    (forall a, signal = Some a -> In a pre) /\
    (forall p, ~ In (SetPublisher p) pre) /\
    (forall p, ~ In (SetPublisher p) post).

Definition sets_latest (a : action) : Prop :=
  match a with SetLatestData _ => True | _ => False end.

(** The sample is stored before anything is sent: the trace is some log
    lines, then the assignment, then the fan-out. *)
Definition stored_before_fanout (o : obj) (tr : list action) : Prop :=
  exists pre post,
    tr = pre ++ SetLatestData o :: post /\
    Forall is_log pre /\
    Forall (fun a => ~ sets_latest a) post.

(** The body the specification describes for [GET /health]. *)
Definition health_as_specified (h : json) (size : nat) (connected : bool) : Prop :=
  is_Some (lookup_key "status" (fields_of h)) /\
  lookup_key "subscriber_count" (fields_of h) =
    Some (JNum (inject_Z (Z.of_nat size))) /\
  lookup_key "producer_connected" (fields_of h) = Some (JBool connected).

(** The body the handlers build. *)
Definition health_as_built (h : json) (size : nat) (connected : bool) : Prop :=
  map fst (fields_of h) = ["status"; "subscribers"; "publisher"] /\
  lookup_key "status" (fields_of h) = Some (JStr "healthy") /\
  lookup_key "subscribers" (fields_of h) =
    Some (JNum (inject_Z (Z.of_nat size))) /\
  lookup_key "publisher" (fields_of h) =
    Some (JStr (if connected then "connected" else "disconnected")).

Definition installed (p : option conn) : bool :=
  match p with Some _ => true | None => false end.

(** A transport on which only the sends to [bad] throw, every socket being
    [OPEN]. *)
Definition only_throws (bad : conn) : transport :=
  mkTransport (fun c _ => Nat.eqb c bad) (fun _ => false) (fun _ => false)
    (fun _ => true).

(** A transport on which nothing throws, the socket [gone] being no longer
    [OPEN]. *)
Definition only_closed (gone : conn) : transport :=
  mkTransport (fun _ _ => false) (fun _ => false) (fun _ => false)
    (fun c => negb (Nat.eqb c gone)).

(** A transport on which nothing throws. *)
Definition quiet : transport :=
  mkTransport (fun _ _ => false) (fun _ => false) (fun _ => false) (fun _ => true).

Definition sample_450 : obj := [("C", JNum (inject_Z 450))].

(** One producer (socket 0) and three consumers (sockets 1, 2, 3). *)
Definition p2_three_consumers : Part002.server :=
  state_of
    (forEach
       [Part002.Connection 0; Part002.Message 0 (register_frame "publisher");
        Part002.Connection 1; Part002.Message 1 (register_frame "subscriber");
        Part002.Connection 2; Part002.Message 2 (register_frame "subscriber");
        Part002.Connection 3; Part002.Message 3 (register_frame "subscriber")]
       (Part002.fire quiet) Part002.init).

Definition ts_three_consumers : ServerTs.server :=
  state_of
    (forEach
       [ServerTs.Connection 0 (Some "arduino-publisher");
        ServerTs.Connection 1 None; ServerTs.Connection 2 None;
        ServerTs.Connection 3 None]
       (ServerTs.fire quiet) ServerTs.init).

(** [src/server.ts] after the producer (socket 0) relayed the sample
    [{C: 450}]. *)
Definition ts_after_sample : ServerTs.server :=
  state_of
    (forEach
       [ServerTs.Connection 0 (Some "arduino-publisher");
        ServerTs.Message 0 (Parsed (JObj sample_450))]
       (ServerTs.fire quiet) ServerTs.init).

Definition ts_exclusive (s : ServerTs.server) : Prop :=
  forall c, ~ (ServerTs.publisher s = Some c /\ In c (ServerTs.subscribers s)).

Definition p2_exclusive (s : Part002.server) : Prop :=
  forall c, ~ (Part002.publisher s = Some c /\ In c (Part002.subscribers s)).

Definition p2_has_role (s : Part002.server) (c : conn) : Prop :=
  Part002.publisher s = Some c \/ In c (Part002.subscribers s).

(** How many [register] frames the socket [c] sends in a run. *)
Fixpoint register_count (c : conn) (evs : list Part002.event) : nat :=
  match evs with
  | [] => 0
  | Part002.Message c' message :: rest =>
      (if Nat.eqb c' c then
         match register_role message with Some _ => 1 | None => 0 end
       else 0) + register_count c rest
  | _ :: rest => register_count c rest
  end.

(** The handshake revision after socket 1 connected, registered as a
    consumer and then registered as a producer. *)
Definition p2_both_roles : Part002.server :=
  state_of
    (forEach [Part002.Connection 1;
              Part002.Message 1 (register_frame "subscriber");
              Part002.Message 1 (register_frame "publisher")]
       (Part002.fire quiet) Part002.init).

Definition pH_only : json := JObj [("PH", JNum (71 # 10))].

(** [src/server.ts] with one consumer (socket 1) that has not answered the
    probe of the last sweep. *)
Definition ts_silent_client : ServerTs.server :=
  state_of
    (forEach [ServerTs.Connection 1 None; ServerTs.Tick]
       (ServerTs.fire quiet) ServerTs.init).

Definition p2_silent_client : Part002.server :=
  state_of
    (forEach [Part002.Connection 1;
              Part002.Message 1 (register_frame "subscriber"); Part002.Tick]
       (Part002.fire quiet) Part002.init).

(** A producer (socket 1) and a consumer (socket 3) are registered, and
    socket 2 has connected. *)
Definition p2_producer_and_consumer : Part002.server :=
  state_of
    (forEach [Part002.Connection 1; Part002.Message 1 (register_frame "publisher");
              Part002.Connection 3; Part002.Message 3 (register_frame "subscriber");
              Part002.Connection 2]
       (Part002.fire quiet) Part002.init).

(** The same for [src/server.ts], where the connection of socket 2 is its
    registration. *)
Definition ts_producer_and_consumer : ServerTs.server :=
  state_of
    (forEach [ServerTs.Connection 1 (Some "arduino-publisher");
              ServerTs.Connection 3 None]
       (ServerTs.fire quiet) ServerTs.init).

(** The handshake revision with one consumer (socket 1). *)
Definition p2_one_consumer : Part002.server :=
  state_of
    (forEach [Part002.Connection 1; Part002.Message 1 (register_frame "subscriber")]
       (Part002.fire quiet) Part002.init).

(** ** The vocabulary of the further properties *)

(** The action is a log line. *)
Definition is_logb (a : action) : bool :=
  match a with Log _ _ => true | _ => false end.

(** A trace without its log lines. *)
Definition erase_logs (tr : list action) : list action :=
  List.filter (fun a => negb (is_logb a)) tr.

(** Two outcomes with the same result, the same state and the same actions
    between the log lines. *)
Definition same_effects {S A} (x y : result A * S * list action) : Prop :=
  result_of x = result_of y /\ state_of x = state_of y /\
  erase_logs (trace_of x) = erase_logs (trace_of y).

(** Every socket of the registry is a client of the [ws] server. *)
Definition ts_within_clients (s : ServerTs.server) : Prop :=
  (forall c, In c (ServerTs.subscribers s) -> In c (ServerTs.clients s)) /\
  (forall c, ServerTs.publisher s = Some c -> In c (ServerTs.clients s)).

(** An object that is empty or has the [C] field. *)
Definition carries_C (o : obj) : Prop :=
  nonempty o = true -> has_key "C" o = true.

(** The frames a trace sends, each with its socket, in order. *)
Definition sends_of (tr : list action) : list (conn * frame) :=
  flat_map (fun a => match a with Send c f => [(c, f)] | _ => [] end) tr.

(** The event removes the subscriber [c] in [src/server.ts]: its close, or
    a sample of a publisher socket whose send to [c] throws. *)
Definition ts_evicts (env : transport) (s : ServerTs.server) (ev : ServerTs.event)
    (c : conn) : Prop :=
  ev = ServerTs.Closed c \/
  exists p message o,
    ev = ServerTs.Message p message /\ ServerTs.listeners s !! p = Some true /\
    sample_of message = Some o /\ send_throws env c (FJson (JObj o)) = true.

(** The event removes the subscriber [c] in the handshake revision: a close
    of [c] that takes the subscriber branch, or a sample relayed while [c] is
    not [OPEN]. *)
Definition p2_evicts (env : transport) (s : Part002.server) (ev : Part002.event)
    (c : conn) : Prop :=
  (ev = Part002.Closed c /\
   Part002.publisher_flag s c && Part002.is_publisher s c = false) \/
  exists p message o,
    ev = Part002.Message p message /\ is_Some (Part002.isAlive s !! p) /\
    register_role message = None /\ Part002.publisher_flag s p = true /\
    sample_of message = Some o /\ ready_open env c = false.


(** A run of the logging revision, as [ServerTs.steps]. *)
Inductive p0_steps
  : ServerTs.server -> list ServerTs.event -> ServerTs.server -> list action -> Prop :=
| p0_steps_nil s : p0_steps s [] s []
| p0_steps_cons s env ev s1 tr1 evs s2 tr2 :
    ServerTs.enabled s ev ->
    Part000.fire env ev s = (Val tt, s1, tr1) ->
    p0_steps s1 evs s2 tr2 ->
    p0_steps s (ev :: evs) s2 (tr1 ++ tr2).

(** The events [evs] are a run of [src/server.ts] on the transport [env]
    from [s]: every [connection] event brings a new socket and every handler
    returns. *)
Definition ts_enabledb (s : ServerTs.server) (ev : ServerTs.event) : bool :=
  match ev with
  | ServerTs.Connection c _ =>
      match ServerTs.isAlive s !! c with None => true | Some _ => false end
  | _ => true
  end.

Fixpoint ts_runs (env : transport) (s : ServerTs.server) (evs : list ServerTs.event)
  : bool :=
  match evs with
  | [] => true
  | ev :: rest =>
      ts_enabledb s ev &&
      match ServerTs.fire env ev s with
      | (Val _, s1, _) => ts_runs env s1 rest
      | (Throw, _, _) => false
      end
  end.

(** Every sweep of the run finds that [c] has sent a pong since the sweep
    before; [alive] is the liveness flag of [c] when the run starts. *)
Fixpoint answers_probes (c : conn) (alive : bool) (evs : list ServerTs.event) : bool :=
  match evs with
  | [] => true
  | ServerTs.Tick :: rest => alive && answers_probes c false rest
  | ServerTs.Pong c' :: rest => answers_probes c (alive || Nat.eqb c' c) rest
  | _ :: rest => answers_probes c alive rest
  end.

(** The event is not a message of the socket [c]. *)
Definition p2_sends_nothing (c : conn) (ev : Part002.event) : Prop :=
  match ev with
  | Part002.Message c' _ => c' <> c
  | _ => True
  end.

(** The same for the handshake revision. *)
Definition p2_enabledb (s : Part002.server) (ev : Part002.event) : bool :=
  match ev with
  | Part002.Connection c =>
      match Part002.isAlive s !! c with None => true | Some _ => false end
  | _ => true
  end.

Fixpoint p2_runs (env : transport) (s : Part002.server) (evs : list Part002.event)
  : bool :=
  match evs with
  | [] => true
  | ev :: rest =>
      p2_enabledb s ev &&
      match Part002.fire env ev s with
      | (Val _, s1, _) => p2_runs env s1 rest
      | (Throw, _, _) => false
      end
  end.

(** States and frames of the examples. *)

(** [src/server.ts] with one consumer (socket 1). *)
Definition ts_one_consumer : ServerTs.server :=
  state_of (ServerTs.fire quiet (ServerTs.Connection 1 None) ServerTs.init).


(** A [register] frame with the role [producer]. *)
Definition producer_role_frame : inbound :=
  Parsed (JObj [("type", JStr "register"); ("role", JStr "producer")]).

(** The handshake revision with one socket that has not registered. *)
Definition p2_one_client : Part002.server :=
  state_of (Part002.fire quiet (Part002.Connection 1) Part002.init).

(** [src/server.ts] after socket 4 superseded the publisher (socket 0) of
    [ts_three_consumers]. *)
Definition ts_superseded_publisher : ServerTs.server :=
  state_of (ServerTs.fire quiet (ServerTs.Connection 4 (Some "arduino-publisher"))
              ts_three_consumers).

(** A dashboard (socket 1) connects after the sample [{C: 450}] was stored,
    and the publisher (socket 0) sends the sample again. *)
Definition p2_dashboard_run : list Part002.event :=
  [Part002.Connection 0; Part002.Message 0 (register_frame "publisher");
   Part002.Message 0 (Parsed (JObj sample_450));
   Part002.Connection 1;
   Part002.Message 0 (Parsed (JObj sample_450)); Part002.Tick].

(** ** The vocabulary of the dashboard *)

(** What [JSON.parse(event.data)] gives a dashboard for a frame of the
    server. The text frames ([connected], [ping], [pong]) are not JSON. For
    [FJson j] the text is [JSON.stringify] of [j], and parsing it gives [j]
    back: [json] holds the values that survive this round trip, its numbers
    being the finite ones. A number that is not finite (the literal [1e999]
    parses to an infinity) is outside [JNum]: the servers never inspect a
    number, [JSON.stringify] writes such a number as [null], and the frame
    that relays it is the frame of a sample that holds [null] in its
    place. *)
Definition received (f : frame) : inbound :=
  match f with
  | FText s => Unparseable s
  | FJson j => Parsed j
  end.

(** The last [MAX_DATA_POINTS] elements. *)
Definition window {A} (l : list A) : list A :=
  skipn (length l - WsClient.MAX_DATA_POINTS) l.

(** The conductivity a frame carries as a number. *)
Definition reading_of (message : inbound) : option Q :=
  match message with
  | Parsed (JObj o) =>
      match lookup_key "C" o with Some (JNum q) => Some q | _ => None end
  | _ => None
  end.

(** The page after it showed [reading]. *)
Definition shows (now now' : string) (reading : Q) (p : WsClient.page)
  : WsClient.page :=
  let t := WsClient.time (WsClient.chart p) ++ [now'] in
  let c := WsClient.conductivity (WsClient.chart p) ++ [reading] in
  WsClient.mkPage
    (if Nat.ltb WsClient.MAX_DATA_POINTS (length t)
     then WsClient.mkChart (tl t) (tl c) else WsClient.mkChart t c)
    (Some reading)
    (WsClient.status (WsClient.evaluateConductivity reading))
    ("sensor-status " ++ WsClient.class (WsClient.evaluateConductivity reading))
    (Some now).

(** The rank of an evaluation, from the purest water to the danger. *)
Definition severity (e : WsClient.evaluation) : nat :=
  if String.eqb (WsClient.status e) "Excelente - Agua muy pura" then 0
  else if String.eqb (WsClient.status e) "Buena calidad - Rango normal" then 1
  else if String.eqb (WsClient.status e) "Aceptable - Monitorear" then 2
  else if String.eqb (WsClient.status e) "Advertencia: Conductividad elevada" then 3
  else 4.

(** The chart after the readings [l], each with its time. *)
Definition chart_after (env : WsClient.browser) (l : list (string * Q))
    (p : WsClient.page) : WsClient.page :=
  state_of (forEach l (fun x => Part001.updateChart env (fst x) (snd x)) p).

(** The page before any reading, and a browser whose chart library does
    not throw. *)
Definition empty_page : WsClient.page :=
  WsClient.mkPage (WsClient.mkChart [] []) None EmptyString EmptyString None.

Definition plotly_ok : WsClient.browser := WsClient.mkBrowser false.

(** A sample whose [C] is [null]. *)
Definition null_sample : obj := [("C", JNull)].

(** Fifty-one readings, 1 to 51, one more than the chart holds. *)
Definition readings_51 : list (string * Q) :=
  map (fun n => ("12:00:00", inject_Z (Z.of_nat n))) (seq 1 51).

(** Tactics of the proofs. *)

Ltac unfold_monad :=
  unfold bind, ret, throw, try_catch, emit, get, modify, when, send, close,
    ping, terminate, log, state_of, trace_of, result_of in *.

Ltac p2_step env :=
  eapply (Part002.steps_cons _ env); [vm_compute; try reflexivity; exact I
                                      |vm_compute; reflexivity|].

Ltac ts_step env :=
  eapply (ServerTs.steps_cons _ env); [vm_compute; try reflexivity; exact I
                                       |vm_compute; reflexivity|].

(** * Properties *)

(** ** Loops *)

Section Loops.
Context {S A : Type}.
Implicit Types (body : A -> M S unit) (l : list A).

Lemma forEach_cons body x l s :
  forEach (x :: l) body s =
    match body x s with
    | (Val _, s1, t1) =>
        (result_of (forEach l body s1), state_of (forEach l body s1),
         t1 ++ trace_of (forEach l body s1))
    | (Throw, s1, t1) => (Throw, s1, t1)
    end.
Proof.
  cbn [forEach]. unfold bind.
  destruct (body x s) as [[[[]|] s1] t1]; [|reflexivity].
  unfold result_of, state_of, trace_of.
  destruct (forEach l body s1) as [[r s2] t2]. reflexivity.
Qed.

Lemma forEach_state (P : S -> Prop) body l :
  (forall x s, In x l -> P s -> P (state_of (body x s))) ->
  forall s, P s -> P (state_of (forEach l body s)).
Proof.
  induction l as [|x l IH]; intros Hb s Hs; [exact Hs|].
  rewrite forEach_cons.
  pose proof (Hb x s (or_introl eq_refl) Hs) as H1.
  destruct (body x s) as [[[[]|] s1] t1]; cbn in *; [|exact H1].
  apply IH; [|exact H1]. intros y s' Hy. apply Hb. now right.
Qed.

Lemma forEach_trace (Q : action -> Prop) body l :
  (forall x s, In x l -> Forall Q (trace_of (body x s))) ->
  forall s, Forall Q (trace_of (forEach l body s)).
Proof.
  induction l as [|x l IH]; intros Hb s; [constructor|].
  rewrite forEach_cons.
  pose proof (Hb x s (or_introl eq_refl)) as H1.
  destruct (body x s) as [[[[]|] s1] t1]; cbn in *; [|exact H1].
  apply Forall_app. split; [exact H1|].
  apply IH. intros y s' Hy. apply Hb. now right.
Qed.

Lemma forEach_returns body l :
  (forall x s, In x l -> result_of (body x s) = Val tt) ->
  forall s, result_of (forEach l body s) = Val tt.
Proof.
  induction l as [|x l IH]; intros Hb s; [reflexivity|].
  rewrite forEach_cons.
  pose proof (Hb x s (or_introl eq_refl)) as H1.
  destruct (body x s) as [[[[]|] s1] t1]; cbn in *; [|discriminate].
  apply IH. intros y s' Hy. apply Hb. now right.
Qed.
End Loops.

Lemma triple_eta {S A} (x : result A * S * list action) :
  x = (result_of x, state_of x, trace_of x).
Proof. now destruct x as [[r s] t]. Qed.

(** ** Arrays of sockets *)

Lemma indexOf_app_fresh (x : conn) (pre rest : list conn) :
  ~ In x pre -> indexOf x (pre ++ x :: rest) = Some (length pre).
Proof.
  induction pre as [|y pre IH]; intros H; cbn.
  - now rewrite Nat.eqb_refl.
  - destruct (Nat.eqb_spec y x) as [->|_]; [exfalso; apply H; now left|].
    rewrite IH; [reflexivity|]. intros Hin. apply H. now right.
Qed.

Lemma splice1_app (x : conn) (pre rest : list conn) :
  splice1 (length pre) (pre ++ x :: rest) = pre ++ rest.
Proof. induction pre as [|y pre IH]; cbn; [reflexivity|now rewrite IH]. Qed.

Lemma indexOf_split (x : conn) (l : list conn) :
  match indexOf x l with
  | Some i => exists pre rest, l = pre ++ x :: rest /\ ~ In x pre /\ i = length pre
  | None => ~ In x l
  end.
Proof.
  induction l as [|y l IH]; cbn; [tauto|].
  destruct (Nat.eqb_spec y x) as [->|Hne].
  - exists [], l. cbn. tauto.
  - destruct (indexOf x l) as [i|]; cbn.
    + destruct IH as (pre & rest & -> & Hpre & ->).
      exists (y :: pre), rest. cbn. intuition congruence.
    + intuition congruence.
Qed.

Lemma In_app_remove (x c : conn) (pre rest : list conn) :
  In c (pre ++ rest) -> In c (pre ++ x :: rest).
Proof. rewrite !in_app_iff. cbn. tauto. Qed.

Lemma NoDup_app_remove (x : conn) (pre rest : list conn) :
  List.NoDup (pre ++ x :: rest) -> List.NoDup (pre ++ rest) /\ ~ In x (pre ++ rest).
Proof.
  intros H. split.
  - eapply List.NoDup_remove_1; exact H.
  - eapply List.NoDup_remove_2; exact H.
Qed.

Lemma filter_negb_eqb_In (c x : conn) (l : list conn) :
  In x (List.filter (fun y => negb (Nat.eqb y c)) l) <-> In x l /\ x <> c.
Proof.
  rewrite List.filter_In. destruct (Nat.eqb_spec x c); cbn; intuition congruence.
Qed.

Lemma alive_flag_insert_ne (m : gmap conn bool) (x c : conn) (b : bool) :
  x <> c -> alive_flag (<[x := b]> m) c = alive_flag m c.
Proof. intros H. unfold alive_flag. now rewrite lookup_insert_ne. Qed.

Lemma alive_flag_insert_eq (m : gmap conn bool) (c : conn) (b : bool) :
  alive_flag (<[c := b]> m) c = b.
Proof. unfold alive_flag. now rewrite lookup_insert_eq. Qed.

(** ** [src/server.ts]: what each handler does *)

Section ServerTsHandlers.
Import ServerTs.
Variable env : transport.

Lemma ts_probe_spec ws s :
  probe env ws s =
    if alive_flag (isAlive s) ws then
      (Val tt,
       mkServer (subscribers s) (publisher s) (latestData s) (clients s)
         (<[ws := false]> (isAlive s)) (type s) (listeners s),
       if ping_throws env ws then [Ping ws; Terminate ws] else [Ping ws])
    else (Val tt, s, [Terminate ws]).
Proof.
  unfold probe, set_isAlive. unfold_monad. cbn.
  destruct (alive_flag (isAlive s) ws); cbn; [|reflexivity].
  destruct (ping_throws env ws); reflexivity.
Qed.

Lemma ts_sweep_registry l s :
  ts_same_registry s (state_of (forEach l (probe env) s)) /\
  result_of (forEach l (probe env) s) = Val tt.
Proof.
  split.
  - apply (forEach_state (ts_same_registry s)); [|now repeat split].
    intros x s' _ H. rewrite ts_probe_spec.
    destruct (alive_flag (isAlive s') x); exact H.
  - apply forEach_returns. intros x s' _. rewrite ts_probe_spec.
    destruct (alive_flag _ _); reflexivity.
Qed.

Lemma ts_sweep_alive_dom l s c :
  is_Some (isAlive s !! c) ->
  is_Some (isAlive (state_of (forEach l (probe env) s)) !! c).
Proof.
  apply (forEach_state (fun s' => is_Some (isAlive s' !! c))).
  intros x s' _ H. rewrite ts_probe_spec.
  destruct (alive_flag (isAlive s') x); cbn; [|exact H].
  destruct (Nat.eq_dec x c) as [->|Hne].
  - rewrite lookup_insert_eq. eauto.
  - now rewrite lookup_insert_ne.
Qed.

(** The sweep terminates exactly the sockets whose flag is down and those
    whose ping throws. *)
Lemma ts_sweep_terminates l : List.NoDup l -> forall s c,
  In (Terminate c) (trace_of (forEach l (probe env) s)) <->
  In c l /\ (alive_flag (isAlive s) c = false \/ ping_throws env c = true).
Proof.
  induction 1 as [|x l Hx Hl IH]; intros s c.
  - cbn. tauto.
  - rewrite forEach_cons, ts_probe_spec.
    destruct (alive_flag (isAlive s) x) eqn:Ex; cbn [trace_of snd].
    + rewrite in_app_iff, IH. cbn [isAlive].
      destruct (Nat.eq_dec x c) as [->|Hne].
      * destruct (ping_throws env c) eqn:Ep; cbn; split; intros H.
        -- split; [now left|now right].
        -- left. right. left. reflexivity.
        -- destruct H as [[[=]|[]]|[Hc _]]. contradiction.
        -- destruct H as [_ [H|H]]; congruence.
      * rewrite alive_flag_insert_ne by exact Hne.
        destruct (ping_throws env x); cbn; split; intros H.
        -- destruct H as [[[=]|[[= ->]|[]]]|[Hc H]]; [congruence|].
           split; [now right|exact H].
        -- destruct H as [[->|Hc] H]; [congruence|]. right. split; assumption.
        -- destruct H as [[[=]|[]]|[Hc H]]. split; [now right|exact H].
        -- destruct H as [[->|Hc] H]; [congruence|]. right. split; assumption.
    + rewrite in_app_iff, IH. cbn.
      destruct (Nat.eq_dec x c) as [->|Hne]; split; intros H.
      * split; [now left|now left].
      * left. now left.
      * destruct H as [[[= ->]|[]]|[Hc H]]; [congruence|].
        split; [now right|exact H].
      * destruct H as [[->|Hc] H]; [congruence|]. right. split; assumption.
Qed.

Lemma ts_deliver_spec f x s :
  deliver env f x s =
    if send_throws env x f then
      match indexOf x (subscribers s) with
      | Some i =>
          (Val tt, ts_with_subscribers s (splice1 i (subscribers s)),
           [Send x f; Log ERROR "Error al enviar datos";
            SetSubscribers (splice1 i (subscribers s))])
      | None => (Val tt, s, [Send x f; Log ERROR "Error al enviar datos"])
      end
    else (Val tt, s, [Send x f]).
Proof.
  unfold deliver, set_subscribers. unfold_monad. cbn.
  destruct (send_throws env x f); cbn; [|reflexivity].
  destruct (indexOf x (subscribers s)); reflexivity.
Qed.

(** The loop of the fan-out, started on the part [rest] of the copy that
    is still to be served, when the sockets served before it and kept are
    [pre]. *)
Lemma ts_fanout_loop f rest : forall pre s,
  subscribers s = pre ++ rest ->
  (forall y, In y pre -> send_throws env y f = false) ->
  let r := forEach rest (deliver env f) s in
  result_of r = Val tt /\
  state_of r = ts_with_subscribers s (pre ++ List.filter (ok env f) rest) /\
  (forall c, In (Send c f) (trace_of r) <-> In c rest) /\
  Forall (fun a => match a with
                   | Send _ f' => f' = f
                   | Log _ _ | SetSubscribers _ => True
                   | _ => False
                   end) (trace_of r).
Proof.
  induction rest as [|x rest IH]; intros pre s Hs Hpre.
  - cbn. rewrite app_nil_r. rewrite app_nil_r in Hs.
    repeat split; try tauto.
    + destruct s; cbn in *; subst; reflexivity.
    + constructor.
  - cbn zeta. rewrite forEach_cons, ts_deliver_spec.
    unfold ok at 1. cbn [List.filter].
    destruct (send_throws env x f) eqn:Ex; cbn [negb].
    + rewrite Hs, indexOf_app_fresh, splice1_app.
      2:{ intros Hin. apply Hpre in Hin. congruence. }
      specialize (IH pre (ts_with_subscribers s (pre ++ rest)) eq_refl Hpre).
      cbn zeta in IH. destruct IH as (Hr & Hst & Htr & Hall).
      cbn [result_of state_of trace_of fst snd].
      repeat split.
      * exact Hr.
      * rewrite Hst. reflexivity.
      * intros [[= ->]|[[=]|[[=]|H]]]; [now left|]. right. now apply Htr.
      * intros [->|H]; [now left|]. right. right. right. now apply Htr.
      * repeat constructor. exact Hall.
    + specialize (IH (pre ++ [x]) s).
      rewrite <- !app_assoc in IH. cbn [app] in IH.
      destruct IH as (Hr & Hst & Htr & Hall); [exact Hs| |].
      { intros y [Hy|[<-|[]]]%in_app_iff; [now apply Hpre|exact Ex]. }
      cbn [result_of state_of trace_of fst snd].
      repeat split.
      * exact Hr.
      * exact Hst.
      * intros [[= ->]|H]; [now left|]. right. now apply Htr.
      * intros [->|H]; [now left|]. right. now apply Htr.
      * repeat constructor. exact Hall.
Qed.

(** [broadcastToSubscribers]: the sample is stored, every subscriber is
    served, and the subscribers kept are those whose send returned. *)
Lemma ts_broadcast_spec data s :
  let r := broadcastToSubscribers env data s in
  result_of r = Val tt /\
  state_of r =
    mkServer (List.filter (ok env (FJson (JObj data))) (subscribers s)) (publisher s)
      data (clients s) (isAlive s) (type s) (listeners s) /\
  (forall c, In (Send c (FJson (JObj data))) (trace_of r) <-> In c (subscribers s)) /\
  (exists rest, trace_of r = SetLatestData data :: rest /\
     Forall (fun a => match a with
                      | Send _ f' => f' = FJson (JObj data)
                      | Log _ _ | SetSubscribers _ => True
                      | _ => False
                      end) rest).
Proof.
  pose proof (ts_fanout_loop (FJson (JObj data)) (subscribers s) []
                (mkServer (subscribers s) (publisher s) data (clients s)
                   (isAlive s) (type s) (listeners s)) eq_refl
                (fun y (H : In y []) => match H with end))
    as (Hr & Hst & Htr & Hall).
  cbn zeta in *.
  unfold broadcastToSubscribers, set_latestData.
  unfold bind, modify, emit, get, log. cbn [subscribers].
  destruct (subscribers s) as [|x l] eqn:Es.
  - cbn. split; [reflexivity|]. split; [reflexivity|]. split.
    + intros c. split; [|intros []]. intros [[=]|[[=]|[]]].
    + eexists. split; [reflexivity|]. repeat constructor.
  - cbn -[forEach List.filter].
    destruct (forEach _ _ _) as [[r1 s1] t1].
    unfold result_of, state_of, trace_of in *. cbn [fst snd] in *. subst r1 s1.
    cbn -[List.filter]. split; [reflexivity|]. split; [reflexivity|]. split.
    + intros c. split.
      * intros [[=]|[[=]|H]]. exact (proj1 (Htr c) H).
      * intros H. right. right. exact (proj2 (Htr c) H).
    + eexists. split; [reflexivity|]. constructor; [exact I|exact Hall].
Qed.
End ServerTsHandlers.

Section ServerTsMessages.
Import ServerTs.
Variable env : transport.

(** A message of a publisher socket that carries [C] is handed to
    [broadcastToSubscribers]. *)
Lemma ts_onMessage_sample c message o s :
  sample_of message = Some o ->
  onMessage env c true message s =
    (Val tt, state_of (broadcastToSubscribers env o s),
     Log INFO "Datos recibidos" :: trace_of (broadcastToSubscribers env o s)).
Proof.
  intros H. destruct message as [raw|[]]; try discriminate. cbn in H.
  destruct (has_key "C" fields) eqn:Ek; [|discriminate]. injection H as <-.
  destruct (ts_broadcast_spec env fields s) as (Hr & _).
  cbn zeta in Hr.
  unfold onMessage, JSON_parse, js_in.
  unfold bind, try_catch, ret, log, emit. rewrite Ek. cbn [fields_of].
  destruct (broadcastToSubscribers env fields s) as [[r s1] t1].
  cbn in Hr. subst r. reflexivity.
Qed.

(** Every other message leaves the server as it is and only logs. *)
Lemma ts_onMessage_other c isPublisher message s :
  (isPublisher = false \/ sample_of message = None) ->
  let r := onMessage env c isPublisher message s in
  result_of r = Val tt /\ state_of r = s /\ Forall is_log (trace_of r).
Proof.
  intros H. unfold onMessage, JSON_parse, js_in, js_get. unfold_monad.
  destruct message as [raw|data].
  - cbn. repeat split. repeat constructor.
  - destruct isPublisher.
    + destruct H as [H|H]; [discriminate|].
      destruct data; cbn in *;
        try (destruct (has_key "C" fields); [discriminate|]; cbn);
        (split; [reflexivity|split; [reflexivity|repeat constructor]]).
    + destruct data; cbn;
        try (destruct (is_str "control" (lookup_key "type" fields)); cbn);
        (split; [reflexivity|split; [reflexivity|repeat constructor]]).
Qed.

Lemma ts_onClose_spec c isPublisher s :
  onClose c isPublisher s =
    if isPublisher then
      match publisher s with
      | Some p =>
          if Nat.eqb p c then
            (Val tt,
             mkServer (subscribers s) None (latestData s) (clients s)
               (isAlive s) (type s) (listeners s),
             [SetPublisher None; Log INFO "Publisher desconectado"])
          else (Val tt, s, [])
      | None => (Val tt, s, [])
      end
    else
      match indexOf c (subscribers s) with
      | Some i =>
          (Val tt, ts_with_subscribers s (splice1 i (subscribers s)),
           [SetSubscribers (splice1 i (subscribers s));
            Log INFO "Subscriber desconectado - Quedan"])
      | None => (Val tt, s, [])
      end.
Proof.
  unfold onClose, set_publisher, set_subscribers. unfold_monad. cbn.
  destruct isPublisher.
  - destruct (publisher s) as [p|]; [|reflexivity].
    destruct (Nat.eqb p c); reflexivity.
  - destruct (indexOf c (subscribers s)); reflexivity.
Qed.

Lemma ts_onConnection_publisher c header s :
  is_publisher_header header = true ->
  onConnection env c header s =
    (Val tt,
     mkServer (subscribers s) (Some c) (latestData s) (clients s)
       (<[c := true]> (isAlive s)) (<[c := PUBLISHER]> (type s))
       (<[c := true]> (listeners s)),
     match publisher s with
     | Some old =>
         Close old 1000 "New publisher connected"
           :: (if close_throws env old
               then [Log ERROR "Error closing previous publisher:"] else [])
     | None => []
     end ++ [SetPublisher (Some c); Log INFO "Nuevo PUBLISHER conectado (Arduino)"]).
Proof.
  intros H. unfold onConnection, set_isAlive, set_type, set_publisher, attach.
  unfold is_publisher_header in H.
  destruct header as [h|]; [|discriminate]. rewrite H.
  unfold_monad. cbn.
  destruct (publisher s) as [old|]; cbn; [|reflexivity].
  destruct (close_throws env old); reflexivity.
Qed.

Lemma ts_onConnection_subscriber c header s :
  is_publisher_header header = false ->
  onConnection env c header s =
    let s1 := mkServer (subscribers s ++ [c]) (publisher s) (latestData s)
                (clients s) (<[c := true]> (isAlive s))
                (<[c := SUBSCRIBER]> (type s)) (listeners s) in
    let joined := [SetSubscribers (subscribers s ++ [c]);
                   Log INFO "Nuevo SUBSCRIBER conectado - Total"] in
    if nonempty (latestData s) then
      if send_throws env c (FJson (JObj (latestData s))) then
        (Throw, s1, joined ++ [Send c (FJson (JObj (latestData s)))])
      else
        (Val tt,
         mkServer (subscribers s ++ [c]) (publisher s) (latestData s)
           (clients s) (<[c := true]> (isAlive s))
           (<[c := SUBSCRIBER]> (type s)) (<[c := false]> (listeners s)),
         joined ++ [Send c (FJson (JObj (latestData s)))])
    else
      (Val tt,
       mkServer (subscribers s ++ [c]) (publisher s) (latestData s)
         (clients s) (<[c := true]> (isAlive s))
         (<[c := SUBSCRIBER]> (type s)) (<[c := false]> (listeners s)),
       joined).
Proof.
  intros H. unfold onConnection, set_isAlive, set_type, set_subscribers, attach.
  assert (match header with
          | Some h => String.eqb h "arduino-publisher"
          | None => false
          end = false) as -> by exact H.
  unfold_monad. cbn.
  destruct (nonempty (latestData s)); cbn; [|reflexivity].
  destruct (send_throws env c _); reflexivity.
Qed.
End ServerTsMessages.

(** ** [src/server.ts]: the invariant of the registry *)

Section ServerTsInvariant.
Import ServerTs.

Lemma ts_wf_init : ts_wf init.
Proof.
  constructor; cbn; try (intros; discriminate); try tauto; try constructor.
  - intros c [x H]. rewrite lookup_empty in H. discriminate.
Qed.

Lemma ts_wf_fresh s c :
  ts_wf s -> isAlive s !! c = None ->
  type s !! c = None /\ listeners s !! c = None /\
  publisher s <> Some c /\ ~ In c (subscribers s) /\ ~ In c (clients s).
Proof.
  intros W H.
  assert (type s !! c = None) as Ht.
  { destruct (type s !! c) eqn:E; [|reflexivity].
    destruct (ts_wf_type s W c) as [x Hx]; [eauto|congruence]. }
  assert (listeners s !! c = None) as Hl.
  { destruct (listeners s !! c) eqn:E; [|reflexivity].
    apply (ts_wf_lis s W) in E. congruence. }
  repeat split; try assumption.
  - intros Hp. apply (ts_wf_pub s W) in Hp. congruence.
  - intros Hs. apply (ts_wf_sub s W) in Hs. congruence.
  - intros Hc. apply (ts_wf_clients s W) in Hc. destruct Hc. congruence.
Qed.

Lemma filter_NoDup (f : conn -> bool) (l : list conn) :
  List.NoDup l -> List.NoDup (List.filter f l).
Proof. apply List.NoDup_filter. Qed.

Lemma ts_fire_closed env c s :
  fire env (Closed c) s =
    match listeners s !! c with
    | Some b => onClose c b (ts_drop_client c s)
    | None => (Val tt, ts_drop_client c s, [])
    end.
Proof.
  cbn [fire]. unfold bind at 1 2, get, set_clients, modify. cbn [app].
  fold (ts_drop_client c s).
  destruct (listeners s !! c) as [b|]; [|reflexivity].
  destruct (onClose c b (ts_drop_client c s)) as [[[[]|] s1] t1]; reflexivity.
Qed.

Lemma ts_wf_fire env ev s s' tr :
  ts_wf s -> enabled s ev -> fire env ev s = (Val tt, s', tr) -> ts_wf s'.
Proof.
  intros W En Hf. destruct ev as [c header|c|c message|c|].
  - (* connection *)
    cbn [fire] in Hf.
    cbn in En. destruct (ts_wf_fresh s c W En) as (Ht & Hl & Hp & Hs & Hc).
    unfold bind at 1 2 in Hf. unfold get, set_clients, modify in Hf.
    cbn [app] in Hf.
    destruct (is_publisher_header header) eqn:Eh.
    + rewrite ts_onConnection_publisher in Hf by exact Eh.
      injection Hf as <- <-.
      constructor; cbn.
      * intros x [= ->]. apply lookup_insert_eq.
      * intros x Hx. rewrite lookup_insert_ne by congruence.
        now apply (ts_wf_sub s W).
      * apply (ts_wf_nodup s W).
      * intros x b. destruct (Nat.eq_dec c x) as [->|Hne].
        -- rewrite !lookup_insert_eq. now intros [= <-].
        -- rewrite !lookup_insert_ne by exact Hne. apply (ts_wf_lis s W).
      * intros x. destruct (Nat.eq_dec c x) as [->|Hne].
        -- rewrite !lookup_insert_eq. eauto.
        -- rewrite !lookup_insert_ne by exact Hne. apply (ts_wf_type s W).
      * apply List.NoDup_app; repeat split.
        -- apply (ts_wf_clients_nodup s W).
        -- repeat constructor. intros [].
        -- intros x Hx [<-|[]]. contradiction.
      * intros x [Hx|[<-|[]]]%in_app_iff.
        -- destruct (Nat.eq_dec c x) as [->|Hne]; [contradiction|].
           rewrite lookup_insert_ne by exact Hne. now apply (ts_wf_clients s W).
        -- rewrite lookup_insert_eq. eauto.
    + rewrite ts_onConnection_subscriber in Hf by exact Eh.
      cbn zeta in Hf. cbn [subscribers publisher latestData clients isAlive
                            type listeners] in Hf.
      assert (s' = mkServer (subscribers s ++ [c]) (publisher s) (latestData s)
                     (clients s ++ [c]) (<[c := true]> (isAlive s))
                     (<[c := SUBSCRIBER]> (type s)) (<[c := false]> (listeners s)))
        as ->.
      { destruct (nonempty (latestData s)); [|now injection Hf as <- <-].
        destruct (send_throws env c _); [discriminate|now injection Hf as <- <-]. }
      clear Hf.
      constructor; cbn.
      * intros x Hx. assert (c <> x) by congruence.
        rewrite lookup_insert_ne by assumption. now apply (ts_wf_pub s W).
      * intros x [Hx|[<-|[]]]%in_app_iff.
        -- assert (c <> x) by congruence.
           rewrite lookup_insert_ne by assumption. now apply (ts_wf_sub s W).
        -- apply lookup_insert_eq.
      * apply List.NoDup_app; repeat split.
        -- apply (ts_wf_nodup s W).
        -- repeat constructor. intros [].
        -- intros x Hx [<-|[]]. contradiction.
      * intros x b. destruct (Nat.eq_dec c x) as [->|Hne].
        -- rewrite !lookup_insert_eq. now intros [= <-].
        -- rewrite !lookup_insert_ne by exact Hne. apply (ts_wf_lis s W).
      * intros x. destruct (Nat.eq_dec c x) as [->|Hne].
        -- rewrite !lookup_insert_eq. eauto.
        -- rewrite !lookup_insert_ne by exact Hne. apply (ts_wf_type s W).
      * apply List.NoDup_app; repeat split.
        -- apply (ts_wf_clients_nodup s W).
        -- repeat constructor. intros [].
        -- intros x Hx [<-|[]]. contradiction.
      * intros x [Hx|[<-|[]]]%in_app_iff.
        -- destruct (Nat.eq_dec c x) as [->|Hne]; [contradiction|].
           rewrite lookup_insert_ne by exact Hne. now apply (ts_wf_clients s W).
        -- rewrite lookup_insert_eq. eauto.
  - (* pong *)
    cbn [fire] in Hf.
    unfold bind, get in Hf. destruct (listeners s !! c) as [b|] eqn:El.
    + unfold onPong, set_isAlive, modify in Hf. injection Hf as <- <-.
      destruct W. constructor; cbn; try assumption.
      intros x Hx. destruct (Nat.eq_dec c x) as [->|Hne].
      * rewrite lookup_insert_eq. eauto.
      * rewrite lookup_insert_ne by exact Hne. now apply ts_wf_type0.
    + unfold ret in Hf. injection Hf as <- <-. exact W.
  - (* message *)
    cbn [fire] in Hf.
    unfold bind, get in Hf. destruct (listeners s !! c) as [b|] eqn:El.
    2:{ unfold ret in Hf. injection Hf as <- <-. exact W. }
    destruct (onMessage env c b message s) as [[r s1] t1] eqn:Em.
    assert (s' = s1) as -> by (destruct r; congruence). clear Hf.
    destruct b; [destruct (sample_of message) as [o|] eqn:Es|].
    + rewrite (ts_onMessage_sample env c message o s Es) in Em.
      destruct (ts_broadcast_spec env o s) as (_ & Hst & _).
      cbn zeta in Hst. injection Em as _ <- _. rewrite Hst.
      destruct W. constructor; cbn; try assumption.
      * intros x [Hx _]%List.filter_In. now apply ts_wf_sub0.
      * now apply filter_NoDup.
    + destruct (ts_onMessage_other env c true message s (or_intror Es))
        as (_ & Hst & _).
      rewrite Em in Hst. cbn in Hst. now subst.
    + destruct (ts_onMessage_other env c false message s (or_introl eq_refl))
        as (_ & Hst & _).
      rewrite Em in Hst. cbn in Hst. now subst.
  - (* close *)
    rewrite ts_fire_closed in Hf.
    assert (ts_wf (ts_drop_client c s)) as W0.
    { destruct W. constructor; cbn; try assumption.
      - now apply filter_NoDup.
      - intros x [Hx _]%List.filter_In. now apply ts_wf_clients0. }
    change (listeners s) with (listeners (ts_drop_client c s)) in Hf.
    revert W0 Hf. generalize (ts_drop_client c s). clear W En.
    intros s0 W0 H0. destruct (listeners s0 !! c) as [b|].
    2:{ now injection H0 as <- _. }
    rewrite ts_onClose_spec in H0. destruct b.
    + destruct (publisher s0) as [p|] eqn:Ep; [|now injection H0 as <- _].
      destruct (Nat.eqb p c); [|now injection H0 as <- _].
      injection H0 as <- _. destruct W0. constructor; cbn; try assumption.
      intros x [=].
    + pose proof (indexOf_split c (subscribers s0)) as Hi.
      destruct (indexOf c (subscribers s0)) as [i|]; [|now injection H0 as <- _].
      destruct Hi as (pre & rest & Hs & Hpre & ->).
      injection H0 as <- _. rewrite Hs, splice1_app.
      destruct W0. rewrite Hs in *.
      constructor; cbn; try assumption.
      * intros x Hx. apply ts_wf_sub0. now apply In_app_remove.
      * now apply NoDup_app_remove in ts_wf_nodup0.
  - (* tick *)
    cbn [fire] in Hf.
    unfold pingInterval, bind, get in Hf.
    destruct (ts_sweep_registry env (clients s) s)
      as ((H1 & H2 & H3 & H4 & H5 & H6) & _).
    pose proof (ts_sweep_alive_dom env (clients s) s) as Hdom.
    destruct (forEach (clients s) (probe env) s) as [[r s1] t1].
    cbn in *. assert (s' = s1) as -> by (destruct r; congruence).
    destruct W. constructor; rewrite ?H1, ?H2, ?H5, ?H6, ?H4; try assumption.
    intros x Hx. apply Hdom. now apply ts_wf_type0.
Qed.

Lemma ts_wf_steps s evs s' tr : steps s evs s' tr -> ts_wf s -> ts_wf s'.
Proof.
  induction 1 as [|s env ev s1 tr1 evs s2 tr2 En Hf _ IH]; [tauto|].
  intros W. apply IH. eapply ts_wf_fire; eassumption.
Qed.

Lemma ts_wf_reachable s : reachable s -> ts_wf s.
Proof.
  intros (evs & tr & H). eapply ts_wf_steps; [exact H|apply ts_wf_init].
Qed.
End ServerTsInvariant.

(** ** The handshake revision: what each handler does *)

Section Part002Handlers.
Import Part002.
Variable env : transport.

Lemma p2_probe_spec ws s :
  probe env ws s =
    if alive_flag (isAlive s) ws then
      (Val tt,
       mkServer (subscribers s) (publisher s) (latestData s) (clients s)
         (<[ws := false]> (isAlive s)) (isPublisher s),
       if send_throws env ws (FText "ping")
       then [Send ws (FText "ping"); Log ERROR "Failed to ping client"; Terminate ws]
       else [Send ws (FText "ping")])
    else (Val tt, s, [Log WARN "Terminating inactive connection"; Terminate ws]).
Proof.
  unfold probe, set_isAlive. unfold_monad. cbn.
  destruct (alive_flag (isAlive s) ws); cbn; [|reflexivity].
  destruct (send_throws env ws _); reflexivity.
Qed.

Lemma p2_sweep_registry l s :
  p2_same_registry s (state_of (forEach l (probe env) s)) /\
  result_of (forEach l (probe env) s) = Val tt.
Proof.
  split.
  - apply (forEach_state (p2_same_registry s)); [|now repeat split].
    intros x s' _ H. rewrite p2_probe_spec.
    destruct (alive_flag (isAlive s') x); exact H.
  - apply forEach_returns. intros x s' _. rewrite p2_probe_spec.
    destruct (alive_flag _ _); reflexivity.
Qed.

Lemma p2_sweep_alive_dom l s c :
  is_Some (isAlive s !! c) ->
  is_Some (isAlive (state_of (forEach l (probe env) s)) !! c).
Proof.
  apply (forEach_state (fun s' => is_Some (isAlive s' !! c))).
  intros x s' _ H. rewrite p2_probe_spec.
  destruct (alive_flag (isAlive s') x); cbn; [|exact H].
  destruct (Nat.eq_dec x c) as [->|Hne].
  - rewrite lookup_insert_eq. eauto.
  - now rewrite lookup_insert_ne.
Qed.

Lemma p2_sweep_terminates l : List.NoDup l -> forall s c,
  In (Terminate c) (trace_of (forEach l (probe env) s)) <->
  In c l /\ (alive_flag (isAlive s) c = false
             \/ send_throws env c (FText "ping") = true).
Proof.
  induction 1 as [|x l Hx Hl IH]; intros s c.
  - cbn. tauto.
  - rewrite forEach_cons, p2_probe_spec.
    destruct (alive_flag (isAlive s) x) eqn:Ex; cbn [trace_of snd].
    + rewrite in_app_iff, IH. cbn [isAlive].
      destruct (Nat.eq_dec x c) as [->|Hne].
      * destruct (send_throws env c _) eqn:Ep; cbn; split; intros H.
        -- split; [now left|now right].
        -- left. right. right. left. reflexivity.
        -- destruct H as [[[=]|[]]|[Hc _]]. contradiction.
        -- destruct H as [_ [H|H]]; congruence.
      * rewrite alive_flag_insert_ne by exact Hne.
        destruct (send_throws env x _); cbn; split; intros H.
        -- destruct H as [[[=]|[[=]|[[= ->]|[]]]]|[Hc H]]; [congruence|].
           split; [now right|exact H].
        -- destruct H as [[->|Hc] H]; [congruence|]. right. split; assumption.
        -- destruct H as [[[=]|[]]|[Hc H]]. split; [now right|exact H].
        -- destruct H as [[->|Hc] H]; [congruence|]. right. split; assumption.
    + rewrite in_app_iff, IH. cbn.
      destruct (Nat.eq_dec x c) as [->|Hne]; split; intros H.
      * split; [now left|now left].
      * left. right. now left.
      * destruct H as [[[=]|[[= ->]|[]]]|[Hc H]]; [congruence|].
        split; [now right|exact H].
      * destruct H as [[->|Hc] H]; [congruence|]. right. split; assumption.
Qed.

Lemma p2_deliver_spec f n x s :
  deliver env f n x s =
    if send_throws env x f
    then (Val (S n), s, [Send x f; Log ERROR "Failed to send to subscriber"])
    else (Val n, s, [Send x f]).
Proof.
  unfold deliver. unfold_monad. destruct (send_throws env x f); reflexivity.
Qed.

(** The loop of the fan-out: every subscriber is served, the state is not
    touched, and the sends that threw are counted. *)
Lemma p2_fanout_loop f l : forall n s,
  let r := foldM (deliver env f) l n s in
  result_of r =
    Val (n + length (List.filter (fun c => send_throws env c f) l)) /\
  state_of r = s /\
  (forall c, In (Send c f) (trace_of r) <-> In c l) /\
  Forall (fun a => match a with
                   | Send _ f' => f' = f
                   | Log _ _ => True
                   | _ => False
                   end) (trace_of r).
Proof.
  induction l as [|x l IH]; intros n s; cbn zeta.
  - cbn. rewrite Nat.add_0_r. repeat split; try tauto. constructor.
  - cbn [foldM List.filter]. unfold bind. rewrite p2_deliver_spec.
    destruct (send_throws env x f);
      [specialize (IH (S n) s)|specialize (IH n s)];
      cbn zeta in IH; destruct IH as (Hr & Hs & Ht & Ha);
      destruct (foldM (deliver env f) l _ s) as [[r1 s1] t1];
      cbn in Hr, Hs, Ht, Ha |- *; subst r1 s1.
    + split; [f_equal; lia|]. split; [reflexivity|]. split.
      * intros c. split.
        -- intros [[= ->]|[[=]|H]]; [now left|]. right. now apply Ht.
        -- intros [->|H]; [now left|]. right. right. now apply Ht.
      * repeat constructor. exact Ha.
    + split; [reflexivity|]. split; [reflexivity|]. split.
      * intros c. split.
        -- intros [[= ->]|H]; [now left|]. right. now apply Ht.
        -- intros [->|H]; [now left|]. right. now apply Ht.
      * repeat constructor. exact Ha.
Qed.

(** [broadcastToSubscribers]: every subscriber is served; the subscribers
    kept are those whose [readyState] is [OPEN]. *)
Lemma p2_broadcast_spec data s :
  let r := broadcastToSubscribers env data s in
  let message := FJson (JObj (spread_data data)) in
  result_of r = Val tt /\
  state_of r =
    mkServer (List.filter (ready_open env) (subscribers s)) (publisher s)
      (latestData s) (clients s) (isAlive s) (isPublisher s) /\
  (forall c, In (Send c message) (trace_of r) <-> In c (subscribers s)) /\
  Forall (fun a => match a with
                   | Send _ f' => f' = message
                   | Log _ _ | SetSubscribers _ => True
                   | _ => False
                   end) (trace_of r).
Proof.
  cbn zeta.
  destruct (p2_fanout_loop (FJson (JObj (spread_data data))) (subscribers s) 0 s)
    as (Hr & Hst & Htr & Hall).
  cbn zeta in *.
  unfold broadcastToSubscribers, set_subscribers.
  unfold bind, modify, emit, get, log, when, ret.
  destruct (subscribers s) as [|x l] eqn:Es.
  - cbn. split; [reflexivity|]. split.
    + destruct s; cbn in *; subst; reflexivity.
    + split; [|repeat constructor].
      intros c. split; [|intros []]. intros [[=]|[]].
  - cbn -[foldM List.filter Nat.ltb].
    destruct (foldM _ _ _ _) as [[r1 s1] t1].
    unfold result_of, state_of, trace_of in *. cbn [fst snd] in *. subst r1 s1.
    rewrite Es.
    destruct (Nat.ltb 0 _); cbn -[List.filter].
    + split; [reflexivity|]. split; [reflexivity|]. split.
      * intros c. rewrite in_app_iff. split.
        -- intros [[=]|[H|[[=]|[[=]|[]]]]]. exact (proj1 (Htr c) H).
        -- intros H. right. left. exact (proj2 (Htr c) H).
      * constructor; [exact I|]. apply Forall_app. split; [|repeat constructor].
        eapply List.Forall_impl; [|exact Hall]. intros []; tauto.
    + split; [reflexivity|]. split; [reflexivity|]. split.
      * intros c. rewrite in_app_iff. split.
        -- intros [[=]|[H|[[=]|[]]]]. exact (proj1 (Htr c) H).
        -- intros H. right. left. exact (proj2 (Htr c) H).
      * constructor; [exact I|]. apply Forall_app. split; [|repeat constructor].
        eapply List.Forall_impl; [|exact Hall]. intros []; tauto.
Qed.
End Part002Handlers.

Section Part002Messages.
Import Part002.
Variable env : transport.

Lemma p2_handleRegistration_publisher ws role s :
  is_str "publisher" role = true ->
  handleRegistration env ws role s =
    (if send_throws env ws (registered "publisher") then Throw else Val tt,
     mkServer (subscribers s) (Some ws) (latestData s) (clients s)
       (isAlive s) (<[ws := true]> (isPublisher s)),
     match publisher s with
     | Some old =>
         Log WARN "Replacing existing publisher" :: Send old disconnect_notice
           :: (if send_throws env old disconnect_notice
               then [Log ERROR "Error notifying old publisher"] else [])
     | None => []
     end ++ [SetPublisher (Some ws); Log INFO "Publisher registered";
             Send ws (registered "publisher")]).
Proof.
  intros H. unfold handleRegistration, set_isPublisher, set_publisher.
  rewrite H. unfold_monad. cbn.
  destruct (publisher s) as [old|]; cbn.
  - destruct (send_throws env old disconnect_notice); cbn;
      destruct (send_throws env ws _); reflexivity.
  - destruct (send_throws env ws _); reflexivity.
Qed.

Lemma p2_handleRegistration_subscriber ws role s :
  is_str "publisher" role = false ->
  let s1 := mkServer (subscribers s ++ [ws]) (publisher s) (latestData s)
              (clients s) (isAlive s) (isPublisher s) in
  let joined := [SetSubscribers (subscribers s ++ [ws]);
                 Log INFO "Subscriber registered, total";
                 Send ws (registered "subscriber")] in
  let latest := FJson (JObj (spread_data (latestData s))) in
  handleRegistration env ws role s =
    if send_throws env ws (registered "subscriber") then (Throw, s1, joined)
    else if nonempty (latestData s) then
      (if send_throws env ws latest then Throw else Val tt, s1,
       joined ++ [Send ws latest])
    else (Val tt, s1, joined).
Proof.
  intros H. unfold handleRegistration, set_subscribers.
  rewrite H. unfold_monad. cbn.
  destruct (send_throws env ws (registered "subscriber")); cbn; [reflexivity|].
  destruct (nonempty (latestData s)); cbn; [|reflexivity].
  destruct (send_throws env ws _); reflexivity.
Qed.

(** A [register] frame runs [handleRegistration]; an exception of its
    sends is caught by the handler. *)
Lemma p2_onMessage_register c message role s :
  register_role message = Some role ->
  let r := handleRegistration env c role s in
  onMessage env c message s =
    (Val tt, state_of r,
     Log DEBUG "Received message" :: trace_of r ++
     match result_of r with
     | Val _ => []
     | Throw => [Log ERROR "Failed to parse message as JSON"]
     end).
Proof.
  intros H. destruct message as [raw|[]]; try discriminate. cbn in H.
  destruct (is_str "register" (lookup_key "type" fields)) eqn:Et; [|discriminate].
  injection H as <-. cbn zeta.
  unfold onMessage, JSON_parse, js_get.
  unfold bind, try_catch, ret, log, emit. rewrite Et.
  destruct (handleRegistration env c _ s) as [[[[]|] s1] t1]; cbn.
  - now rewrite app_nil_r.
  - reflexivity.
Qed.

(** A frame of a publisher socket that carries [C]: the sample is stored,
    then handed to [broadcastToSubscribers]. *)
Lemma p2_onMessage_sample c message o s :
  register_role message = None ->
  sample_of message = Some o ->
  publisher_flag s c = true ->
  let s1 := mkServer (subscribers s) (publisher s) o (clients s)
              (isAlive s) (isPublisher s) in
  onMessage env c message s =
    (Val tt, state_of (broadcastToSubscribers env o s1),
     Log DEBUG "Received message" :: Log INFO "Received sensor data from publisher"
       :: SetLatestData o :: trace_of (broadcastToSubscribers env o s1)).
Proof.
  intros Hr Hs Hf. destruct message as [raw|[]]; try discriminate.
  cbn in Hr, Hs.
  destruct (is_str "register" (lookup_key "type" fields)) eqn:Et; [discriminate|].
  unfold has_key in Hs.
  destruct (lookup_key "C" fields) as [v|] eqn:Ec; [|discriminate].
  injection Hs as <-. cbn zeta.
  pose proof (p2_broadcast_spec env fields
                (mkServer (subscribers s) (publisher s) fields (clients s)
                   (isAlive s) (isPublisher s))) as (Hres & _).
  cbn zeta in Hres.
  unfold onMessage, JSON_parse, js_get, set_latestData.
  unfold bind, try_catch, ret, log, emit, get, modify.
  rewrite Et, Hf, Ec. cbn [fields_of app].
  destruct (broadcastToSubscribers env fields _) as [[r s2] t2].
  cbn in Hres. subst r. reflexivity.
Qed.

(** Every other frame leaves the server as it is. *)
Lemma p2_onMessage_other c message s :
  register_role message = None ->
  (publisher_flag s c = false \/ sample_of message = None) ->
  let r := onMessage env c message s in
  result_of r = Val tt /\ state_of r = s /\
  Forall (is_pong_reply c) (trace_of r) /\
  ((forall raw, message <> Unparseable raw) -> Forall is_log (trace_of r)).
Proof.
  intros Hr H. unfold onMessage, JSON_parse, js_get. unfold_monad.
  destruct message as [raw|data].
  - assert (forall t : list action,
               (forall raw', Unparseable raw <> Unparseable raw') -> Forall is_log t)
      as Hraw by (intros t Hne; now destruct (Hne raw)).
    cbn. destruct (String.eqb raw "ping"); cbn.
    + destruct (send_throws env c _); cbn;
        (split; [reflexivity|split; [reflexivity|split; [|apply Hraw]]]);
        repeat constructor.
    + split; [reflexivity|split; [reflexivity|split; [|apply Hraw]]].
      repeat constructor.
  - assert (forall (t : list action),
               Forall is_log t ->
               Forall (is_pong_reply c) t /\
               ((forall raw, Parsed data <> Unparseable raw) -> Forall is_log t))
      as Hlog.
    { intros t Ht. split; [|intros; exact Ht].
      eapply List.Forall_impl; [|exact Ht]. intros []; cbn; tauto. }
    destruct data; cbn in *;
      try (repeat split; try apply Hlog; repeat constructor; fail).
    + destruct (publisher_flag s c); cbn;
        (split; [reflexivity|split; [reflexivity|apply Hlog; repeat constructor]]).
    + destruct (publisher_flag s c); cbn;
        (split; [reflexivity|split; [reflexivity|apply Hlog; repeat constructor]]).
    + destruct (publisher_flag s c); cbn;
        (split; [reflexivity|split; [reflexivity|apply Hlog; repeat constructor]]).
    + destruct (publisher_flag s c); cbn;
        (split; [reflexivity|split; [reflexivity|apply Hlog; repeat constructor]]).
    + destruct (is_str "register" (lookup_key "type" fields)); [discriminate|].
      cbn. unfold has_key in H.
      destruct (publisher_flag s c); cbn.
      * destruct H as [H|H]; [discriminate|].
        destruct (lookup_key "C" fields); [discriminate|]. cbn.
        split; [reflexivity|split; [reflexivity|apply Hlog; repeat constructor]].
      * split; [reflexivity|split; [reflexivity|apply Hlog; repeat constructor]].
Qed.

Lemma p2_onClose_spec c s :
  onClose c s =
    if publisher_flag s c && is_publisher s c then
      (Val tt,
       mkServer (subscribers s) None (latestData s) (clients s)
         (isAlive s) (isPublisher s),
       [Log INFO "Publisher disconnected"; SetPublisher None])
    else
      let l := List.filter (fun sub => negb (Nat.eqb sub c)) (subscribers s) in
      (Val tt,
       mkServer l (publisher s) (latestData s) (clients s)
         (isAlive s) (isPublisher s),
       [SetSubscribers l; Log INFO "Subscriber disconnected, remaining"]).
Proof.
  unfold onClose, set_publisher, set_subscribers. unfold_monad. cbn.
  destruct (publisher_flag s c && is_publisher s c); reflexivity.
Qed.

Lemma p2_onConnection_spec c s :
  onConnection env c s =
    (if send_throws env c (FText "connected") then Throw else Val tt,
     mkServer (subscribers s) (publisher s) (latestData s) (clients s)
       (<[c := true]> (isAlive s)) (<[c := false]> (isPublisher s)),
     [Log INFO "New WebSocket connection"; Send c (FText "connected")]).
Proof.
  unfold onConnection, set_isAlive, set_isPublisher. unfold_monad. cbn.
  destruct (send_throws env c _); reflexivity.
Qed.
End Part002Messages.

(** ** The handshake revision: the invariant of the registry *)

Section Part002Invariant.
Import Part002.

Lemma p2_fire_closed env c s :
  fire env (Closed c) s =
    match isAlive s !! c with
    | Some _ => onClose c (p2_drop_client c s)
    | None => (Val tt, p2_drop_client c s, [])
    end.
Proof.
  cbn [fire]. unfold bind at 1 2, get, set_clients, modify. cbn [app].
  fold (p2_drop_client c s).
  destruct (isAlive s !! c) as [b|]; [|reflexivity].
  destruct (onClose c (p2_drop_client c s)) as [[[[]|] s1] t1]; reflexivity.
Qed.

Lemma p2_fire_connection env c s :
  fire env (Connection c) s = onConnection env c (p2_add_client c s).
Proof.
  cbn [fire]. unfold bind at 1 2, get, set_clients, modify. cbn [app].
  fold (p2_add_client c s).
  destruct (onConnection env c (p2_add_client c s)) as [[[[]|] s1] t1]; reflexivity.
Qed.

Lemma p2_fire_message env c message s :
  fire env (Message c message) s =
    match isAlive s !! c with
    | Some _ => onMessage env c message s
    | None => (Val tt, s, [])
    end.
Proof.
  cbn [fire]. unfold bind, get.
  destruct (isAlive s !! c) as [b|]; [|reflexivity].
  destruct (onMessage env c message s) as [[[[]|] s1] t1];
    rewrite ?app_nil_r; reflexivity.
Qed.

Lemma p2_fire_tick env s :
  fire env Tick s = forEach (clients s) (probe env) s.
Proof.
  cbn [fire]. unfold pingInterval, bind, get.
  destruct (forEach (clients s) (probe env) s) as [[[[]|] s1] t1]; reflexivity.
Qed.

Lemma p2_wf_init : p2_wf init.
Proof. constructor; cbn; try (intros; discriminate); try tauto. constructor. Qed.

Lemma is_Some_insert (m : gmap conn bool) (c x : conn) (b : bool) :
  is_Some (m !! x) -> is_Some (<[c := b]> m !! x).
Proof.
  intros H. destruct (Nat.eq_dec c x) as [->|Hne].
  - rewrite lookup_insert_eq. eauto.
  - now rewrite lookup_insert_ne.
Qed.

Lemma p2_publisher_flag_insert s c x b :
  c <> x ->
  publisher_flag
    (mkServer (subscribers s) (publisher s) (latestData s) (clients s)
       (isAlive s) (<[c := b]> (isPublisher s))) x = publisher_flag s x.
Proof. intros H. unfold publisher_flag. cbn. now rewrite lookup_insert_ne. Qed.

Lemma p2_wf_fire env ev s s' tr :
  p2_wf s -> enabled s ev -> fire env ev s = (Val tt, s', tr) -> p2_wf s'.
Proof.
  intros W En Hf. destruct ev as [c|c message|c|].
  - (* connection *)
    rewrite p2_fire_connection, p2_onConnection_spec in Hf.
    cbn in En. injection Hf as _ <- _. destruct W.
    constructor; cbn.
    + intros x Hx. unfold publisher_flag. cbn.
      destruct (Nat.eq_dec c x) as [Heq|Hne]; [subst x|].
      * destruct (p2_wf_pub0 c Hx). congruence.
      * rewrite lookup_insert_ne by exact Hne. now apply p2_wf_flag0.
    + intros x Hx. apply is_Some_insert. now apply p2_wf_pub0.
    + intros x Hx. apply is_Some_insert. now apply p2_wf_sub0.
    + intros x [Hx|[<-|[]]]%in_app_iff.
      * apply is_Some_insert. now apply p2_wf_clients0.
      * rewrite lookup_insert_eq. eauto.
    + apply List.NoDup_app; repeat split; [assumption| |].
      * repeat constructor. intros [].
      * intros x Hx [<-|[]]. destruct (p2_wf_clients0 c Hx). congruence.
  - (* message *)
    rewrite p2_fire_message in Hf.
    destruct (isAlive s !! c) as [b|] eqn:Ea; [|now injection Hf as <- _].
    destruct (register_role message) as [role|] eqn:Er.
    + rewrite (p2_onMessage_register env c message role s Er) in Hf.
      cbn zeta in Hf. injection Hf as <- _.
      destruct (is_str "publisher" role) eqn:Ep.
      * rewrite p2_handleRegistration_publisher by exact Ep.
        destruct W. constructor; cbn; try assumption.
        -- intros x [= <-]. unfold publisher_flag. cbn.
           now rewrite lookup_insert_eq.
        -- intros x [= <-]. eauto.
      * rewrite p2_handleRegistration_subscriber by exact Ep. cbn zeta.
        assert (forall r t,
                  state_of (S := server) (A := unit)
                    (r, mkServer (subscribers s ++ [c]) (publisher s)
                          (latestData s) (clients s) (isAlive s)
                          (isPublisher s), t) =
                  mkServer (subscribers s ++ [c]) (publisher s)
                    (latestData s) (clients s) (isAlive s) (isPublisher s))
          as Hst by reflexivity.
        destruct (send_throws env c (registered "subscriber"));
          [|destruct (nonempty (latestData s))]; rewrite Hst;
          destruct W; (constructor; cbn; try assumption);
          intros x [Hx|[<-|[]]]%in_app_iff; eauto.
    + destruct (sample_of message) as [o|] eqn:Es;
        [destruct (publisher_flag s c) eqn:Ef|].
      * rewrite (p2_onMessage_sample env c message o s Er Es Ef) in Hf.
        cbn zeta in Hf. injection Hf as <- _.
        destruct (p2_broadcast_spec env o
                    (mkServer (subscribers s) (publisher s) o (clients s)
                       (isAlive s) (isPublisher s))) as (_ & -> & _).
        destruct W. constructor; cbn; try assumption.
        intros x [Hx _]%List.filter_In. now apply p2_wf_sub0.
      * destruct (p2_onMessage_other env c message s Er (or_introl Ef))
          as (_ & Hst & _).
        rewrite Hf in Hst. cbn in Hst. now subst.
      * destruct (p2_onMessage_other env c message s Er (or_intror Es))
          as (_ & Hst & _).
        rewrite Hf in Hst. cbn in Hst. now subst.
  - (* close *)
    rewrite p2_fire_closed in Hf.
    assert (p2_wf (p2_drop_client c s)) as W0.
    { destruct W. constructor; cbn; try assumption.
      - intros x [Hx _]%List.filter_In. now apply p2_wf_clients0.
      - now apply List.NoDup_filter. }
    destruct (isAlive s !! c) as [b|]; [|now injection Hf as <- _].
    rewrite p2_onClose_spec in Hf.
    destruct (publisher_flag _ c && is_publisher _ c);
      injection Hf as <- _; destruct W0; constructor; cbn in *; try assumption.
    + intros x [=].
    + intros x [=].
    + intros x [Hx _]%List.filter_In. now apply p2_wf_sub0.
  - (* tick *)
    rewrite p2_fire_tick in Hf.
    destruct (p2_sweep_registry env (clients s) s)
      as ((H1 & H2 & H3 & H4 & H5) & _).
    pose proof (p2_sweep_alive_dom env (clients s) s) as Hdom.
    destruct (forEach (clients s) (probe env) s) as [[r s1] t1].
    cbn in *. injection Hf as _ <- _.
    destruct W. constructor; rewrite ?H1, ?H2, ?H4; try assumption.
    + intros x Hx. unfold publisher_flag. rewrite H5. now apply p2_wf_flag0.
    + intros x Hx. apply Hdom. now apply p2_wf_pub0.
    + intros x Hx. apply Hdom. now apply p2_wf_sub0.
    + intros x Hx. apply Hdom. now apply p2_wf_clients0.
Qed.

Lemma p2_wf_steps s evs s' tr : steps s evs s' tr -> p2_wf s -> p2_wf s'.
Proof.
  induction 1 as [|s env ev s1 tr1 evs s2 tr2 En Hf _ IH]; [tauto|].
  intros W. apply IH. eapply p2_wf_fire; eassumption.
Qed.

Lemma p2_wf_reachable s : reachable s -> p2_wf s.
Proof.
  intros (evs & tr & H). eapply p2_wf_steps; [exact H|apply p2_wf_init].
Qed.
End Part002Invariant.

(** ** Producer registration *)

Lemma ts_registerProducer_step (reg : transport * conn) (s : ServerTs.server) :
  let r := ts_registerProducer reg s in
  result_of r = Val tt /\
  ServerTs.publisher (state_of r) = Some (snd reg) /\
  installs_after (option_map ts_superseded (ServerTs.publisher s)) (snd reg)
    (trace_of r).
Proof.
  destruct reg as [env c]. unfold ts_registerProducer. cbn [fst snd].
  rewrite ts_onConnection_publisher by reflexivity.
  cbn [result_of state_of trace_of fst snd ServerTs.publisher].
  split; [reflexivity|]. split; [reflexivity|].
  eexists _, _. split; [reflexivity|].
  destruct (ServerTs.publisher s) as [old|]; cbn.
  - split; [intros a [= <-]; now left|]. split.
    + intros p [H|H]; [discriminate|].
      destruct (close_throws env old); [destruct H as [H|[]]; discriminate|destruct H].
    + intros p [H|[]]. discriminate.
  - split; [intros a [=]|]. split; [intros p []|].
    intros p [H|[]]. discriminate.
Qed.

Lemma p2_registerProducer_step (reg : transport * conn) (s : Part002.server) :
  let r := p2_registerProducer reg s in
  result_of r = Val tt /\
  Part002.publisher (state_of r) = Some (snd reg) /\
  installs_after (option_map p2_notified (Part002.publisher s)) (snd reg)
    (trace_of r).
Proof.
  destruct reg as [env c]. unfold p2_registerProducer. cbn [fst snd].
  rewrite (p2_onMessage_register env c (register_frame "publisher")
             (Some (JStr "publisher")) s eq_refl).
  cbn zeta. rewrite p2_handleRegistration_publisher by reflexivity.
  cbn [result_of state_of trace_of fst snd Part002.publisher].
  split; [reflexivity|]. split; [reflexivity|].
  assert (forall p (b : bool),
            ~ In (SetPublisher p)
                ([Log INFO "Publisher registered";
                  Send c (Part002.registered "publisher")] ++
                 match (if b then Throw else Val tt) : result unit with
                 | Val _ => []
                 | Throw => [Log ERROR "Failed to parse message as JSON"]
                 end)) as Hpost.
  { intros p []; cbn; intros [H|[H|H]]; try discriminate.
    - destruct H as [H|[]]. discriminate.
    - destruct H. }
  destruct (Part002.publisher s) as [old|]; cbn [option_map].
  - exists (Log DEBUG "Received message" :: Log WARN "Replacing existing publisher"
            :: Send old Part002.disconnect_notice
            :: (if send_throws env old Part002.disconnect_notice
                then [Log ERROR "Error notifying old publisher"] else [])).
    eexists. split.
    { cbn. rewrite <- !app_assoc. cbn. reflexivity. }
    split; [intros a [= <-]; right; right; now left|]. split.
    + intros p [H|[H|[H|H]]]; try discriminate.
      destruct (send_throws env old _); [destruct H as [H|[]]; discriminate|destruct H].
    + intros p. apply Hpost.
  - exists [Log DEBUG "Received message"]. eexists. split; [reflexivity|].
    split; [intros a [=]|]. split.
    + intros p [H|[]]. discriminate.
    + intros p. apply Hpost.
Qed.

Lemma registrations_last {S : Type} (register : transport * conn -> M S unit)
    (slot : S -> option conn) :
  (forall reg s, result_of (register reg s) = Val tt /\
                 slot (state_of (register reg s)) = Some (snd reg)) ->
  forall before s,
    result_of (forEach before register s) = Val tt /\
    forall p, last (map snd before) = Some p ->
              slot (state_of (forEach before register s)) = Some p.
Proof.
  intros Hstep. induction before as [|reg before IH]; intros s.
  - cbn. split; [reflexivity|]. intros p [=].
  - rewrite forEach_cons. destruct (Hstep reg s) as [Hr Hs].
    destruct (register reg s) as [[r s1] t1]. cbn in Hr, Hs. subst r.
    cbn [result_of state_of fst snd]. destruct (IH s1) as [Hr1 Hl1].
    split; [exact Hr1|]. intros p Hp.
    destruct before as [|reg' before'].
    + cbn in Hp. injection Hp as <-. exact Hs.
    + apply Hl1. exact Hp.
Qed.


(** [handleRegistration] closes and terminates no socket, whatever the role,
    the state and the transport. *)
Lemma p2_handleRegistration_ends_no_socket env (ws : conn) (role : option json)
    (s : Part002.server) :
  existsb ends_socket (trace_of (Part002.handleRegistration env ws role s)) = false.
Proof.
  destruct (is_str "publisher" role) eqn:Ep.
  - rewrite p2_handleRegistration_publisher by exact Ep.
    cbn [trace_of snd]. destruct (Part002.publisher s) as [old|]; [|reflexivity].
    destruct (send_throws env old Part002.disconnect_notice); reflexivity.
  - rewrite p2_handleRegistration_subscriber by exact Ep. cbn zeta.
    destruct (send_throws env ws (Part002.registered "subscriber")); [reflexivity|].
    destruct (nonempty (Part002.latestData s)); reflexivity.
Qed.

(** C1, at the failing input. Producer 1 and consumer 3 are registered and
    socket 2 registers as the producer. The handshake revision installs
    socket 2 and sends socket 1 the [disconnect] notice, and that is all it
    does to socket 1: the trace of the registration holds no [close] and no
    [terminate] (the registration handler calls neither, on any input),
    socket 1 stays among the clients with its [isPublisher] flag up, and the
    sample it sends afterwards is stored and fanned out to consumer 3.
    [src/server.ts], on the same input, closes socket 1 with the code 1000
    and the reason [New publisher connected] before it installs socket 2. *)
Theorem C1_part002_superseded_producer_stays_open :
  let register := Part002.fire quiet (Part002.Message 2 (register_frame "publisher"))
                    p2_producer_and_consumer in
  let later := Part002.fire quiet (Part002.Message 1 (Parsed (JObj sample_450)))
                 (state_of register) in
  let register' := ServerTs.fire quiet
                     (ServerTs.Connection 2 (Some "arduino-publisher"))
                     ts_producer_and_consumer in
  Part002.publisher p2_producer_and_consumer = Some 1 /\
  result_of register = Val tt /\
  trace_of register =
    [Log DEBUG "Received message"; Log WARN "Replacing existing publisher";
     Send 1 Part002.disconnect_notice; SetPublisher (Some 2);
     Log INFO "Publisher registered"; Send 2 (Part002.registered "publisher")] /\
  Part002.publisher (state_of register) = Some 2 /\
  Part002.clients (state_of register) = [1; 3; 2] /\
  Part002.publisher_flag (state_of register) 1 = true /\
  trace_of later =
    [Log DEBUG "Received message"; Log INFO "Received sensor data from publisher";
     SetLatestData sample_450; Log INFO "Broadcasting to subscribers";
     Send 3 (FJson (JObj (spread_data sample_450))); SetSubscribers [3]] /\
  Part002.latestData (state_of later) = sample_450 /\
  (forall env ws role s,
     existsb ends_socket (trace_of (Part002.handleRegistration env ws role s))
     = false) /\
  ServerTs.publisher ts_producer_and_consumer = Some 1 /\
  trace_of register' =
    [Close 1 1000 "New publisher connected"; SetPublisher (Some 2);
     Log INFO "Nuevo PUBLISHER conectado (Arduino)"] /\
  ServerTs.publisher (state_of register') = Some 2.
Proof.
  cbn zeta.
  repeat (split; [vm_compute; reflexivity|]).
  split; [exact p2_handleRegistration_ends_no_socket|].
  repeat (split; [vm_compute; reflexivity|]). vm_compute. reflexivity.
Qed.

(** ** Removal of a producer *)

Lemma ts_onClose_guard (c : conn) (isPublisher : bool) (s : ServerTs.server) :
  ServerTs.publisher s <> Some c ->
  ServerTs.publisher (state_of (ServerTs.onClose c isPublisher s)) =
    ServerTs.publisher s.
Proof.
  intros H. rewrite ts_onClose_spec. destruct isPublisher.
  - destruct (ServerTs.publisher s) as [p|] eqn:E; [|cbn; exact E].
    destruct (Nat.eqb_spec p c) as [->|_]; [congruence|]. cbn. exact E.
  - destruct (indexOf c (ServerTs.subscribers s)); reflexivity.
Qed.

Lemma p2_onClose_guard (c : conn) (s : Part002.server) :
  Part002.publisher s <> Some c ->
  Part002.publisher (state_of (Part002.onClose c s)) = Part002.publisher s.
Proof.
  intros H. rewrite p2_onClose_spec. unfold Part002.is_publisher.
  destruct (Part002.publisher s) as [p|] eqn:E.
  - destruct (Nat.eqb_spec p c) as [->|_]; [congruence|].
    rewrite andb_false_r. cbn. congruence.
  - rewrite andb_false_r. cbn. congruence.
Qed.

(** C7. The close handler clears the producer slot only when the slot still
    holds the closing socket: with any other producer installed the slot is
    left as it is, so the close event of a superseded producer, fired after
    its successor was installed, leaves the successor installed; and when the
    slot does hold the closing producer it is cleared. *)
Theorem C7_removeProducer_guard :
  (forall (c : conn) (isPublisher : bool) (s : ServerTs.server),
     ServerTs.publisher s <> Some c ->
     ServerTs.publisher (state_of (ServerTs.onClose c isPublisher s)) =
       ServerTs.publisher s) /\
  (forall (first second : transport * conn) (s : ServerTs.server),
     snd first <> snd second ->
     ServerTs.publisher
       (state_of (ServerTs.onClose (snd first) true
                    (state_of (forEach [first; second] ts_registerProducer s)))) =
       Some (snd second)) /\
  (forall (c : conn) (s : ServerTs.server),
     ServerTs.publisher s = Some c ->
     ServerTs.publisher (state_of (ServerTs.onClose c true s)) = None) /\
  (forall (c : conn) (s : Part002.server),
     Part002.publisher s <> Some c ->
     Part002.publisher (state_of (Part002.onClose c s)) = Part002.publisher s) /\
  (forall (first second : transport * conn) (s : Part002.server),
     snd first <> snd second ->
     Part002.publisher
       (state_of (Part002.onClose (snd first)
                    (state_of (forEach [first; second] p2_registerProducer s)))) =
       Some (snd second)) /\
  (forall (c : conn) (s : Part002.server),
     Part002.publisher s = Some c -> Part002.publisher_flag s c = true ->
     Part002.publisher (state_of (Part002.onClose c s)) = None).
Proof.
  repeat split.
  - apply ts_onClose_guard.
  - intros first second s Hne.
    destruct (registrations_last ts_registerProducer ServerTs.publisher)
      with (before := [first; second]) (s := s) as [_ Hl].
    { intros reg' s'. destruct (ts_registerProducer_step reg' s') as (? & ? & _).
      now split. }
    specialize (Hl (snd second) eq_refl).
    rewrite ts_onClose_guard; [exact Hl|]. rewrite Hl. congruence.
  - intros c s H. rewrite ts_onClose_spec, H, Nat.eqb_refl. reflexivity.
  - apply p2_onClose_guard.
  - intros first second s Hne.
    destruct (registrations_last p2_registerProducer Part002.publisher)
      with (before := [first; second]) (s := s) as [_ Hl].
    { intros reg' s'. destruct (p2_registerProducer_step reg' s') as (? & ? & _).
      now split. }
    specialize (Hl (snd second) eq_refl).
    rewrite p2_onClose_guard; [exact Hl|]. rewrite Hl. congruence.
  - intros c s H Hf. rewrite p2_onClose_spec. unfold Part002.is_publisher.
    rewrite Hf, H, Nat.eqb_refl. reflexivity.
Qed.

(** ** Validation of producer messages *)

Lemma ts_broadcast_trace env o s :
  exists rest,
    trace_of (ServerTs.broadcastToSubscribers env o s) = SetLatestData o :: rest /\
    Forall (fun a => ~ sets_latest a) rest.
Proof.
  destruct (ts_broadcast_spec env o s) as (_ & _ & _ & rest & Ht & Hall).
  exists rest. split; [exact Ht|].
  eapply List.Forall_impl; [|exact Hall]. intros []; cbn; tauto.
Qed.

Lemma p2_broadcast_trace env o s :
  Forall (fun a => ~ sets_latest a)
    (trace_of (Part002.broadcastToSubscribers env o s)).
Proof.
  destruct (p2_broadcast_spec env o s) as (_ & _ & _ & Hall).
  eapply List.Forall_impl; [|exact Hall]. intros []; cbn; tauto.
Qed.

(** C5. A message of the producer whose payload lacks [C] is discarded: the
    server state (so [latestData] too) is unchanged and the trace holds log
    lines only, no send. A payload that carries [C] becomes [latestData], and
    the assignment precedes every send of the fan-out. In the handshake
    revision this is the handling of the frames that are not [register]
    frames. *)
Theorem C5_producer_message_validation :
  (forall env (c : conn) (data : json) (s : ServerTs.server),
     let r := ServerTs.onMessage env c true (Parsed data) s in
     (sample_of (Parsed data) = None ->
        result_of r = Val tt /\ state_of r = s /\ Forall is_log (trace_of r)) /\
     (forall o, sample_of (Parsed data) = Some o ->
        result_of r = Val tt /\ ServerTs.latestData (state_of r) = o /\
        stored_before_fanout o (trace_of r))) /\
  (forall env (c : conn) (data : json) (s : Part002.server),
     Part002.publisher_flag s c = true ->
     register_role (Parsed data) = None ->
     let r := Part002.onMessage env c (Parsed data) s in
     (sample_of (Parsed data) = None ->
        result_of r = Val tt /\ state_of r = s /\ Forall is_log (trace_of r)) /\
     (forall o, sample_of (Parsed data) = Some o ->
        result_of r = Val tt /\ Part002.latestData (state_of r) = o /\
        stored_before_fanout o (trace_of r))).
Proof.
  split.
  - intros env c data s. cbn zeta. split.
    + intros H. apply ts_onMessage_other. now right.
    + intros o H. rewrite (ts_onMessage_sample env c (Parsed data) o s H).
      cbn [result_of state_of trace_of fst snd].
      destruct (ts_broadcast_spec env o s) as (_ & -> & _).
      split; [reflexivity|]. split; [reflexivity|].
      destruct (ts_broadcast_trace env o s) as (rest & -> & Hrest).
      exists [Log INFO "Datos recibidos"], rest.
      split; [reflexivity|]. split; [repeat constructor|exact Hrest].
  - intros env c data s Hf Hr. cbn zeta. split.
    + intros H.
      destruct (p2_onMessage_other env c (Parsed data) s Hr (or_intror H))
        as (H1 & H2 & _ & H4).
      split; [exact H1|]. split; [exact H2|]. apply H4. intros raw. discriminate.
    + intros o H. rewrite (p2_onMessage_sample env c (Parsed data) o s Hr H Hf).
      cbn [result_of state_of trace_of fst snd].
      destruct (p2_broadcast_spec env o
                  (Part002.mkServer (Part002.subscribers s) (Part002.publisher s) o
                     (Part002.clients s) (Part002.isAlive s)
                     (Part002.isPublisher s))) as (_ & -> & _).
      split; [reflexivity|]. split; [reflexivity|].
      exists [Log DEBUG "Received message";
              Log INFO "Received sensor data from publisher"].
      eexists. split; [reflexivity|]. split; [repeat constructor|].
      apply p2_broadcast_trace.
Qed.

(** C10. A message that carries [C] but comes from a socket that is not a
    producer (its handlers captured [isPublisher = false]; in the handshake
    revision its [isPublisher] flag is down and the frame is not a [register]
    frame) is not broadcast and changes nothing: the server state is the
    same and the trace holds log lines only. Whenever a message handler
    does change the state, the socket is a producer's (or, in the handshake
    revision, the frame is a [register] frame). *)
Theorem C10_consumer_message_is_inert :
  (forall env (c : conn) (data : json) (o : obj) (s : ServerTs.server),
     sample_of (Parsed data) = Some o ->
     let r := ServerTs.onMessage env c false (Parsed data) s in
     result_of r = Val tt /\ state_of r = s /\ Forall is_log (trace_of r)) /\
  (forall env (c : conn) (isPublisher : bool) (message : inbound)
          (s : ServerTs.server),
     state_of (ServerTs.onMessage env c isPublisher message s) <> s ->
     isPublisher = true) /\
  (forall env (c : conn) (data : json) (o : obj) (s : Part002.server),
     sample_of (Parsed data) = Some o ->
     register_role (Parsed data) = None ->
     Part002.publisher_flag s c = false ->
     let r := Part002.onMessage env c (Parsed data) s in
     result_of r = Val tt /\ state_of r = s /\ Forall is_log (trace_of r)) /\
  (forall env (c : conn) (message : inbound) (s : Part002.server),
     state_of (Part002.onMessage env c message s) <> s ->
     register_role message = None ->
     Part002.publisher_flag s c = true).
Proof.
  repeat split.
  - apply ts_onMessage_other. now left.
  - apply ts_onMessage_other. now left.
  - apply ts_onMessage_other. now left.
  - intros env c isPublisher message s H. destruct isPublisher; [reflexivity|].
    exfalso. apply H. apply ts_onMessage_other. now left.
  - apply p2_onMessage_other; [assumption|now left].
  - apply p2_onMessage_other; [assumption|now left].
  - destruct (p2_onMessage_other env c (Parsed data) s H0 (or_introl H1))
      as (_ & _ & _ & H4).
    apply H4. intros raw. discriminate.
  - intros env c message s H Hr.
    destruct (Part002.publisher_flag s c) eqn:Ef; [reflexivity|].
    exfalso. apply H. apply p2_onMessage_other; [assumption|now left].
Qed.

(** ** The health endpoint *)

(** At start-up the body of [GET /health] has neither a [subscriber_count]
    nor a [producer_connected] field, and what it says of the producer is the
    text [disconnected], not a boolean: it is not the body specified. *)
Lemma C9_health_counterexample :
  lookup_key "subscriber_count" (fields_of (ServerTs.health ServerTs.init)) = None /\
  lookup_key "producer_connected" (fields_of (ServerTs.health ServerTs.init)) = None /\
  lookup_key "publisher" (fields_of (ServerTs.health ServerTs.init)) =
    Some (JStr "disconnected") /\
  ~ health_as_specified (ServerTs.health ServerTs.init)
      (length (ServerTs.subscribers ServerTs.init))
      (installed (ServerTs.publisher ServerTs.init)).
Proof.
  repeat split. intros (_ & H & _). cbn in H. discriminate.
Qed.

(** C9, as the code has it. In every state, [GET /health] answers the
    object [{status: "healthy", subscribers, publisher}] where [subscribers]
    is the length of the subscriber array and [publisher] is the text
    [connected] when a publisher is installed and [disconnected] otherwise. *)
Theorem C9_health_body :
  (forall s : ServerTs.server,
     health_as_built (ServerTs.health s) (length (ServerTs.subscribers s))
       (installed (ServerTs.publisher s))) /\
  (forall s : Part002.server,
     health_as_built (Part002.health s) (length (Part002.subscribers s))
       (installed (Part002.publisher s))).
Proof.
  split; intros s; unfold health_as_built; cbn.
  - destruct (ServerTs.publisher s); repeat split.
  - destruct (Part002.publisher s); repeat split.
Qed.

(** ** Fan-out under partial failure *)

Lemma filter_negb_length (f : conn -> bool) (l : list conn) :
  length (List.filter (fun c => negb (f c)) l) =
    length l - length (List.filter f l).
Proof.
  induction l as [|x l IH]; [reflexivity|].
  pose proof (List.filter_length_le f l).
  cbn [List.filter]. destruct (f x); cbn [negb length]; lia.
Qed.

(** X1. In [src/server.ts] the fan-out of one sample to [N] subscribers of
    which [M] throw on send returns, serves every subscriber (a send that
    throws aborts nothing), keeps exactly those whose send returned, and so
    ends with [N - M] subscribers. *)
Lemma ts_fanout_completeness env (data : obj) (s : ServerTs.server) :
  let message := FJson (JObj data) in
  let r := ServerTs.broadcastToSubscribers env data s in
  let failing := List.filter (fun c => send_throws env c message)
                   (ServerTs.subscribers s) in
  result_of r = Val tt /\
  (forall c, In c (ServerTs.subscribers s) -> In (Send c message) (trace_of r)) /\
  (forall c, In c (ServerTs.subscribers (state_of r)) <->
             In c (ServerTs.subscribers s) /\ send_throws env c message = false) /\
  length (ServerTs.subscribers (state_of r)) =
    length (ServerTs.subscribers s) - length failing.
Proof.
  cbn zeta. destruct (ts_broadcast_spec env data s) as (Hr & Hst & Htr & _).
  cbn zeta in *. rewrite Hst. cbn [ServerTs.subscribers].
  split; [exact Hr|]. split; [intros c Hc; now apply Htr|]. split.
  - intros c. rewrite List.filter_In. unfold ok.
    destruct (send_throws env c _); cbn; intuition congruence.
  - apply filter_negb_length.
Qed.


(** C2, at the failing input. Three consumers are registered and all three
    sockets are [OPEN]; the send to consumer 2 throws. The handshake revision
    serves consumers 1 and 3, but its clean-up keeps the sockets that are
    [OPEN], so consumer 2 stays and the set still has three members, where
    [src/server.ts] on the same input ends with consumers 1 and 3. And when
    no send throws but the socket of consumer 2 is no longer [OPEN], the
    handshake revision drops consumer 2. *)
Theorem C2_part002_keeps_failing_consumer :
  let message := FJson (JObj (spread_data sample_450)) in
  let sample := Part002.Message 0 (Parsed (JObj sample_450)) in
  let r := Part002.fire (only_throws 2) sample p2_three_consumers in
  let r' := ServerTs.fire (only_throws 2)
              (ServerTs.Message 0 (Parsed (JObj sample_450))) ts_three_consumers in
  let r'' := Part002.fire (only_closed 2) sample p2_three_consumers in
  Part002.subscribers p2_three_consumers = [1; 2; 3] /\
  send_throws (only_throws 2) 2 message = true /\
  result_of r = Val tt /\
  In (Send 1 message) (trace_of r) /\
  In (Send 2 message) (trace_of r) /\
  In (Send 3 message) (trace_of r) /\
  Part002.subscribers (state_of r) = [1; 2; 3] /\
  ServerTs.subscribers ts_three_consumers = [1; 2; 3] /\
  ServerTs.subscribers (state_of r') = [1; 3] /\
  send_throws (only_closed 2) 2 message = false /\
  Part002.subscribers (state_of r'') = [1; 3].
Proof.
  cbn zeta. repeat split; vm_compute; tauto.
Qed.

(** ** The first sample sent to a new consumer *)

(** X2. In the logging revision the send of the latest sample to a new
    consumer is under [try]/[catch]: the connection handler returns, the
    socket is subscribed and has its listeners, and a failure of the send is
    logged. *)
Lemma p0_registerConsumer_best_effort env (c : conn) (header : option string)
    (s : ServerTs.server) :
  is_publisher_header header = false ->
  let r := Part000.onConnection env c header s in
  result_of r = Val tt /\
  ServerTs.subscribers (state_of r) = ServerTs.subscribers s ++ [c] /\
  ServerTs.listeners (state_of r) !! c = Some false /\
  (nonempty (ServerTs.latestData s) = true ->
   In (Send c (FJson (JObj (ServerTs.latestData s)))) (trace_of r) /\
   (send_throws env c (FJson (JObj (ServerTs.latestData s))) = true ->
    In (Log ERROR "Failed to send initial data to subscriber") (trace_of r))).
Proof.
  intros H. unfold Part000.onConnection, ServerTs.set_isAlive, ServerTs.set_type,
    ServerTs.set_subscribers, ServerTs.attach.
  assert (match header with
          | Some h => String.eqb h "arduino-publisher"
          | None => false
          end = false) as -> by exact H.
  unfold_monad. cbn.
  destruct (nonempty (ServerTs.latestData s)); cbn.
  - destruct (send_throws env c _); cbn; rewrite lookup_insert_eq;
      repeat split; try tauto; try discriminate; intros _; tauto.
  - rewrite lookup_insert_eq. repeat split; discriminate.
Qed.

(** C8, at the failing input. A sample was relayed, a consumer (socket 1)
    connects and the send of the latest sample throws. In [src/server.ts]
    the send is not guarded: the connection handler throws, nothing is
    logged and the listeners of the socket are never attached (the socket is
    in the subscriber array all the same). The logging revision, on the same
    input, catches and logs the failure and completes the registration. *)
Theorem C8_server_ts_initial_send_unguarded :
  let r := ServerTs.fire (only_throws 1) (ServerTs.Connection 1 None)
             ts_after_sample in
  let r' := Part000.fire (only_throws 1) (ServerTs.Connection 1 None)
              ts_after_sample in
  ServerTs.latestData ts_after_sample = sample_450 /\
  result_of r = Throw /\
  trace_of r = [SetSubscribers [1]; Log INFO "Nuevo SUBSCRIBER conectado - Total";
                Send 1 (FJson (JObj sample_450))] /\
  ServerTs.subscribers (state_of r) = [1] /\
  ServerTs.listeners (state_of r) !! 1 = None /\
  result_of r' = Val tt /\
  In (Log ERROR "Failed to send initial data to subscriber") (trace_of r') /\
  ServerTs.subscribers (state_of r') = [1] /\
  ServerTs.listeners (state_of r') !! 1 = Some false.
Proof.
  cbn zeta. repeat split; vm_compute; tauto.
Qed.

(** ** One role per socket *)

(** An event either gives no socket a new role, or it is a [register]
    frame that installs its sender as the publisher or appends it to the
    subscribers. *)
Lemma p2_fire_roles env ev s s1 tr1 :
  Part002.fire env ev s = (Val tt, s1, tr1) ->
  ((forall x, Part002.publisher s1 = Some x -> Part002.publisher s = Some x) /\
   (forall x, In x (Part002.subscribers s1) -> In x (Part002.subscribers s))) \/
  (exists c message role,
      ev = Part002.Message c message /\ register_role message = Some role /\
      ((Part002.publisher s1 = Some c /\
        Part002.subscribers s1 = Part002.subscribers s) \/
       (Part002.publisher s1 = Part002.publisher s /\
        Part002.subscribers s1 = Part002.subscribers s ++ [c]))).
Proof.
  intros Hf. destruct ev as [c|c message|c|].
  - left. rewrite p2_fire_connection, p2_onConnection_spec in Hf.
    injection Hf as _ <- _. split; intros x H; exact H.
  - rewrite p2_fire_message in Hf.
    destruct (Part002.isAlive s !! c) as [b|];
      [|left; injection Hf as <- _; tauto].
    destruct (register_role message) as [role|] eqn:Er.
    + right. exists c, message, role. split; [reflexivity|]. split; [exact Er|].
      rewrite (p2_onMessage_register env c message role s Er) in Hf.
      cbn zeta in Hf. injection Hf as <- _.
      destruct (is_str "publisher" role) eqn:Ep.
      * left. rewrite p2_handleRegistration_publisher by exact Ep. now split.
      * right. rewrite p2_handleRegistration_subscriber by exact Ep. cbn zeta.
        destruct (send_throws env c (Part002.registered "subscriber"));
          [|destruct (nonempty (Part002.latestData s))]; now split.
    + left.
      destruct (sample_of message) as [o|] eqn:Es;
        [destruct (Part002.publisher_flag s c) eqn:Ef|].
      * rewrite (p2_onMessage_sample env c message o s Er Es Ef) in Hf.
        cbn zeta in Hf. injection Hf as <- _.
        destruct (p2_broadcast_spec env o
                    (Part002.mkServer (Part002.subscribers s)
                       (Part002.publisher s) o (Part002.clients s)
                       (Part002.isAlive s) (Part002.isPublisher s)))
          as (_ & -> & _).
        split; intros x H; cbn in H; [exact H|].
        now apply List.filter_In in H.
      * destruct (p2_onMessage_other env c message s Er (or_introl Ef))
          as (_ & Hst & _).
        rewrite Hf in Hst. cbn in Hst. subst. tauto.
      * destruct (p2_onMessage_other env c message s Er (or_intror Es))
          as (_ & Hst & _).
        rewrite Hf in Hst. cbn in Hst. subst. tauto.
  - left. rewrite p2_fire_closed in Hf.
    destruct (Part002.isAlive s !! c) as [b|];
      [|injection Hf as <- _; split; intros x H; exact H].
    rewrite p2_onClose_spec in Hf.
    destruct (Part002.publisher_flag _ c && Part002.is_publisher _ c);
      injection Hf as <- _; split; intros x H; cbn in H;
      try discriminate; try exact H.
    now apply List.filter_In in H.
  - left. rewrite p2_fire_tick in Hf.
    destruct (p2_sweep_registry env (Part002.clients s) s)
      as ((H1 & H2 & _) & _).
    rewrite Hf in H1, H2. cbn in H1, H2.
    split; intros x H; congruence.
Qed.

Lemma register_count_cons_ge c ev evs :
  register_count c evs <= register_count c (ev :: evs).
Proof. destruct ev; cbn; lia. Qed.

Lemma register_count_cons_register c message role evs :
  register_role message = Some role ->
  register_count c (Part002.Message c message :: evs) = S (register_count c evs).
Proof. intros H. cbn. rewrite Nat.eqb_refl, H. reflexivity. Qed.

(** A run in which the sockets that hold a role send no further [register]
    frame, and the others at most one, keeps the two roles apart. *)
Lemma p2_exclusive_steps s evs s' tr :
  Part002.steps s evs s' tr ->
  p2_exclusive s ->
  (forall c, p2_has_role s c -> register_count c evs = 0) ->
  (forall c, register_count c evs <= 1) ->
  p2_exclusive s'.
Proof.
  induction 1 as [|s env ev s1 tr1 evs s2 tr2 En Hf _ IH]; [tauto|].
  intros Hex Hrole Hcount.
  assert (forall c, register_count c evs <= 1) as Hcount'.
  { intros c. specialize (Hcount c).
    pose proof (register_count_cons_ge c ev evs). lia. }
  assert (forall c, p2_has_role s c -> register_count c evs = 0) as Hrole'.
  { intros c Hc. specialize (Hrole c Hc).
    pose proof (register_count_cons_ge c ev evs). lia. }
  destruct (p2_fire_roles env ev s s1 tr1 Hf)
    as [[Hpub Hsub]|(c & message & role & -> & Er & Hreg)].
  - apply IH; [|intros c [Hc|Hc]|exact Hcount'].
    + intros c [Hp Hs]. apply (Hex c). split; [now apply Hpub|now apply Hsub].
    + apply Hrole'. left. now apply Hpub.
    + apply Hrole'. right. now apply Hsub.
  - assert (register_count c evs = 0) as Hc0.
    { specialize (Hcount c).
      rewrite (register_count_cons_register c message role evs Er) in Hcount. lia. }
    assert (~ p2_has_role s c) as Hnone.
    { intros Hc. specialize (Hrole c Hc).
      rewrite (register_count_cons_register c message role evs Er) in Hrole.
      discriminate. }
    destruct Hreg as [[Hp Hs]|[Hp Hs]].
    + apply IH; [|intros x [Hx|Hx]|exact Hcount'].
      * intros x [Hxp Hxs]. rewrite Hp in Hxp. injection Hxp as <-.
        rewrite Hs in Hxs. apply Hnone. now right.
      * rewrite Hp in Hx. injection Hx as <-. exact Hc0.
      * apply Hrole'. right. now rewrite <- Hs.
    + apply IH; [|intros x [Hx|Hx]|exact Hcount'].
      * intros x [Hxp Hxs]. rewrite Hp in Hxp. rewrite Hs in Hxs.
        apply in_app_iff in Hxs. destruct Hxs as [Hxs|[<-|[]]].
        -- apply (Hex x). now split.
        -- apply Hnone. now left.
      * apply Hrole'. left. now rewrite <- Hp.
      * rewrite Hs in Hx. apply in_app_iff in Hx. destruct Hx as [Hx|[<-|[]]].
        -- apply Hrole'. now right.
        -- exact Hc0.
Qed.

(** A socket that registers as a consumer and then as a producer is both
    the installed publisher and a subscriber, in a state the server reaches. *)
Lemma C6_counterexample :
  Part002.reachable p2_both_roles /\
  Part002.publisher p2_both_roles = Some 1 /\
  In 1 (Part002.subscribers p2_both_roles) /\
  ~ p2_exclusive p2_both_roles.
Proof.
  assert (Part002.publisher p2_both_roles = Some 1 /\
          In 1 (Part002.subscribers p2_both_roles)) as Hboth
    by (split; vm_compute; tauto).
  split; [|split; [apply Hboth|split; [apply Hboth|]]].
  - exists [Part002.Connection 1;
            Part002.Message 1 (register_frame "subscriber");
            Part002.Message 1 (register_frame "publisher")].
    eexists. p2_step quiet. p2_step quiet. p2_step quiet.
    apply Part002.steps_nil.
  - intros H. exact (H 1 Hboth).
Qed.

(** C6, as the code has it. In every state [src/server.ts] reaches, no
    socket is both the installed publisher and a subscriber: the role is
    fixed by the header when the socket connects. In the handshake revision
    the same holds on every run in which no socket sends more than one
    [register] frame. *)
Theorem C6_one_role_per_socket :
  (forall s, ServerTs.reachable s -> ts_exclusive s) /\
  (forall evs s tr,
     Part002.steps Part002.init evs s tr ->
     (forall c, register_count c evs <= 1) ->
     p2_exclusive s).
Proof.
  split.
  - intros s Hr c [Hp Hs]. apply ts_wf_reachable in Hr.
    apply (ts_wf_pub s Hr) in Hp. apply (ts_wf_sub s Hr) in Hs. congruence.
  - intros evs s tr Hsteps Hcount.
    eapply p2_exclusive_steps; [exact Hsteps| | |exact Hcount].
    + intros c [Hp _]. discriminate.
    + intros c [Hp|[]]. discriminate.
Qed.

(** ** The latest sample *)

Lemma sets_latest_dec (tr : list action) :
  Forall (fun a => ~ sets_latest a) tr \/ Exists sets_latest tr.
Proof.
  induction tr as [|a tr [IH|IH]].
  - left. constructor.
  - destruct a; try (left; constructor; [cbn; tauto|exact IH]).
    right. now left.
  - right. now right.
Qed.

Lemma sets_latest_absurd (tr : list action) :
  Forall (fun a => ~ sets_latest a) tr -> Exists sets_latest tr -> False.
Proof.
  intros H1 H2. apply List.Exists_exists in H2. destruct H2 as (a & Hin & Ha).
  rewrite List.Forall_forall in H1. exact (H1 a Hin Ha).
Qed.

Lemma logs_set_nothing (tr : list action) :
  Forall is_log tr -> Forall (fun a => ~ sets_latest a) tr.
Proof. apply List.Forall_impl. intros []; cbn; tauto. Qed.

Lemma has_key_nonempty (k : string) (o : obj) :
  has_key k o = true -> nonempty o = true.
Proof. destruct o; [discriminate|reflexivity]. Qed.

Lemma sample_of_nonempty (message : inbound) (o : obj) :
  sample_of message = Some o -> nonempty o = true.
Proof.
  destruct message as [raw|[]]; try discriminate. cbn.
  destruct (has_key "C" fields) eqn:E; [|discriminate].
  intros [= <-]. eapply has_key_nonempty. exact E.
Qed.

Section ServerTsLatest.
Import ServerTs.

Lemma ts_fire_connection env c header s :
  fire env (Connection c header) s = onConnection env c header (ts_add_client c s).
Proof.
  cbn [fire]. unfold bind at 1 2, get, set_clients, modify. cbn [app].
  fold (ts_add_client c s).
  destruct (onConnection env c header (ts_add_client c s)) as [[[[]|] s1] t1];
    reflexivity.
Qed.

Lemma ts_fire_message env c message s :
  fire env (Message c message) s =
    match listeners s !! c with
    | Some isPublisher => onMessage env c isPublisher message s
    | None => (Val tt, s, [])
    end.
Proof.
  cbn [fire]. unfold bind, get.
  destruct (listeners s !! c) as [b|]; [|reflexivity].
  destruct (onMessage env c b message s) as [[[[]|] s1] t1];
    rewrite ?app_nil_r; reflexivity.
Qed.

Lemma ts_fire_pong env c s :
  fire env (Pong c) s =
    match listeners s !! c with
    | Some _ =>
        (Val tt,
         mkServer (subscribers s) (publisher s) (latestData s) (clients s)
           (<[c := true]> (isAlive s)) (type s) (listeners s), [])
    | None => (Val tt, s, [])
    end.
Proof.
  cbn [fire]. unfold bind, get, onPong, set_isAlive, modify, ret.
  destruct (listeners s !! c); reflexivity.
Qed.

Lemma ts_fire_tick env s :
  fire env Tick s = forEach (clients s) (probe env) s.
Proof.
  cbn [fire]. unfold pingInterval, bind, get.
  destruct (forEach (clients s) (probe env) s) as [[[[]|] s1] t1]; reflexivity.
Qed.

(** An event either leaves [latestData] alone or stores a sample. *)
Lemma ts_fire_latest env ev s s1 tr1 :
  fire env ev s = (Val tt, s1, tr1) ->
  (Forall (fun a => ~ sets_latest a) tr1 /\ latestData s1 = latestData s) \/
  (Exists sets_latest tr1 /\ nonempty (latestData s1) = true).
Proof.
  intros Hf. destruct ev as [c header|c|c message|c|].
  - left. rewrite ts_fire_connection in Hf.
    destruct (is_publisher_header header) eqn:Eh.
    + rewrite ts_onConnection_publisher in Hf by exact Eh.
      injection Hf as <- <-. split; [|reflexivity].
      apply Forall_app. split; [|repeat constructor; cbn; tauto].
      cbn. destruct (publisher s) as [old|]; [|constructor].
      constructor; [cbn; tauto|].
      destruct (close_throws env old); repeat constructor. cbn. tauto.
    + rewrite ts_onConnection_subscriber in Hf by exact Eh. cbn zeta in Hf.
      cbn [ts_add_client subscribers publisher latestData clients isAlive
             type listeners] in Hf.
      destruct (nonempty (latestData s));
        [destruct (send_throws env c _); [discriminate|]|];
        injection Hf as <- <-; (split; [|reflexivity]);
        repeat constructor; cbn; tauto.
  - left. rewrite ts_fire_pong in Hf.
    destruct (listeners s !! c); injection Hf as <- <-;
      (split; [constructor|reflexivity]).
  - rewrite ts_fire_message in Hf.
    destruct (listeners s !! c) as [b|];
      [|left; injection Hf as <- <-; split; [constructor|reflexivity]].
    destruct b; [destruct (sample_of message) as [o|] eqn:Es|].
    + right. rewrite (ts_onMessage_sample env c message o s Es) in Hf.
      injection Hf as <- <-.
      destruct (ts_broadcast_spec env o s) as (_ & -> & _ & rest & -> & _).
      split; [right; now left|].
      cbn. eapply sample_of_nonempty. exact Es.
    + left.
      destruct (ts_onMessage_other env c true message s (or_intror Es))
        as (_ & Hst & Htr).
      rewrite Hf in Hst, Htr. cbn in Hst, Htr. subst.
      split; [now apply logs_set_nothing|reflexivity].
    + left.
      destruct (ts_onMessage_other env c false message s (or_introl eq_refl))
        as (_ & Hst & Htr).
      rewrite Hf in Hst, Htr. cbn in Hst, Htr. subst.
      split; [now apply logs_set_nothing|reflexivity].
  - left. rewrite ts_fire_closed in Hf.
    destruct (listeners s !! c) as [b|];
      [|injection Hf as <- <-; split; [constructor|reflexivity]].
    rewrite ts_onClose_spec in Hf. cbn [ts_drop_client publisher subscribers] in Hf.
    destruct b.
    + destruct (publisher s) as [p|];
        [destruct (Nat.eqb p c)|]; injection Hf as <- <-;
        (split; [|reflexivity]); repeat constructor; cbn; tauto.
    + destruct (indexOf c (subscribers s)); injection Hf as <- <-;
        (split; [|reflexivity]); repeat constructor; cbn; tauto.
  - left. rewrite ts_fire_tick in Hf.
    destruct (ts_sweep_registry env (clients s) s) as ((_ & _ & H3 & _) & _).
    rewrite Hf in H3. cbn in H3. split; [|exact H3].
    replace tr1 with (trace_of (forEach (clients s) (probe env) s))
      by now rewrite Hf.
    apply forEach_trace. intros x s' _. rewrite ts_probe_spec.
    destruct (alive_flag (isAlive s') x); cbn;
      [destruct (ping_throws env x)|]; repeat constructor; cbn; tauto.
Qed.

Lemma ts_steps_latest s evs s' tr :
  steps s evs s' tr ->
  (Forall (fun a => ~ sets_latest a) tr -> latestData s' = latestData s) /\
  (Exists sets_latest tr -> nonempty (latestData s') = true).
Proof.
  induction 1 as [|s env ev s1 tr1 evs s2 tr2 En Hf _ [IH1 IH2]].
  - split; [reflexivity|]. intros H. inversion H.
  - split.
    + intros [H1 H2]%Forall_app.
      destruct (ts_fire_latest env ev s s1 tr1 Hf) as [[_ Hl]|[Hex _]].
      * rewrite IH1 by exact H2. exact Hl.
      * destruct (sets_latest_absurd tr1 H1 Hex).
    + intros H. destruct (sets_latest_dec tr2) as [Hno|Hyes]; [|now apply IH2].
      rewrite IH1 by exact Hno.
      apply Exists_app in H. destruct H as [H|H].
      * destruct (ts_fire_latest env ev s s1 tr1 Hf) as [[Hall _]|[_ Hne]].
        -- destruct (sets_latest_absurd tr1 Hall H).
        -- exact Hne.
      * destruct (sets_latest_absurd tr2 Hno H).
Qed.
End ServerTsLatest.

Section Part002Latest.
Import Part002.

Lemma p2_fire_latest env ev s s1 tr1 :
  fire env ev s = (Val tt, s1, tr1) ->
  (Forall (fun a => ~ sets_latest a) tr1 /\ latestData s1 = latestData s) \/
  (Exists sets_latest tr1 /\ nonempty (latestData s1) = true).
Proof.
  intros Hf. destruct ev as [c|c message|c|].
  - left. rewrite p2_fire_connection, p2_onConnection_spec in Hf.
    injection Hf as _ <- <-. split; [|reflexivity].
    repeat constructor; cbn; tauto.
  - rewrite p2_fire_message in Hf.
    destruct (isAlive s !! c) as [b|];
      [|left; injection Hf as <- <-; split; [constructor|reflexivity]].
    destruct (register_role message) as [role|] eqn:Er.
    + left. rewrite (p2_onMessage_register env c message role s Er) in Hf.
      cbn zeta in Hf. injection Hf as <- <-.
      destruct (is_str "publisher" role) eqn:Ep.
      * rewrite p2_handleRegistration_publisher by exact Ep.
        cbn [state_of trace_of result_of fst snd latestData].
        split; [|reflexivity].
        constructor; [cbn; tauto|]. rewrite <- app_assoc.
        apply Forall_app. split.
        -- destruct (publisher s) as [old|]; [|constructor].
           constructor; [cbn; tauto|]. constructor; [cbn; tauto|].
           destruct (send_throws env old _); repeat constructor. cbn. tauto.
        -- destruct (send_throws env c _); repeat constructor; cbn; tauto.
      * rewrite p2_handleRegistration_subscriber by exact Ep. cbn zeta.
        destruct (send_throws env c (registered "subscriber"));
          [|destruct (nonempty (latestData s));
            [destruct (send_throws env c _)|]];
          (split; [|reflexivity]); repeat constructor; cbn; tauto.
    + destruct (sample_of message) as [o|] eqn:Es;
        [destruct (publisher_flag s c) eqn:Ef|].
      * right. rewrite (p2_onMessage_sample env c message o s Er Es Ef) in Hf.
        cbn zeta in Hf. injection Hf as <- <-.
        destruct (p2_broadcast_spec env o
                    (mkServer (subscribers s) (publisher s) o (clients s)
                       (isAlive s) (isPublisher s))) as (_ & -> & _).
        split; [right; right; now left|].
        cbn. eapply sample_of_nonempty. exact Es.
      * left.
        destruct (p2_onMessage_other env c message s Er (or_introl Ef))
          as (_ & Hst & Htr & _).
        rewrite Hf in Hst, Htr. cbn in Hst, Htr. subst.
        split; [|reflexivity].
        eapply List.Forall_impl; [|exact Htr]. intros []; cbn; tauto.
      * left.
        destruct (p2_onMessage_other env c message s Er (or_intror Es))
          as (_ & Hst & Htr & _).
        rewrite Hf in Hst, Htr. cbn in Hst, Htr. subst.
        split; [|reflexivity].
        eapply List.Forall_impl; [|exact Htr]. intros []; cbn; tauto.
  - left. rewrite p2_fire_closed in Hf.
    destruct (isAlive s !! c) as [b|];
      [|injection Hf as <- <-; split; [constructor|reflexivity]].
    rewrite p2_onClose_spec in Hf.
    destruct (publisher_flag _ c && is_publisher _ c);
      injection Hf as <- <-; (split; [|reflexivity]);
      repeat constructor; cbn; tauto.
  - left. rewrite p2_fire_tick in Hf.
    destruct (p2_sweep_registry env (clients s) s) as ((_ & _ & H3 & _) & _).
    rewrite Hf in H3. cbn in H3. split; [|exact H3].
    replace tr1 with (trace_of (forEach (clients s) (probe env) s))
      by now rewrite Hf.
    apply forEach_trace. intros x s' _. rewrite p2_probe_spec.
    destruct (alive_flag (isAlive s') x); cbn;
      [destruct (send_throws env x _)|]; repeat constructor; cbn; tauto.
Qed.

Lemma p2_steps_latest s evs s' tr :
  steps s evs s' tr ->
  (Forall (fun a => ~ sets_latest a) tr -> latestData s' = latestData s) /\
  (Exists sets_latest tr -> nonempty (latestData s') = true).
Proof.
  induction 1 as [|s env ev s1 tr1 evs s2 tr2 En Hf _ [IH1 IH2]].
  - split; [reflexivity|]. intros H. inversion H.
  - split.
    + intros [H1 H2]%Forall_app.
      destruct (p2_fire_latest env ev s s1 tr1 Hf) as [[_ Hl]|[Hex _]].
      * rewrite IH1 by exact H2. exact Hl.
      * destruct (sets_latest_absurd tr1 H1 Hex).
    + intros H. destruct (sets_latest_dec tr2) as [Hno|Hyes]; [|now apply IH2].
      rewrite IH1 by exact Hno.
      apply Exists_app in H. destruct H as [H|H].
      * destruct (p2_fire_latest env ev s s1 tr1 Hf) as [[Hall _]|[_ Hne]].
        -- destruct (sets_latest_absurd tr1 Hall H).
        -- exact Hne.
      * destruct (sets_latest_absurd tr2 Hno H).
Qed.
End Part002Latest.


(** ** The liveness sweep *)

Section ServerTsFlags.
Import ServerTs.

(** A sweep leaves the flag of every client down. *)
Lemma ts_sweep_clears env l : forall s c,
  In c l \/ alive_flag (isAlive s) c = false ->
  alive_flag (isAlive (state_of (forEach l (probe env) s))) c = false.
Proof.
  induction l as [|x l IH]; intros s c H.
  - destruct H as [[]|H]. exact H.
  - rewrite forEach_cons, ts_probe_spec.
    destruct (alive_flag (isAlive s) x) eqn:Ex; cbn [state_of fst snd].
    + apply IH. cbn [isAlive].
      destruct (Nat.eq_dec x c) as [->|Hne].
      * right. apply alive_flag_insert_eq.
      * rewrite alive_flag_insert_ne by exact Hne.
        destruct H as [[Hx|Hc]|H]; [congruence|now left|now right].
    + apply IH. destruct H as [[<-|Hc]|H]; [now right|now left|now right].
Qed.

(** While a socket sends no pong, its flag stays down; while it is not
    closed, it stays a client. *)
Lemma ts_fire_silent env ev s s1 tr1 c :
  fire env ev s = (Val tt, s1, tr1) ->
  enabled s ev ->
  is_Some (isAlive s !! c) ->
  ev <> Pong c ->
  alive_flag (isAlive s) c = false ->
  alive_flag (isAlive s1) c = false /\ is_Some (isAlive s1 !! c).
Proof.
  intros Hf En Hdom Hev Hflag. destruct ev as [c' header|c'|c' message|c'|].
  - cbn in En. assert (c' <> c) as Hne by (intros ->; destruct Hdom; congruence).
    rewrite ts_fire_connection in Hf.
    assert (isAlive s1 = <[c' := true]> (isAlive s)) as ->.
    { destruct (is_publisher_header header) eqn:Eh.
      - rewrite ts_onConnection_publisher in Hf by exact Eh.
        now injection Hf as <- _.
      - rewrite ts_onConnection_subscriber in Hf by exact Eh. cbn zeta in Hf.
        destruct (nonempty _); [destruct (send_throws env c' _); [discriminate|]|];
          now injection Hf as <- _. }
    rewrite alive_flag_insert_ne by exact Hne.
    split; [exact Hflag|]. now rewrite lookup_insert_ne.
  - assert (c' <> c) as Hne by congruence.
    rewrite ts_fire_pong in Hf.
    destruct (listeners s !! c'); injection Hf as <- _; cbn [isAlive];
      [|split; assumption].
    rewrite alive_flag_insert_ne by exact Hne.
    split; [exact Hflag|]. now rewrite lookup_insert_ne.
  - rewrite ts_fire_message in Hf.
    assert (isAlive s1 = isAlive s) as ->; [|split; assumption].
    destruct (listeners s !! c') as [b|]; [|now injection Hf as <- _].
    destruct b; [destruct (sample_of message) as [o|] eqn:Es|].
    + rewrite (ts_onMessage_sample env c' message o s Es) in Hf.
      injection Hf as <- _.
      destruct (ts_broadcast_spec env o s) as (_ & -> & _). reflexivity.
    + destruct (ts_onMessage_other env c' true message s (or_intror Es))
        as (_ & Hst & _).
      rewrite Hf in Hst. cbn in Hst. now subst.
    + destruct (ts_onMessage_other env c' false message s (or_introl eq_refl))
        as (_ & Hst & _).
      rewrite Hf in Hst. cbn in Hst. now subst.
  - rewrite ts_fire_closed in Hf.
    assert (isAlive s1 = isAlive s) as ->; [|split; assumption].
    destruct (listeners s !! c') as [b|]; [|now injection Hf as <- _].
    rewrite ts_onClose_spec in Hf. cbn [ts_drop_client publisher subscribers] in Hf.
    destruct b.
    + destruct (publisher s) as [p|]; [destruct (Nat.eqb p c')|];
        now injection Hf as <- _.
    + destruct (indexOf c' (subscribers s)); now injection Hf as <- _.
  - rewrite ts_fire_tick in Hf.
    pose proof (ts_sweep_clears env (clients s) s c (or_intror Hflag)) as H1.
    pose proof (ts_sweep_alive_dom env (clients s) s c Hdom) as H2.
    rewrite Hf in H1, H2. split; assumption.
Qed.

Lemma ts_fire_stays_client env ev s s1 tr1 c :
  fire env ev s = (Val tt, s1, tr1) ->
  ev <> Closed c ->
  In c (clients s) -> In c (clients s1).
Proof.
  intros Hf Hev Hc. destruct ev as [c' header|c'|c' message|c'|].
  - rewrite ts_fire_connection in Hf.
    assert (clients s1 = clients s ++ [c']) as ->; [|apply in_app_iff; now left].
    destruct (is_publisher_header header) eqn:Eh.
    + rewrite ts_onConnection_publisher in Hf by exact Eh.
      now injection Hf as <- _.
    + rewrite ts_onConnection_subscriber in Hf by exact Eh. cbn zeta in Hf.
      destruct (nonempty _); [destruct (send_throws env c' _); [discriminate|]|];
        now injection Hf as <- _.
  - rewrite ts_fire_pong in Hf.
    destruct (listeners s !! c'); now injection Hf as <- _.
  - rewrite ts_fire_message in Hf.
    assert (clients s1 = clients s) as ->; [|exact Hc].
    destruct (listeners s !! c') as [b|]; [|now injection Hf as <- _].
    destruct b; [destruct (sample_of message) as [o|] eqn:Es|].
    + rewrite (ts_onMessage_sample env c' message o s Es) in Hf.
      injection Hf as <- _.
      destruct (ts_broadcast_spec env o s) as (_ & -> & _). reflexivity.
    + destruct (ts_onMessage_other env c' true message s (or_intror Es))
        as (_ & Hst & _).
      rewrite Hf in Hst. cbn in Hst. now subst.
    + destruct (ts_onMessage_other env c' false message s (or_introl eq_refl))
        as (_ & Hst & _).
      rewrite Hf in Hst. cbn in Hst. now subst.
  - assert (c' <> c) as Hne by congruence.
    rewrite ts_fire_closed in Hf.
    assert (clients s1 = List.filter (fun x => negb (Nat.eqb x c')) (clients s))
      as ->.
    { destruct (listeners s !! c') as [b|]; [|now injection Hf as <- _].
      rewrite ts_onClose_spec in Hf.
      cbn [ts_drop_client publisher subscribers] in Hf.
      destruct b.
      - destruct (publisher s) as [p|]; [destruct (Nat.eqb p c')|];
          now injection Hf as <- _.
      - destruct (indexOf c' (subscribers s)); now injection Hf as <- _. }
    apply filter_negb_eqb_In. split; [exact Hc|congruence].
  - rewrite ts_fire_tick in Hf.
    destruct (ts_sweep_registry env (clients s) s) as ((_ & _ & _ & H4 & _) & _).
    rewrite Hf in H4. cbn in H4. now rewrite H4.
Qed.

Lemma ts_steps_silent s evs s' tr c :
  steps s evs s' tr ->
  Forall (fun ev => ev <> Pong c /\ ev <> Closed c) evs ->
  is_Some (isAlive s !! c) -> alive_flag (isAlive s) c = false ->
  In c (clients s) ->
  alive_flag (isAlive s') c = false /\ In c (clients s').
Proof.
  induction 1 as [|s env ev s1 tr1 evs s2 tr2 En Hf _ IH]; [tauto|].
  intros Hevs Hdom Hflag Hc. inversion Hevs as [|? ? [Hp Hcl] Hrest]; subst.
  destruct (ts_fire_silent env ev s s1 tr1 c Hf En Hdom Hp Hflag) as [H1 H2].
  apply IH; try assumption.
  eapply ts_fire_stays_client; eassumption.
Qed.
End ServerTsFlags.

Section Part002Flags.
Import Part002.

Lemma p2_sweep_clears env l : forall s c,
  In c l \/ alive_flag (isAlive s) c = false ->
  alive_flag (isAlive (state_of (forEach l (probe env) s))) c = false.
Proof.
  induction l as [|x l IH]; intros s c H.
  - destruct H as [[]|H]. exact H.
  - rewrite forEach_cons, p2_probe_spec.
    destruct (alive_flag (isAlive s) x) eqn:Ex; cbn [state_of fst snd].
    + apply IH. cbn [isAlive].
      destruct (Nat.eq_dec x c) as [->|Hne].
      * right. apply alive_flag_insert_eq.
      * rewrite alive_flag_insert_ne by exact Hne.
        destruct H as [[Hx|Hc]|H]; [congruence|now left|now right].
    + apply IH. destruct H as [[<-|Hc]|H]; [now right|now left|now right].
Qed.

(** No handler of the handshake revision raises the flag of a connected
    socket again. *)
Lemma p2_fire_silent env ev s s1 tr1 c :
  fire env ev s = (Val tt, s1, tr1) ->
  enabled s ev ->
  is_Some (isAlive s !! c) ->
  alive_flag (isAlive s) c = false ->
  alive_flag (isAlive s1) c = false /\ is_Some (isAlive s1 !! c).
Proof.
  intros Hf En Hdom Hflag. destruct ev as [c'|c' message|c'|].
  - cbn in En. assert (c' <> c) as Hne by (intros ->; destruct Hdom; congruence).
    rewrite p2_fire_connection, p2_onConnection_spec in Hf.
    injection Hf as _ <- _. cbn [isAlive p2_add_client].
    rewrite alive_flag_insert_ne by exact Hne.
    split; [exact Hflag|]. now rewrite lookup_insert_ne.
  - rewrite p2_fire_message in Hf.
    assert (isAlive s1 = isAlive s) as ->; [|split; assumption].
    destruct (isAlive s !! c') as [b|]; [|now injection Hf as <- _].
    destruct (register_role message) as [role|] eqn:Er.
    + rewrite (p2_onMessage_register env c' message role s Er) in Hf.
      cbn zeta in Hf. injection Hf as <- _.
      destruct (is_str "publisher" role) eqn:Ep.
      * rewrite p2_handleRegistration_publisher by exact Ep. reflexivity.
      * rewrite p2_handleRegistration_subscriber by exact Ep. cbn zeta.
        destruct (send_throws env c' (registered "subscriber"));
          [|destruct (nonempty (latestData s))]; reflexivity.
    + destruct (sample_of message) as [o|] eqn:Es;
        [destruct (publisher_flag s c') eqn:Ef|].
      * rewrite (p2_onMessage_sample env c' message o s Er Es Ef) in Hf.
        cbn zeta in Hf. injection Hf as <- _.
        destruct (p2_broadcast_spec env o
                    (mkServer (subscribers s) (publisher s) o (clients s)
                       (isAlive s) (isPublisher s))) as (_ & -> & _).
        reflexivity.
      * destruct (p2_onMessage_other env c' message s Er (or_introl Ef))
          as (_ & Hst & _).
        rewrite Hf in Hst. cbn in Hst. now subst.
      * destruct (p2_onMessage_other env c' message s Er (or_intror Es))
          as (_ & Hst & _).
        rewrite Hf in Hst. cbn in Hst. now subst.
  - rewrite p2_fire_closed in Hf.
    assert (isAlive s1 = isAlive s) as ->; [|split; assumption].
    destruct (isAlive s !! c') as [b|]; [|now injection Hf as <- _].
    rewrite p2_onClose_spec in Hf.
    destruct (publisher_flag _ c' && is_publisher _ c'); now injection Hf as <- _.
  - rewrite p2_fire_tick in Hf.
    pose proof (p2_sweep_clears env (clients s) s c (or_intror Hflag)) as H1.
    pose proof (p2_sweep_alive_dom env (clients s) s c Hdom) as H2.
    rewrite Hf in H1, H2. split; assumption.
Qed.

Lemma p2_fire_stays_client env ev s s1 tr1 c :
  fire env ev s = (Val tt, s1, tr1) ->
  ev <> Closed c ->
  In c (clients s) -> In c (clients s1).
Proof.
  intros Hf Hev Hc. destruct ev as [c'|c' message|c'|].
  - rewrite p2_fire_connection, p2_onConnection_spec in Hf.
    injection Hf as _ <- _. cbn. apply in_app_iff. now left.
  - rewrite p2_fire_message in Hf.
    assert (clients s1 = clients s) as ->; [|exact Hc].
    destruct (isAlive s !! c') as [b|]; [|now injection Hf as <- _].
    destruct (register_role message) as [role|] eqn:Er.
    + rewrite (p2_onMessage_register env c' message role s Er) in Hf.
      cbn zeta in Hf. injection Hf as <- _.
      destruct (is_str "publisher" role) eqn:Ep.
      * rewrite p2_handleRegistration_publisher by exact Ep. reflexivity.
      * rewrite p2_handleRegistration_subscriber by exact Ep. cbn zeta.
        destruct (send_throws env c' (registered "subscriber"));
          [|destruct (nonempty (latestData s))]; reflexivity.
    + destruct (sample_of message) as [o|] eqn:Es;
        [destruct (publisher_flag s c') eqn:Ef|].
      * rewrite (p2_onMessage_sample env c' message o s Er Es Ef) in Hf.
        cbn zeta in Hf. injection Hf as <- _.
        destruct (p2_broadcast_spec env o
                    (mkServer (subscribers s) (publisher s) o (clients s)
                       (isAlive s) (isPublisher s))) as (_ & -> & _).
        reflexivity.
      * destruct (p2_onMessage_other env c' message s Er (or_introl Ef))
          as (_ & Hst & _).
        rewrite Hf in Hst. cbn in Hst. now subst.
      * destruct (p2_onMessage_other env c' message s Er (or_intror Es))
          as (_ & Hst & _).
        rewrite Hf in Hst. cbn in Hst. now subst.
  - assert (c' <> c) as Hne by congruence.
    rewrite p2_fire_closed in Hf.
    assert (clients s1 = List.filter (fun x => negb (Nat.eqb x c')) (clients s))
      as ->.
    { destruct (isAlive s !! c') as [b|]; [|now injection Hf as <- _].
      rewrite p2_onClose_spec in Hf.
      destruct (publisher_flag _ c' && is_publisher _ c');
        now injection Hf as <- _. }
    apply filter_negb_eqb_In. split; [exact Hc|congruence].
  - rewrite p2_fire_tick in Hf.
    destruct (p2_sweep_registry env (clients s) s) as ((_ & _ & _ & H4 & _) & _).
    rewrite Hf in H4. cbn in H4. now rewrite H4.
Qed.

Lemma p2_steps_silent s evs s' tr c :
  steps s evs s' tr ->
  Forall (fun ev => ev <> Closed c) evs ->
  is_Some (isAlive s !! c) -> alive_flag (isAlive s) c = false ->
  In c (clients s) ->
  alive_flag (isAlive s') c = false /\ In c (clients s').
Proof.
  induction 1 as [|s env ev s1 tr1 evs s2 tr2 En Hf _ IH]; [tauto|].
  intros Hevs Hdom Hflag Hc. inversion Hevs as [|? ? Hcl Hrest]; subst.
  destruct (p2_fire_silent env ev s s1 tr1 c Hf En Hdom Hflag) as [H1 H2].
  apply IH; try assumption.
  eapply p2_fire_stays_client; eassumption.
Qed.
End Part002Flags.

(** A sweep leaves the flags down: a client that sends no pong and is not
    closed until the next sweep is terminated by that sweep. *)
Lemma ts_two_sweeps (s : ServerTs.server) env (c : conn) evs s1 tr env2 :
  ServerTs.reachable s -> In c (ServerTs.clients s) ->
  ServerTs.steps (state_of (ServerTs.fire env ServerTs.Tick s)) evs s1 tr ->
  Forall (fun ev => ev <> ServerTs.Pong c /\ ev <> ServerTs.Closed c) evs ->
  In (Terminate c) (trace_of (ServerTs.fire env2 ServerTs.Tick s1)).
Proof.
  intros Hreach Hc Hsteps Hevs.
  pose proof (ts_wf_reachable s Hreach) as W.
  rewrite ts_fire_tick in Hsteps.
  destruct (ts_sweep_registry env (ServerTs.clients s) s) as (Hreg & Hres).
  pose proof (triple_eta (forEach (ServerTs.clients s) (ServerTs.probe env) s))
    as Hf.
  rewrite Hres, <- ts_fire_tick in Hf.
  pose proof (ts_wf_fire env ServerTs.Tick s _ _ W I Hf) as Wr.
  rewrite ts_fire_tick in Wr.
  pose proof (ts_wf_steps _ _ _ _ Hsteps Wr) as W1.
  destruct (ts_wf_clients s W c Hc) as [b Hb].
  assert (is_Some (ServerTs.isAlive s !! c)) as Hdom.
  { apply (ts_wf_type s W). rewrite (ts_wf_lis s W c b Hb). eauto. }
  destruct (ts_steps_silent _ _ _ _ c Hsteps Hevs) as [Hdown Hc1].
  - now apply ts_sweep_alive_dom.
  - apply ts_sweep_clears. now left.
  - destruct Hreg as (_ & _ & _ & H4 & _). now rewrite H4.
  - rewrite ts_fire_tick.
    apply (ts_sweep_terminates env2 (ServerTs.clients s1)
             (ts_wf_clients_nodup s1 W1)). tauto.
Qed.

Lemma p2_two_sweeps (s : Part002.server) env (c : conn) evs s1 tr env2 :
  Part002.reachable s -> In c (Part002.clients s) ->
  Part002.steps (state_of (Part002.fire env Part002.Tick s)) evs s1 tr ->
  Forall (fun ev => ev <> Part002.Closed c) evs ->
  In (Terminate c) (trace_of (Part002.fire env2 Part002.Tick s1)).
Proof.
  intros Hreach Hc Hsteps Hevs.
  pose proof (p2_wf_reachable s Hreach) as W.
  rewrite p2_fire_tick in Hsteps.
  destruct (p2_sweep_registry env (Part002.clients s) s) as (Hreg & Hres).
  pose proof (triple_eta (forEach (Part002.clients s) (Part002.probe env) s))
    as Hf.
  rewrite Hres, <- p2_fire_tick in Hf.
  pose proof (p2_wf_fire env Part002.Tick s _ _ W I Hf) as Wr.
  rewrite p2_fire_tick in Wr.
  pose proof (p2_wf_steps _ _ _ _ Hsteps Wr) as W1.
  destruct (p2_steps_silent _ _ _ _ c Hsteps Hevs) as [Hdown Hc1].
  - apply p2_sweep_alive_dom. now apply (p2_wf_clients s W).
  - apply p2_sweep_clears. now left.
  - destruct Hreg as (_ & _ & _ & H4 & _). now rewrite H4.
  - rewrite p2_fire_tick.
    apply (p2_sweep_terminates env2 (Part002.clients s1)
             (p2_wf_clients_nodup s1 W1)). tauto.
Qed.

(** X4. The handshake revision has no handler that raises the liveness flag
    again: whatever frames a client sends after a sweep, [pong] included, the
    next sweep terminates it unless it was closed before. *)
Theorem p2_answering_client_times_out (s : Part002.server) env (c : conn)
    (frames : list inbound) s1 tr env2 :
  Part002.reachable s -> In c (Part002.clients s) ->
  Part002.steps (state_of (Part002.fire env Part002.Tick s))
    (map (Part002.Message c) frames) s1 tr ->
  In (Terminate c) (trace_of (Part002.fire env2 Part002.Tick s1)).
Proof.
  intros Hreach Hc Hsteps.
  apply (p2_two_sweeps s env c _ s1 tr env2 Hreach Hc Hsteps).
  apply List.Forall_forall. intros ev [frame [<- _]]%List.in_map_iff. discriminate.
Qed.

(** At a sweep, a client whose liveness flag is still down is terminated,
    and the close event that follows removes it from the registry: from the
    producer slot or from the subscribers, whichever held it (in the
    handshake revision, for a socket that is not in both). A sweep leaves the
    flags down, so a client that sends no pong (and is not closed) until the
    next sweep is terminated by that sweep. A client whose flag is up and
    whose probe is sent is not terminated, and the sweep never touches the
    registry itself. In [src/server.ts] a pong raises the flag, so a client
    that answered since the last sweep is not terminated by the next one; in
    the handshake revision a flag is up only until the first probe. *)
Lemma sweep_terminates_flagged_clients :
  (forall (s : ServerTs.server) env (c : conn),
     ServerTs.reachable s -> In c (ServerTs.clients s) ->
     let r := ServerTs.fire env ServerTs.Tick s in
     result_of r = Val tt /\
     ts_same_registry s (state_of r) /\
     (alive_flag (ServerTs.isAlive s) c = false ->
        In (Terminate c) (trace_of r) /\
        forall env',
          let s' := state_of (ServerTs.fire env' (ServerTs.Closed c) (state_of r)) in
          ServerTs.publisher s' <> Some c /\
          ~ In c (ServerTs.subscribers s') /\
          ~ In c (ServerTs.clients s')) /\
     (forall evs s1 tr env2,
        ServerTs.steps (state_of r) evs s1 tr ->
        Forall (fun ev => ev <> ServerTs.Pong c /\ ev <> ServerTs.Closed c) evs ->
        In (Terminate c) (trace_of (ServerTs.fire env2 ServerTs.Tick s1))) /\
     (alive_flag (ServerTs.isAlive s) c = true -> ping_throws env c = false ->
        ~ In (Terminate c) (trace_of r)) /\
     (forall env0,
        let answered := state_of (ServerTs.fire env0 (ServerTs.Pong c) s) in
        alive_flag (ServerTs.isAlive answered) c = true /\
        (ping_throws env c = false ->
         ~ In (Terminate c) (trace_of (ServerTs.fire env ServerTs.Tick answered))))) /\
  (forall (s : Part002.server) env (c : conn),
     Part002.reachable s -> In c (Part002.clients s) ->
     let r := Part002.fire env Part002.Tick s in
     result_of r = Val tt /\
     p2_same_registry s (state_of r) /\
     (alive_flag (Part002.isAlive s) c = false ->
        In (Terminate c) (trace_of r) /\
        forall env',
          let s' := state_of (Part002.fire env' (Part002.Closed c) (state_of r)) in
          Part002.publisher s' <> Some c /\
          ~ In c (Part002.clients s') /\
          (~ (Part002.publisher s = Some c /\ In c (Part002.subscribers s)) ->
           ~ In c (Part002.subscribers s'))) /\
     (forall evs s1 tr env2,
        Part002.steps (state_of r) evs s1 tr ->
        Forall (fun ev => ev <> Part002.Closed c) evs ->
        In (Terminate c) (trace_of (Part002.fire env2 Part002.Tick s1))) /\
     (alive_flag (Part002.isAlive s) c = true ->
      send_throws env c (FText "ping") = false ->
        ~ In (Terminate c) (trace_of r))).
Proof.
  split.
  - intros s env c Hreach Hc. cbn zeta.
    pose proof (ts_wf_reachable s Hreach) as W.
    rewrite ts_fire_tick.
    destruct (ts_sweep_registry env (ServerTs.clients s) s) as (Hreg & Hres).
    pose proof (ts_sweep_terminates env (ServerTs.clients s)
                  (ts_wf_clients_nodup s W) s c) as Hterm.
    split; [exact Hres|]. split; [exact Hreg|]. split; [|split; [|split]].
    2:{ intros evs s1 tr env2 Hsteps Hevs.
        rewrite <- ts_fire_tick in Hsteps.
        exact (ts_two_sweeps s env c evs s1 tr env2 Hreach Hc Hsteps Hevs). }
    + intros Hflag. split; [apply Hterm; tauto|].
      intros env'. cbn zeta. rewrite ts_fire_closed.
      destruct Hreg as (H1 & H2 & H3 & H4 & H5 & H6).
      set (sr := state_of (forEach (ServerTs.clients s) (ServerTs.probe env) s)) in *.
      rewrite H6.
      destruct (ts_wf_clients s W c Hc) as [b Hb]. rewrite Hb.
      pose proof (ts_wf_lis s W c b Hb) as Hty.
      rewrite ts_onClose_spec.
      unfold ts_drop_client, ts_with_subscribers.
      cbn [ServerTs.publisher ServerTs.subscribers ServerTs.clients
             ServerTs.latestData ServerTs.isAlive ServerTs.type
             ServerTs.listeners].
      rewrite H1, H2, H4.
      assert (~ In c (List.filter (fun x => negb (Nat.eqb x c)) (ServerTs.clients s)))
        as Hcl.
      { rewrite filter_negb_eqb_In. tauto. }
      destruct b.
      * assert (~ In c (ServerTs.subscribers s)) as Hns.
        { intros Hin. apply (ts_wf_sub s W) in Hin. congruence. }
        destruct (ServerTs.publisher s) as [p|] eqn:Ep.
        -- destruct (Nat.eqb_spec p c) as [->|Hne]; cbn;
             rewrite ?H1, ?H2, ?H4; repeat split; try assumption; congruence.
        -- cbn. rewrite ?H1, ?H2, ?H4. repeat split; try assumption; congruence.
      * assert (ServerTs.publisher s <> Some c) as Hnp.
        { intros Hp. apply (ts_wf_pub s W) in Hp. congruence. }
        pose proof (indexOf_split c (ServerTs.subscribers s)) as Hi.
        destruct (indexOf c (ServerTs.subscribers s)) as [i|].
        -- destruct Hi as (pre & rest & Hs & Hpre & ->).
           pose proof (ts_wf_nodup s W) as Hnd. rewrite Hs in Hnd |- *.
           rewrite splice1_app. apply NoDup_app_remove in Hnd.
           cbn. rewrite ?H2. repeat split; try assumption; tauto.
        -- cbn. rewrite ?H1, ?H2, ?H4. repeat split; assumption.
    + intros Hflag Hping Hin. apply Hterm in Hin.
      destruct Hin as [_ [H|H]]; congruence.
    + intros env0. cbn zeta. rewrite ts_fire_pong.
      destruct (ts_wf_clients s W c Hc) as [b Hb]. rewrite Hb.
      cbn [state_of fst snd ServerTs.isAlive].
      split; [apply alive_flag_insert_eq|].
      intros Hping. rewrite ts_fire_tick.
      cbn [ServerTs.clients]. intros Hin.
      apply (ts_sweep_terminates env (ServerTs.clients s)
               (ts_wf_clients_nodup s W)) in Hin.
      cbn [ServerTs.isAlive] in Hin. rewrite alive_flag_insert_eq in Hin.
      destruct Hin as [_ [H|H]]; congruence.
  - intros s env c Hreach Hc. cbn zeta.
    pose proof (p2_wf_reachable s Hreach) as W.
    rewrite p2_fire_tick.
    destruct (p2_sweep_registry env (Part002.clients s) s) as (Hreg & Hres).
    pose proof (p2_sweep_terminates env (Part002.clients s)
                  (p2_wf_clients_nodup s W) s c) as Hterm.
    pose proof (p2_sweep_alive_dom env (Part002.clients s) s c
                  (p2_wf_clients s W c Hc)) as Hdom.
    split; [exact Hres|]. split; [exact Hreg|]. split; [|split].
    2:{ intros evs s1 tr env2 Hsteps Hevs.
        rewrite <- p2_fire_tick in Hsteps.
        exact (p2_two_sweeps s env c evs s1 tr env2 Hreach Hc Hsteps Hevs). }
    + intros Hflag. split; [apply Hterm; tauto|].
      intros env'. cbn zeta. rewrite p2_fire_closed.
      destruct Hreg as (H1 & H2 & H3 & H4 & H5).
      set (sr := state_of (forEach (Part002.clients s) (Part002.probe env) s)) in *.
      destruct Hdom as [b ->].
      rewrite p2_onClose_spec.
      assert (~ In c (List.filter (fun x => negb (Nat.eqb x c)) (Part002.clients s)))
        as Hcl.
      { rewrite filter_negb_eqb_In. tauto. }
      assert (Part002.publisher_flag (p2_drop_client c sr) c
              = Part002.publisher_flag s c) as ->.
      { unfold Part002.publisher_flag. cbn. now rewrite H5. }
      assert (Part002.is_publisher (p2_drop_client c sr) c
              = Part002.is_publisher s c) as ->.
      { unfold Part002.is_publisher. cbn. now rewrite H2. }
      destruct (Part002.publisher_flag s c && Part002.is_publisher s c) eqn:E.
      * apply andb_true_iff in E. destruct E as [_ E].
        unfold Part002.is_publisher in E.
        destruct (Part002.publisher s) as [p|] eqn:Ep; [|discriminate].
        apply Nat.eqb_eq in E. subst p.
        cbn. rewrite H1, H4. repeat split; try assumption; try congruence.
        intros Hnot Hin. apply Hnot. now split.
      * cbn. rewrite H1, H2, H4. repeat split; try assumption.
        -- intros Hp. rewrite (p2_wf_flag s W c Hp) in E.
           unfold Part002.is_publisher in E. rewrite Hp, Nat.eqb_refl in E.
           discriminate.
        -- intros _. rewrite filter_negb_eqb_In. tauto.
    + intros Hflag Hping Hin. apply Hterm in Hin.
      destruct Hin as [_ [H|H]]; congruence.
Qed.

(** No frame of a client changes the liveness flags of the handshake
    revision, whatever the frame is. *)
Lemma p2_message_keeps_flags env (c : conn) (message : inbound) (s : Part002.server) :
  Part002.isAlive (state_of (Part002.fire env (Part002.Message c message) s)) =
    Part002.isAlive s.
Proof.
  rewrite p2_fire_message.
  destruct (Part002.isAlive s !! c) as [b|]; [|reflexivity].
  destruct (register_role message) as [role|] eqn:Er.
  - rewrite (p2_onMessage_register env c message role s Er). cbn zeta.
    cbn [state_of fst snd].
    destruct (is_str "publisher" role) eqn:Ep.
    + rewrite p2_handleRegistration_publisher by exact Ep. reflexivity.
    + rewrite p2_handleRegistration_subscriber by exact Ep. cbn zeta.
      destruct (send_throws env c (Part002.registered "subscriber"));
        [|destruct (nonempty (Part002.latestData s))]; reflexivity.
  - destruct (sample_of message) as [o|] eqn:Es;
      [destruct (Part002.publisher_flag s c) eqn:Ef|].
    + rewrite (p2_onMessage_sample env c message o s Er Es Ef). cbn zeta.
      destruct (p2_broadcast_spec env o
                  (Part002.mkServer (Part002.subscribers s) (Part002.publisher s) o
                     (Part002.clients s) (Part002.isAlive s) (Part002.isPublisher s)))
        as (_ & Hst & _).
      cbn zeta in Hst. unfold state_of in *. cbn [fst snd]. rewrite Hst.
      reflexivity.
    + destruct (p2_onMessage_other env c message s Er (or_introl Ef))
        as (_ & -> & _). reflexivity.
    + destruct (p2_onMessage_other env c message s Er (or_intror Es))
        as (_ & -> & _). reflexivity.
Qed.

(** C3, at the failing input. Consumer 1 is registered; a sweep probes it
    (sends it the text [ping] and lowers its flag); the client answers with
    the text [pong]; the next sweep runs. The handshake revision has no
    handler that raises the flag again (no frame of a client changes a flag,
    whatever the frame is), so the flag is still down and the second sweep
    terminates the client that answered. In [src/server.ts], on the same
    input, the pong raises the flag and the second sweep pings the client
    again. And a socket of the handshake revision that is both the producer
    and a subscriber is, once terminated and closed, still in the subscriber
    array. *)
Theorem C3_part002_answering_client_is_terminated :
  let sweep := Part002.fire quiet Part002.Tick p2_one_consumer in
  let answer := Part002.fire quiet (Part002.Message 1 (Unparseable "pong"))
                  (state_of sweep) in
  let sweep2 := Part002.fire quiet Part002.Tick (state_of answer) in
  let sweep' := ServerTs.fire quiet ServerTs.Tick ts_one_consumer in
  let answer' := ServerTs.fire quiet (ServerTs.Pong 1) (state_of sweep') in
  let sweep2' := ServerTs.fire quiet ServerTs.Tick (state_of answer') in
  let both := Part002.fire quiet Part002.Tick
                (state_of (Part002.fire quiet Part002.Tick p2_both_roles)) in
  Part002.subscribers p2_one_consumer = [1] /\
  alive_flag (Part002.isAlive p2_one_consumer) 1 = true /\
  trace_of sweep = [Send 1 (FText "ping")] /\
  alive_flag (Part002.isAlive (state_of sweep)) 1 = false /\
  result_of answer = Val tt /\
  alive_flag (Part002.isAlive (state_of answer)) 1 = false /\
  trace_of sweep2 = [Log WARN "Terminating inactive connection"; Terminate 1] /\
  (forall env c message s,
     Part002.isAlive (state_of (Part002.fire env (Part002.Message c message) s)) =
       Part002.isAlive s) /\
  ServerTs.subscribers ts_one_consumer = [1] /\
  trace_of sweep' = [Ping 1] /\
  alive_flag (ServerTs.isAlive (state_of sweep')) 1 = false /\
  alive_flag (ServerTs.isAlive (state_of answer')) 1 = true /\
  trace_of sweep2' = [Ping 1] /\
  Part002.publisher p2_both_roles = Some 1 /\
  Part002.subscribers p2_both_roles = [1] /\
  trace_of both = [Log WARN "Terminating inactive connection"; Terminate 1] /\
  Part002.subscribers
    (state_of (Part002.fire quiet (Part002.Closed 1) (state_of both))) = [1].
Proof.
  cbn zeta.
  repeat (split; [vm_compute; reflexivity|]).
  split; [exact p2_message_keeps_flags|].
  repeat (split; [vm_compute; reflexivity|]). vm_compute. reflexivity.
Qed.

(** * Further properties of the handlers *)

(** ** Which handlers can throw *)

Lemma ts_onMessage_returns env c b message s :
  result_of (ServerTs.onMessage env c b message s) = Val tt.
Proof.
  destruct b.
  - destruct (sample_of message) as [o|] eqn:E.
    + rewrite (ts_onMessage_sample env c message o s E).
      unfold result_of. cbn [fst].
      reflexivity.
    + apply (ts_onMessage_other env c true message s). now right.
  - apply (ts_onMessage_other env c false message s). now left.
Qed.

Lemma p2_onMessage_returns env c message s :
  result_of (Part002.onMessage env c message s) = Val tt.
Proof.
  destruct (register_role message) as [role|] eqn:Er.
  - rewrite (p2_onMessage_register env c message role s Er). reflexivity.
  - destruct (Part002.publisher_flag s c) eqn:Ef.
    + destruct (sample_of message) as [o|] eqn:E.
      * rewrite (p2_onMessage_sample env c message o s Er E Ef). reflexivity.
      * apply (p2_onMessage_other env c message s Er). now right.
    + apply (p2_onMessage_other env c message s Er). now left.
Qed.

Lemma ts_fire_throws_iff env (ev : ServerTs.event)
    (s : ServerTs.server) :
  result_of (ServerTs.fire env ev s) = Throw <->
  exists c header,
    ev = ServerTs.Connection c header /\
    is_publisher_header header = false /\
    nonempty (ServerTs.latestData s) = true /\
    send_throws env c (FJson (JObj (ServerTs.latestData s))) = true.
Proof.
  destruct ev as [c header|c|c message|c|].
  - rewrite ts_fire_connection.
    destruct (is_publisher_header header) eqn:Eh.
    + rewrite (ts_onConnection_publisher env c header _ Eh).
      split; [discriminate|]. intros (c' & h' & [= -> ->] & Hh & _). congruence.
    + rewrite (ts_onConnection_subscriber env c header _ Eh).
      cbn [ts_add_client ServerTs.latestData].
      destruct (nonempty (ServerTs.latestData s)) eqn:En.
      * destruct (send_throws env c _) eqn:Es.
        -- split; [|reflexivity]. intros _. exists c, header. auto.
        -- split; [discriminate|]. intros (c' & h' & [= <- <-] & _ & _ & Hs).
           congruence.
      * split; [discriminate|]. intros (c' & h' & _ & _ & Hn & _). discriminate.
  - rewrite ts_fire_pong. split.
    + destruct (ServerTs.listeners s !! c); discriminate.
    + intros (c' & h' & [=] & _).
  - rewrite ts_fire_message. split.
    + destruct (ServerTs.listeners s !! c) as [b|]; [|discriminate].
      rewrite ts_onMessage_returns. discriminate.
    + intros (c' & h' & [=] & _).
  - rewrite ts_fire_closed. split.
    + destruct (ServerTs.listeners s !! c) as [b|]; [|discriminate].
      rewrite ts_onClose_spec.
      destruct b.
      * cbn [ts_drop_client ServerTs.publisher].
        destruct (ServerTs.publisher s) as [p|]; [|discriminate].
        destruct (Nat.eqb p c); discriminate.
      * destruct (indexOf c _); discriminate.
    + intros (c' & h' & [=] & _).
  - rewrite ts_fire_tick. split.
    + rewrite (proj2 (ts_sweep_registry env (ServerTs.clients s) s)). discriminate.
    + intros (c' & h' & [=] & _).
Qed.

Lemma p2_fire_throws_iff env (ev : Part002.event)
    (s : Part002.server) :
  result_of (Part002.fire env ev s) = Throw <->
  exists c, ev = Part002.Connection c /\ send_throws env c (FText "connected") = true.
Proof.
  destruct ev as [c|c message|c|].
  - rewrite p2_fire_connection, p2_onConnection_spec.
    destruct (send_throws env c (FText "connected")) eqn:Es.
    + split; [|reflexivity]. intros _. exists c. auto.
    + split; [discriminate|]. intros (c' & [= <-] & Hs). congruence.
  - rewrite p2_fire_message. split.
    + destruct (Part002.isAlive s !! c) as [b|]; [|discriminate].
      rewrite p2_onMessage_returns. discriminate.
    + intros (c' & [=] & _).
  - rewrite p2_fire_closed. split.
    + destruct (Part002.isAlive s !! c) as [b|]; [|discriminate].
      rewrite p2_onClose_spec.
      destruct (_ && _); discriminate.
    + intros (c' & [=] & _).
  - rewrite p2_fire_tick. split.
    + rewrite (proj2 (p2_sweep_registry env (Part002.clients s) s)). discriminate.
    + intros (c' & [=] & _).
Qed.

(** ** The logging revision against [src/server.ts] *)

Section Effects.
Context {S : Type}.

Lemma erase_logs_app (t1 t2 : list action) :
  erase_logs (t1 ++ t2) = erase_logs t1 ++ erase_logs t2.
Proof. apply List.filter_app. Qed.

Lemma same_effects_refl {A} (x : result A * S * list action) : same_effects x x.
Proof. repeat split. Qed.

Lemma same_effects_bind {A B} (m0 m1 : M S A) (k0 k1 : A -> M S B) s :
  same_effects (m0 s) (m1 s) ->
  (forall a s', same_effects (k0 a s') (k1 a s')) ->
  same_effects (bind m0 k0 s) (bind m1 k1 s).
Proof.
  unfold same_effects, bind, result_of, state_of, trace_of.
  destruct (m0 s) as [[r0 s0] t0], (m1 s) as [[r1 s1] t1]. cbn [fst snd].
  intros (<- & <- & Ht) Hk.
  destruct r0 as [a|]; [|cbn; auto].
  specialize (Hk a s0).
  destruct (k0 a s0) as [[r2 s2] t2], (k1 a s0) as [[r3 s3] t3]. cbn [fst snd] in *.
  destruct Hk as (-> & -> & Ht'). rewrite !erase_logs_app, Ht, Ht'. auto.
Qed.

Lemma same_effects_try {A} (m0 m1 h0 h1 : M S A) s :
  same_effects (m0 s) (m1 s) ->
  (forall s', same_effects (h0 s') (h1 s')) ->
  same_effects (try_catch m0 h0 s) (try_catch m1 h1 s).
Proof.
  unfold same_effects, try_catch, result_of, state_of, trace_of.
  destruct (m0 s) as [[r0 s0] t0], (m1 s) as [[r1 s1] t1]. cbn [fst snd].
  intros (<- & <- & Ht) Hk.
  destruct r0 as [a|]; [cbn; auto|].
  specialize (Hk s0).
  destruct (h0 s0) as [[r2 s2] t2], (h1 s0) as [[r3 s3] t3]. cbn [fst snd] in *.
  destruct Hk as (-> & -> & Ht'). rewrite !erase_logs_app, Ht, Ht'. auto.
Qed.

Lemma same_effects_log_l {A} (l : level) (msg : string) (m0 m1 : M S A) s :
  same_effects (m0 s) (m1 s) -> same_effects ((log l msg ;; m0) s) (m1 s).
Proof.
  unfold same_effects, bind, log, emit, result_of, state_of, trace_of.
  destruct (m0 s) as [[r0 s0] t0], (m1 s) as [[r1 s1] t1]. cbn [fst snd].
  intros (<- & <- & Ht). cbn. auto.
Qed.

Lemma same_effects_log_r (l : level) (msg : string) (m0 m1 : M S unit) s :
  same_effects (m0 s) (m1 s) -> same_effects ((m0 ;; log l msg) s) (m1 s).
Proof.
  unfold same_effects, bind, log, emit, result_of, state_of, trace_of.
  destruct (m0 s) as [[r0 s0] t0], (m1 s) as [[r1 s1] t1]. cbn [fst snd].
  intros (<- & <- & Ht). destruct r0 as [[]|]; cbn; [|auto].
  rewrite erase_logs_app, Ht. cbn. rewrite app_nil_r. auto.
Qed.

Lemma same_effects_logs (l l' : level) (msg msg' : string) (s : S) :
  same_effects (log l msg s) (log l' msg' s).
Proof. repeat split. Qed.

Lemma same_effects_log_ret (l : level) (msg : string) (s : S) :
  same_effects (log l msg s) (ret tt s).
Proof. repeat split. Qed.

Lemma same_effects_forEach {A} (b0 b1 : A -> M S unit) (l : list A) :
  (forall x s, same_effects (b0 x s) (b1 x s)) ->
  forall s, same_effects (forEach l b0 s) (forEach l b1 s).
Proof.
  intros Hb. induction l as [|x l IH]; intros s; cbn [forEach].
  - apply same_effects_refl.
  - apply same_effects_bind; [apply Hb|]. intros _ s'. apply IH.
Qed.
End Effects.

Section Part000Simulation.
Import ServerTs.
Variable env : transport.

Lemma p0_deliver_effects f x s :
  same_effects (Part000.deliver env f x s) (deliver env f x s).
Proof.
  unfold Part000.deliver, deliver.
  apply same_effects_try; [apply same_effects_refl|]. intros s'.
  apply same_effects_bind; [apply same_effects_logs|]. intros _ s2.
  apply same_effects_bind; [apply same_effects_refl|]. intros s3 s4.
  destruct (indexOf x (subscribers s3)); [|apply same_effects_refl].
  apply same_effects_log_r, same_effects_refl.
Qed.

Lemma p0_broadcast_effects data s :
  same_effects (Part000.broadcastToSubscribers env data s)
    (broadcastToSubscribers env data s).
Proof.
  unfold Part000.broadcastToSubscribers, broadcastToSubscribers.
  apply same_effects_bind; [apply same_effects_refl|]. intros _ s1.
  apply same_effects_bind; [apply same_effects_refl|]. intros s2 s3.
  destruct (Nat.eqb _ _); [apply same_effects_logs|].
  apply same_effects_bind; [apply same_effects_logs|]. intros _ s4. cbn zeta.
  apply same_effects_log_r, same_effects_forEach. intros x s5.
  apply p0_deliver_effects.
Qed.

Lemma p0_probe_effects ws s :
  same_effects (Part000.probe env ws s) (probe env ws s).
Proof.
  unfold Part000.probe, probe.
  apply same_effects_bind; [apply same_effects_refl|]. intros s1 s2.
  destruct (negb _).
  - apply same_effects_log_l, same_effects_refl.
  - apply same_effects_bind; [apply same_effects_refl|]. intros _ s3.
    apply same_effects_try.
    + apply same_effects_log_l, same_effects_refl.
    + intros s4. apply same_effects_log_l, same_effects_refl.
Qed.

Lemma p0_pingInterval_effects s :
  same_effects (Part000.pingInterval env s) (pingInterval env s).
Proof.
  unfold Part000.pingInterval, pingInterval.
  apply same_effects_log_l.
  apply same_effects_bind; [apply same_effects_refl|]. intros s1 s2.
  assert (H : same_effects (forEach (clients s1) (Part000.probe env) s2)
                (forEach (clients s1) (probe env) s2)).
  { apply same_effects_forEach. intros x s3. apply p0_probe_effects. }
  revert H. unfold same_effects, bind, get, log, emit, ret, result_of, state_of, trace_of.
  destruct (forEach _ (Part000.probe env) s2) as [[r0 s0] t0],
           (forEach _ (probe env) s2) as [[r1 s1'] t1]. cbn [fst snd].
  intros (<- & <- & Ht). destruct r0 as [[]|]; cbn; [|auto].
  destruct (publisher s0); cbn; rewrite ?erase_logs_app, ?app_nil_r, Ht; cbn;
    rewrite ?app_nil_r; auto.
Qed.

Lemma p0_onClose_effects c b s :
  same_effects (Part000.onClose c b s) (onClose c b s).
Proof.
  unfold Part000.onClose, onClose.
  apply same_effects_log_l.
  apply same_effects_bind; [apply same_effects_refl|]. intros s1 s2.
  destruct b.
  - destruct (publisher s1) as [p|]; [|apply same_effects_refl].
    destruct (Nat.eqb p c); [|apply same_effects_refl].
    apply same_effects_bind; [apply same_effects_refl|]. intros _ s3.
    apply same_effects_logs.
  - destruct (indexOf c (subscribers s1)); [|apply same_effects_refl].
    apply same_effects_bind; [apply same_effects_refl|]. intros _ s3.
    apply same_effects_logs.
Qed.

Lemma p0_onPong_effects c s :
  same_effects (Part000.onPong c s) (onPong c s).
Proof. unfold Part000.onPong, onPong. apply same_effects_log_l, same_effects_refl. Qed.

Lemma p0_onMessage_effects c b message s :
  same_effects (Part000.onMessage env c b message s) (onMessage env c b message s).
Proof.
  unfold Part000.onMessage, onMessage.
  apply same_effects_try; [|intros s'; apply same_effects_logs].
  apply same_effects_log_l.
  apply same_effects_bind; [apply same_effects_refl|]. intros data s1.
  apply same_effects_bind; [apply same_effects_logs|]. intros _ s2.
  apply same_effects_bind; [apply same_effects_refl|]. intros hasC s3.
  destruct hasC.
  - apply same_effects_log_l, p0_broadcast_effects.
  - destruct b; cbn [negb].
    + unfold same_effects; unfold_monad; cbn. auto.
    + unfold same_effects; unfold_monad; unfold js_get; unfold_monad.
      destruct data; cbn; auto.
      destruct (is_str "control" _); cbn; auto.
Qed.

Lemma p0_onConnection_publisher_effects c header s :
  is_publisher_header header = true ->
  same_effects (Part000.onConnection env c header s) (onConnection env c header s).
Proof.
  unfold is_publisher_header. intros Hh.
  unfold Part000.onConnection, onConnection.
  apply same_effects_bind; [apply same_effects_refl|]. intros _ s1.
  cbn zeta. rewrite Hh.
  apply same_effects_bind; [apply same_effects_refl|]. intros _ s2.
  apply same_effects_log_l.
  apply same_effects_bind; [|intros _ s3; apply same_effects_refl].
  apply same_effects_bind; [apply same_effects_refl|]. intros s3 s4.
  apply same_effects_bind.
  - destruct (publisher s3); [|apply same_effects_refl].
    apply same_effects_log_l, same_effects_try; [apply same_effects_refl|].
    intros s5. apply same_effects_logs.
  - intros _ s5. apply same_effects_bind; [apply same_effects_refl|]. intros _ s6.
    apply same_effects_logs.
Qed.

(** A subscriber connects to the logging revision. *)
Lemma p0_onConnection_subscriber c header s :
  is_publisher_header header = false ->
  let latest := FJson (JObj (latestData s)) in
  Part000.onConnection env c header s =
    (Val tt,
     mkServer (subscribers s ++ [c]) (publisher s) (latestData s)
       (clients s) (<[c := true]> (isAlive s))
       (<[c := SUBSCRIBER]> (type s)) (<[c := false]> (listeners s)),
     [Log INFO "New connection from"; SetSubscribers (subscribers s ++ [c]);
      Log INFO "Subscriber connected - Total"] ++
     if nonempty (latestData s) then
       Log DEBUG "Sending latest data to new subscriber" :: Send c latest ::
       (if send_throws env c latest
        then [Log ERROR "Failed to send initial data to subscriber"] else [])
     else []).
Proof.
  unfold is_publisher_header. intros Hh. cbn zeta.
  unfold Part000.onConnection. rewrite Hh.
  unfold set_isAlive, set_type, set_subscribers, attach. unfold_monad. cbn.
  destruct (nonempty (latestData s)); cbn; [|reflexivity].
  destruct (send_throws env c _); reflexivity.
Qed.

Lemma p0_fire_connection c header s :
  Part000.fire env (Connection c header) s =
    Part000.onConnection env c header (ts_add_client c s).
Proof.
  cbn [Part000.fire]. unfold bind at 1 2, get, set_clients, modify. cbn [app].
  fold (ts_add_client c s).
  destruct (Part000.onConnection env c header (ts_add_client c s))
    as [[[[]|] s1] t1]; reflexivity.
Qed.

(** The logging revision performs, on every event, the actions of
    [src/server.ts] between its log lines, and its handlers return. *)
Lemma p0_fire_simulates ev s :
  let r := fire env ev s in
  let r' := Part000.fire env ev s in
  result_of r' = Val tt /\
  erase_logs (trace_of r') = erase_logs (trace_of r) /\
  state_of r' =
    match ev, result_of r with
    | Connection c _, Throw => state_of (attach c false (state_of r))
    | _, _ => state_of r
    end.
Proof.
  cbn zeta.
  assert (Hs : forall r r' : result unit * server * list action,
             same_effects r' r -> result_of r = Val tt ->
             forall ev', result_of r' = Val tt /\
             erase_logs (trace_of r') = erase_logs (trace_of r) /\
             state_of r' = match ev', result_of r with
                           | Connection c _, Throw => state_of (attach c false (state_of r))
                           | _, _ => state_of r
                           end).
  { intros r r' (Hr & Hst & Ht) Hv ev'. rewrite Hr, Hst, Ht, Hv. destruct ev'; auto. }
  destruct ev as [c header|c|c message|c|].
  - destruct (is_publisher_header header) eqn:Eh.
    + refine (Hs (fire env (Connection c header) s)
                (Part000.fire env (Connection c header) s) _ _ (Connection c header)).
      * cbn [fire Part000.fire].
        apply same_effects_bind; [apply same_effects_refl|]. intros s1 s2.
        apply same_effects_bind; [apply same_effects_refl|]. intros _ s3.
        now apply p0_onConnection_publisher_effects.
      * rewrite ts_fire_connection, (ts_onConnection_publisher env c header _ Eh).
        reflexivity.
    + rewrite ts_fire_connection, p0_fire_connection.
      rewrite (p0_onConnection_subscriber c header _ Eh),
              (ts_onConnection_subscriber env c header _ Eh).
      cbn zeta. cbn [ts_add_client latestData].
      destruct (nonempty (latestData s)); cbn; [|auto].
      destruct (send_throws env c _); cbn; auto.
  - refine (Hs (fire env (Pong c) s) (Part000.fire env (Pong c) s) _ _ (Pong c)).
    + cbn [fire Part000.fire].
      apply same_effects_bind; [apply same_effects_refl|]. intros s1 s2.
      destruct (listeners s1 !! c); [apply p0_onPong_effects|apply same_effects_refl].
    + rewrite ts_fire_pong. now destruct (listeners s !! c).
  - refine (Hs (fire env (Message c message) s)
              (Part000.fire env (Message c message) s) _ _ (Message c message)).
    + cbn [fire Part000.fire].
      apply same_effects_bind; [apply same_effects_refl|]. intros s1 s2.
      destruct (listeners s1 !! c);
        [apply p0_onMessage_effects|apply same_effects_refl].
    + rewrite ts_fire_message. destruct (listeners s !! c); [|reflexivity].
      apply ts_onMessage_returns.
  - refine (Hs (fire env (Closed c) s) (Part000.fire env (Closed c) s) _ _ (Closed c)).
    + cbn [fire Part000.fire].
      apply same_effects_bind; [apply same_effects_refl|]. intros s1 s2.
      apply same_effects_bind; [apply same_effects_refl|]. intros _ s3.
      destruct (listeners s1 !! c);
        [apply p0_onClose_effects|apply same_effects_refl].
    + destruct (result_of (fire env (Closed c) s)) as [[]|] eqn:E; [reflexivity|].
      apply ts_fire_throws_iff in E.
      now destruct E as (? & ? & [=] & _).
  - refine (Hs (fire env Tick s) (Part000.fire env Tick s) _ _ Tick).
    + apply p0_pingInterval_effects.
    + rewrite ts_fire_tick. apply ts_sweep_registry.
Qed.
End Part000Simulation.

(** ** [src/server.ts]: the state after each event *)

Lemma splice1_indexOf_filter (c : conn) (l : list conn) :
  List.NoDup l ->
  match indexOf c l with
  | Some i => splice1 i l
  | None => l
  end = List.filter (fun x => negb (Nat.eqb x c)) l.
Proof.
  induction l as [|x l IH]; intros Hnd; [reflexivity|].
  apply List.NoDup_cons_iff in Hnd as [Hx Hnd]. specialize (IH Hnd).
  cbn. destruct (Nat.eqb x c) eqn:E; cbn.
  - apply Nat.eqb_eq in E. subst x.
    symmetry. apply List.forallb_filter_id. apply forallb_forall. intros y Hy.
    apply negb_true_iff, Nat.eqb_neq. intros ->. contradiction.
  - destruct (indexOf c l) as [i|]; cbn; now rewrite <- IH.
Qed.

Section ServerTsCases.
Import ServerTs.

(** The state a handler leaves, event by event. *)
Lemma ts_fire_cases env ev s s1 tr :
  ts_wf s -> fire env ev s = (Val tt, s1, tr) ->
  match ev with
  | Connection c header =>
      s1 = if is_publisher_header header then
             mkServer (subscribers s) (Some c) (latestData s) (clients s ++ [c])
               (<[c := true]> (isAlive s)) (<[c := PUBLISHER]> (type s))
               (<[c := true]> (listeners s))
           else
             mkServer (subscribers s ++ [c]) (publisher s) (latestData s)
               (clients s ++ [c]) (<[c := true]> (isAlive s))
               (<[c := SUBSCRIBER]> (type s)) (<[c := false]> (listeners s))
  | Pong c =>
      s1 = match listeners s !! c with
           | Some _ =>
               mkServer (subscribers s) (publisher s) (latestData s) (clients s)
                 (<[c := true]> (isAlive s)) (type s) (listeners s)
           | None => s
           end
  | Message c message =>
      s1 = match listeners s !! c, sample_of message with
           | Some true, Some o =>
               mkServer (List.filter (ok env (FJson (JObj o))) (subscribers s))
                 (publisher s) o (clients s) (isAlive s) (type s) (listeners s)
           | _, _ => s
           end
  | Closed c =>
      s1 = mkServer
             (match listeners s !! c with
              | Some false =>
                  List.filter (fun x => negb (Nat.eqb x c)) (subscribers s)
              | _ => subscribers s
              end)
             (match listeners s !! c, publisher s with
              | Some true, Some p => if Nat.eqb p c then None else Some p
              | _, p => p
              end)
             (latestData s)
             (List.filter (fun x => negb (Nat.eqb x c)) (clients s))
             (isAlive s) (type s) (listeners s)
  | Tick => ts_same_registry s s1
  end.
Proof.
  intros Hwf H. destruct ev as [c header|c|c message|c|].
  - rewrite ts_fire_connection in H.
    destruct (is_publisher_header header) eqn:Eh.
    + rewrite (ts_onConnection_publisher env c header _ Eh) in H.
      now injection H as <- _.
    + rewrite (ts_onConnection_subscriber env c header _ Eh) in H.
      cbn zeta in H. cbn [ts_add_client subscribers publisher latestData clients
                            isAlive type listeners] in H.
      destruct (nonempty (latestData s)).
      * destruct (send_throws env c _); [discriminate|]. now injection H as <- _.
      * now injection H as <- _.
  - rewrite ts_fire_pong in H. destruct (listeners s !! c); now injection H as <- _.
  - rewrite ts_fire_message in H.
    destruct (listeners s !! c) as [[]|].
    + destruct (sample_of message) as [o|] eqn:E.
      * rewrite (ts_onMessage_sample env c message o s E) in H.
        injection H as <- _.
        apply (ts_broadcast_spec env o s).
      * pose proof (ts_onMessage_other env c true message s (or_intror E)) as (_ & Hs & _).
        rewrite H in Hs. exact Hs.
    + pose proof (ts_onMessage_other env c false message s (or_introl eq_refl))
        as (_ & Hs & _).
      rewrite H in Hs. exact Hs.
    + now injection H as <- _.
  - rewrite ts_fire_closed in H.
    destruct (listeners s !! c) as [[]|].
    + rewrite ts_onClose_spec in H. unfold ts_drop_client, ts_with_subscribers in H.
      cbn [subscribers publisher latestData clients isAlive type listeners] in H.
      destruct (publisher s) as [p|]; [|now injection H as <- _].
      destruct (Nat.eqb p c); now injection H as <- _.
    + rewrite ts_onClose_spec in H. unfold ts_drop_client, ts_with_subscribers in H.
      cbn [subscribers publisher latestData clients isAlive type listeners] in H.
      rewrite <- (splice1_indexOf_filter c (subscribers s) (ts_wf_nodup s Hwf)).
      destruct (indexOf c (subscribers s)); injection H as <- _; [reflexivity|].
      now destruct (publisher s).
    + injection H as <- _. unfold ts_drop_client. now destruct (publisher s).
  - rewrite ts_fire_tick in H.
    pose proof (ts_sweep_registry env (clients s) s) as [Hr _].
    rewrite H in Hr. exact Hr.
Qed.

(** A subscriber or a publisher of a reachable state has its listeners, with
    the role it connected with. *)
Lemma ts_wf_sub_listeners s c :
  ts_wf s -> ts_within_clients s -> In c (subscribers s) ->
  listeners s !! c = Some false.
Proof.
  intros Hwf [Hin _] Hc.
  destruct (ts_wf_clients s Hwf c (Hin c Hc)) as [b Hb].
  pose proof (ts_wf_lis s Hwf c b Hb) as Ht.
  rewrite (ts_wf_sub s Hwf c Hc) in Ht. destruct b; [discriminate|exact Hb].
Qed.

Lemma ts_wf_pub_listeners s c :
  ts_wf s -> ts_within_clients s -> publisher s = Some c ->
  listeners s !! c = Some true.
Proof.
  intros Hwf [_ Hin] Hc.
  destruct (ts_wf_clients s Hwf c (Hin c Hc)) as [b Hb].
  pose proof (ts_wf_lis s Hwf c b Hb) as Ht.
  rewrite (ts_wf_pub s Hwf c Hc) in Ht. destruct b; [exact Hb|discriminate].
Qed.

Lemma ts_within_fire env ev s s1 tr :
  ts_wf s -> ts_within_clients s -> fire env ev s = (Val tt, s1, tr) ->
  ts_within_clients s1.
Proof.
  intros Hwf Hin H. pose proof (ts_fire_cases env ev s s1 tr Hwf H) as Hc.
  pose proof Hin as [Hsub Hpub].
  destruct ev as [c header|c|c message|c|].
  - subst s1. destruct (is_publisher_header header); split; cbn; intros x.
    + intros Hx. apply in_app_iff. left. auto.
    + intros [= <-]. apply in_app_iff. right. now left.
    + rewrite !in_app_iff. intros [Hx|Hx]; [left; auto|now right].
    + intros Hx. apply in_app_iff. left. auto.
  - subst s1. destruct (listeners s !! c); [split; cbn; auto|exact Hin].
  - subst s1. destruct (listeners s !! c) as [[]|]; try exact Hin.
    destruct (sample_of message); [|exact Hin].
    split; cbn; [|exact Hpub]. intros x Hx. apply List.filter_In in Hx as [Hx _]. auto.
  - subst s1. split; cbn; intros x.
    + destruct (listeners s !! c) as [[]|] eqn:El.
      * intros Hx. apply filter_negb_eqb_In. split; [auto|]. intros ->.
        pose proof (ts_wf_sub_listeners s c Hwf Hin Hx). congruence.
      * rewrite !filter_negb_eqb_In. intros [Hx Hne]. auto.
      * intros Hx. apply filter_negb_eqb_In. split; [auto|]. intros ->.
        pose proof (ts_wf_sub_listeners s c Hwf Hin Hx). congruence.
    + intros Hx. apply filter_negb_eqb_In.
      destruct (listeners s !! c) as [[]|] eqn:El.
      * destruct (publisher s) as [p|] eqn:Ep; [|discriminate].
        destruct (Nat.eqb p c) eqn:E; [discriminate|]. injection Hx as <-.
        split; [auto|]. now apply Nat.eqb_neq.
      * split; [auto|]. intros ->.
        pose proof (ts_wf_pub_listeners s c Hwf Hin Hx). congruence.
      * split; [auto|]. intros ->.
        pose proof (ts_wf_pub_listeners s c Hwf Hin Hx). congruence.
  - destruct Hc as (Hs & Hp & _ & Hcl & _). split; intros x.
    + rewrite Hs, Hcl. auto.
    + rewrite Hp, Hcl. auto.
Qed.

Lemma ts_within_steps s evs s' tr :
  steps s evs s' tr -> ts_wf s -> ts_within_clients s ->
  ts_wf s' /\ ts_within_clients s'.
Proof.
  induction 1 as [s|s env ev s1 tr1 evs s2 tr2 Hen Hf _ IH]; [auto|].
  intros Hwf Hin. apply IH.
  - exact (ts_wf_fire env ev s s1 tr1 Hwf Hen Hf).
  - exact (ts_within_fire env ev s s1 tr1 Hwf Hin Hf).
Qed.

Lemma ts_within_reachable s : reachable s -> ts_wf s /\ ts_within_clients s.
Proof.
  intros (evs & tr & H). apply (ts_within_steps _ _ _ _ H ts_wf_init).
  split; cbn; [tauto|discriminate].
Qed.

(** The replay buffer is empty or holds a sample with the [C] field. *)
Lemma ts_latest_fire env ev s s1 tr :
  ts_wf s -> fire env ev s = (Val tt, s1, tr) ->
  carries_C (latestData s) -> carries_C (latestData s1).
Proof.
  intros Hwf H Hl. pose proof (ts_fire_cases env ev s s1 tr Hwf H) as Hc.
  destruct ev as [c header|c|c message|c|].
  - subst s1. now destruct (is_publisher_header header).
  - subst s1. now destruct (listeners s !! c).
  - subst s1. destruct (listeners s !! c) as [[]|]; try exact Hl.
    destruct (sample_of message) as [o|] eqn:E; [|exact Hl].
    intros _. cbn. destruct message as [raw|[]]; try discriminate.
    cbn in E. destruct (has_key "C" fields) eqn:Ek; [|discriminate].
    now injection E as <-.
  - subst s1. exact Hl.
  - destruct Hc as (_ & _ & -> & _). exact Hl.
Qed.

Lemma ts_latest_reachable s : reachable s -> carries_C (latestData s).
Proof.
  intros (evs & tr & H).
  assert (G : forall s0, steps s0 evs s tr -> ts_wf s0 ->
                         carries_C (latestData s0) -> carries_C (latestData s)).
  { clear H. intros s0 H. induction H as [s|s env ev s1 tr1 evs s2 tr2 Hen Hf _ IH];
      [auto|].
    intros Hwf Hl. apply IH.
    - exact (ts_wf_fire env ev s s1 tr1 Hwf Hen Hf).
    - exact (ts_latest_fire env ev s s1 tr1 Hwf Hf Hl). }
  apply (G _ H ts_wf_init). intros [=].
Qed.
End ServerTsCases.

(** ** [src/server.ts]: the frames sent and the registry *)

Lemma sends_of_app (t1 t2 : list action) :
  sends_of (t1 ++ t2) = sends_of t1 ++ sends_of t2.
Proof. apply List.flat_map_app. Qed.

Lemma sends_of_erase_logs (tr : list action) : sends_of (erase_logs tr) = sends_of tr.
Proof.
  unfold sends_of, erase_logs.
  induction tr as [|a tr IH]; [reflexivity|].
  destruct a; cbn; now rewrite ?IH.
Qed.

Lemma sends_of_In (c : conn) (f : frame) (tr : list action) :
  In (c, f) (sends_of tr) <-> In (Send c f) tr.
Proof.
  unfold sends_of.
  induction tr as [|a tr IH]; [reflexivity|].
  destruct a; cbn; rewrite ?IH; try (split; [tauto|intros [[=]|]; tauto]).
  split; intros [[=]|]; subst; tauto.
Qed.

Lemma sends_of_forEach {S A} (body : A -> M S unit) (g : A -> conn * frame)
    (l : list A) :
  (forall x s, result_of (body x s) = Val tt /\
               sends_of (trace_of (body x s)) = [g x]) ->
  forall s, sends_of (trace_of (forEach l body s)) = map g l.
Proof.
  intros Hb. induction l as [|x l IH]; intros s; [reflexivity|].
  rewrite forEach_cons. destruct (Hb x s) as [Hr Ht].
  destruct (body x s) as [[[[]|] s1] t1]; [|discriminate].
  unfold trace_of in *. cbn [snd] in *. now rewrite sends_of_app, Ht, IH.
Qed.

Lemma sends_of_foldM {S A} (body : nat -> A -> M S nat) (g : A -> conn * frame)
    (l : list A) :
  (forall n x s, (exists n', result_of (body n x s) = Val n') /\
                 sends_of (trace_of (body n x s)) = [g x]) ->
  forall n s, sends_of (trace_of (foldM body l n s)) = map g l.
Proof.
  intros Hb. induction l as [|x l IH]; intros n s; [reflexivity|].
  cbn [foldM]. unfold bind. destruct (Hb n x s) as [[n' Hr] Ht].
  destruct (body n x s) as [[[n1|] s1] t1]; [|discriminate].
  specialize (IH n1 s1).
  destruct (foldM body l n1 s1) as [[r2 s2] t2].
  unfold trace_of in *. cbn [snd] in *. now rewrite sends_of_app, Ht, IH.
Qed.

(** The frames of a fan-out, in the order they are sent. *)
Lemma ts_broadcast_sends env data s :
  sends_of (trace_of (ServerTs.broadcastToSubscribers env data s)) =
    map (fun c => (c, FJson (JObj data))) (ServerTs.subscribers s).
Proof.
  unfold ServerTs.broadcastToSubscribers, ServerTs.set_latestData.
  unfold bind at 1 2 3, modify, emit, get. cbn [ServerTs.subscribers].
  destruct (ServerTs.subscribers s) as [|x l] eqn:Es; [reflexivity|].
  cbn [length Nat.eqb]. unfold bind, log, emit.
  pose proof (sends_of_forEach (ServerTs.deliver env (FJson (JObj data)))
                (fun c => (c, FJson (JObj data))) (x :: l)) as H.
  match goal with |- context [forEach (x :: l) _ ?s0] => specialize (H ltac:(
    intros y s'; rewrite ts_deliver_spec;
    destruct (send_throws env y _); [destruct (indexOf y _)|]; split; reflexivity) s0);
    destruct (forEach (x :: l) _ s0) as [[r1 s1] t1] end.
  exact H.
Qed.

Lemma p2_broadcast_sends env data s :
  sends_of (trace_of (Part002.broadcastToSubscribers env data s)) =
    map (fun c => (c, FJson (JObj (spread_data data)))) (Part002.subscribers s).
Proof.
  unfold Part002.broadcastToSubscribers.
  unfold bind at 1, get.
  destruct (Part002.subscribers s) as [|x l] eqn:Es; [reflexivity|].
  cbn [length Nat.eqb]. cbn zeta.
  pose proof (sends_of_foldM (Part002.deliver env (FJson (JObj (spread_data data))))
                (fun c => (c, FJson (JObj (spread_data data)))) (x :: l)) as H.
  specialize (H ltac:(intros n y s'; rewrite p2_deliver_spec;
                      destruct (send_throws env y _); split; eauto) 0 s).
  unfold bind, log, emit, get, Part002.set_subscribers, modify, when.
  destruct (foldM _ (x :: l) 0 s) as [[[n1|] s1] t1]; unfold trace_of in *;
    cbn [snd] in *; [|exact H].
  destruct (Nat.ltb 0 n1); cbn; rewrite sends_of_app, H; cbn; now rewrite app_nil_r.
Qed.

Section ServerTsRegistry.
Import ServerTs.

Lemma ts_exclusive_wf s c :
  ts_wf s -> publisher s = Some c -> ~ In c (subscribers s).
Proof.
  intros Hwf Hp Hs.
  pose proof (ts_wf_pub s Hwf c Hp). pose proof (ts_wf_sub s Hwf c Hs). congruence.
Qed.

Lemma ts_listeners_fire env ev s s1 tr c b :
  ts_wf s -> enabled s ev -> fire env ev s = (Val tt, s1, tr) ->
  listeners s !! c = Some b -> listeners s1 !! c = Some b.
Proof.
  intros Hwf Hen H Hl. pose proof (ts_fire_cases env ev s s1 tr Hwf H) as Hc.
  destruct ev as [c' header|c'|c' message|c'|].
  - assert (c' <> c) as Hne.
    { intros ->. cbn in Hen.
      pose proof (ts_wf_lis s Hwf c b Hl) as Ht.
      destruct (ts_wf_type s Hwf c) as [x Hx]; [now rewrite Ht|]. congruence. }
    subst s1. destruct (is_publisher_header header); cbn;
      now rewrite lookup_insert_ne.
  - subst s1. now destruct (listeners s !! c').
  - subst s1. destruct (listeners s !! c') as [[]|]; try exact Hl.
    now destruct (sample_of message).
  - subst s1. exact Hl.
  - destruct Hc as (_ & _ & _ & _ & _ & ->). exact Hl.
Qed.

Lemma ts_listeners_steps s evs s1 tr c b :
  steps s evs s1 tr -> ts_wf s -> listeners s !! c = Some b ->
  listeners s1 !! c = Some b.
Proof.
  induction 1 as [s|s env ev s1 tr1 evs s2 tr2 Hen Hf _ IH]; [auto|].
  intros Hwf Hl. apply IH.
  - exact (ts_wf_fire env ev s s1 tr1 Hwf Hen Hf).
  - exact (ts_listeners_fire env ev s s1 tr1 c b Hwf Hen Hf Hl).
Qed.

Lemma ts_sweep_sends env l : forall s,
  sends_of (trace_of (forEach l (probe env) s)) = [].
Proof.
  induction l as [|x l IH]; intros s; [reflexivity|].
  rewrite forEach_cons, ts_probe_spec.
  destruct (alive_flag (isAlive s) x); unfold trace_of at 1; cbn [snd];
    rewrite sends_of_app, IH; [destruct (ping_throws env x)|]; reflexivity.
Qed.
End ServerTsRegistry.

(** X10. In every state [src/server.ts] reaches, the subscribers and the
    publisher are clients of the [ws] server, that is sockets whose close
    event has not come; so the registry (and the [subscribers] count of
    [/health]) never holds more sockets than are open. *)
Theorem ts_registry_holds_open_sockets (s : ServerTs.server) :
  ServerTs.reachable s ->
  (forall c, In c (ServerTs.subscribers s) -> In c (ServerTs.clients s)) /\
  (forall c, ServerTs.publisher s = Some c -> In c (ServerTs.clients s)) /\
  length (ServerTs.subscribers s) + (if installed (ServerTs.publisher s) then 1 else 0)
    <= length (ServerTs.clients s).
Proof.
  intros Hr. destruct (ts_within_reachable s Hr) as [Hwf [Hsub Hpub]].
  split; [exact Hsub|]. split; [exact Hpub|].
  destruct (ServerTs.publisher s) as [p|] eqn:Ep; cbn.
  - rewrite Nat.add_1_r.
    change (length (p :: ServerTs.subscribers s) <= length (ServerTs.clients s)).
    apply List.NoDup_incl_length.
    + constructor; [now apply ts_exclusive_wf|apply (ts_wf_nodup s Hwf)].
    + intros x [<-|Hx]; auto.
  - rewrite Nat.add_0_r. apply List.NoDup_incl_length; [apply (ts_wf_nodup s Hwf)|].
    intros x Hx. auto.
Qed.

(** X12. In [src/server.ts] a subscriber leaves the array in two ways only:
    after an event whose handler returns it is still subscribed exactly when
    the event is not its own close and is not a sample of a publisher socket
    whose send to it throws. *)
Theorem ts_consumer_durability env (ev : ServerTs.event) (s s1 : ServerTs.server)
    (tr : list action) (c : conn) :
  ServerTs.reachable s ->
  ServerTs.fire env ev s = (Val tt, s1, tr) ->
  In c (ServerTs.subscribers s) ->
  (In c (ServerTs.subscribers s1) <-> ~ ts_evicts env s ev c).
Proof.
  intros Hr H Hc. destruct (ts_within_reachable s Hr) as [Hwf Hin].
  pose proof (ts_fire_cases env ev s s1 tr Hwf H) as Hcases.
  pose proof (ts_wf_sub_listeners s c Hwf Hin Hc) as Hl.
  unfold ts_evicts.
  destruct ev as [c' header|c'|c' message|c'|].
  - subst s1. split.
    + intros _ [[=]|(p & m & o & [=] & _)].
    + intros _. destruct (is_publisher_header header); cbn; [exact Hc|].
      apply in_app_iff. now left.
  - subst s1. split.
    + intros _ [[=]|(p & m & o & [=] & _)].
    + intros _. now destruct (ServerTs.listeners s !! c').
  - subst s1. destruct (ServerTs.listeners s !! c') as [[]|] eqn:El.
    + destruct (sample_of message) as [o|] eqn:E.
      * cbn. rewrite List.filter_In. unfold ok. split.
        -- intros [_ Hok] [[=]|(p & m & o' & [= <- <-] & _ & Ho & Hs)].
           rewrite E in Ho. injection Ho as <-. rewrite Hs in Hok. discriminate.
        -- intros Hn. split; [exact Hc|]. apply negb_true_iff.
           destruct (send_throws env c _) eqn:Es; [|reflexivity].
           exfalso. apply Hn. right. exists c', message, o. auto.
      * split; [|auto]. intros _ [[=]|(p & m & o' & [= <- <-] & _ & Ho & _)].
        congruence.
    + split; [|auto]. intros _ [[=]|(p & m & o' & [= <- <-] & Hp & _)]. congruence.
    + split; [|auto]. intros _ [[=]|(p & m & o' & [= <- <-] & Hp & _)]. congruence.
  - subst s1. cbn. destruct (Nat.eq_dec c' c) as [->|Hne].
    + rewrite Hl, filter_negb_eqb_In. split; [intros [_ []]; reflexivity|].
      intros Hn. exfalso. apply Hn. now left.
    + split.
      * intros _ [[= ?]|(p & m & o & [=] & _)]. contradiction.
      * intros _. destruct (ServerTs.listeners s !! c') as [[]|]; try exact Hc.
        apply filter_negb_eqb_In. split; [exact Hc|]. congruence.
  - destruct Hcases as (-> & _). split; [|auto].
    intros _ [[=]|(p & m & o & [=] & _)].
Qed.

(** X15. In [src/server.ts] the role a socket connected with never changes
    along a run: its handlers keep the [isPublisher] they captured and its
    [type] agrees. So a publisher socket relays every sample it sends, also
    after another publisher took the slot, and a subscriber socket never
    does. *)
Theorem ts_role_is_fixed (s s1 : ServerTs.server) (evs : list ServerTs.event)
    (tr : list action) (c : conn) (b : bool) :
  ServerTs.reachable s -> ServerTs.steps s evs s1 tr ->
  ServerTs.listeners s !! c = Some b ->
  ServerTs.listeners s1 !! c = Some b /\
  ServerTs.type s1 !! c =
    Some (if b then ServerTs.PUBLISHER else ServerTs.SUBSCRIBER) /\
  (forall env message o,
     sample_of message = Some o ->
     ServerTs.latestData (state_of (ServerTs.fire env (ServerTs.Message c message) s1))
       = if b then o else ServerTs.latestData s1).
Proof.
  intros Hr Hsteps Hl. destruct (ts_within_reachable s Hr) as [Hwf Hin].
  pose proof (ts_listeners_steps s evs s1 tr c b Hsteps Hwf Hl) as Hl1.
  pose proof (ts_wf_steps s evs s1 tr Hsteps Hwf) as Hwf1.
  split; [exact Hl1|]. split; [exact (ts_wf_lis s1 Hwf1 c b Hl1)|].
  intros env message o Ho. rewrite ts_fire_message, Hl1. destruct b.
  - rewrite (ts_onMessage_sample env c message o s1 Ho).
    destruct (ts_broadcast_spec env o s1) as (_ & Hst & _).
    unfold state_of at 1. cbn [fst snd]. now rewrite Hst.
  - destruct (ts_onMessage_other env c false message s1 (or_introl eq_refl))
      as (_ & Hst & _).
    now rewrite Hst.
Qed.

(** X17. Every frame [src/server.ts] sends is the serialization of an
    object with the [C] field, and it goes to a socket of type [SUBSCRIBER]:
    nothing is ever sent to a publisher socket. *)
Theorem ts_sends_only_samples_to_subscribers env (ev : ServerTs.event)
    (s : ServerTs.server) (c : conn) (f : frame) :
  ServerTs.reachable s ->
  In (Send c f) (trace_of (ServerTs.fire env ev s)) ->
  (exists o, f = FJson (JObj o) /\ has_key "C" o = true) /\
  ServerTs.type (state_of (ServerTs.fire env ev s)) !! c = Some ServerTs.SUBSCRIBER.
Proof.
  intros Hr. pose proof (ts_latest_reachable s Hr) as Hlat.
  destruct (ts_within_reachable s Hr) as [Hwf Hin].
  destruct ev as [c' header|c'|c' message|c'|].
  - rewrite ts_fire_connection.
    destruct (is_publisher_header header) eqn:Eh.
    + rewrite (ts_onConnection_publisher env c' header _ Eh).
      unfold trace_of. cbn [snd ts_add_client ServerTs.publisher].
      destruct (ServerTs.publisher s); cbn; [destruct (close_throws env c0); cbn|];
        intros H; repeat (destruct H as [[=]|H]); destruct H.
    + rewrite (ts_onConnection_subscriber env c' header _ Eh). cbn zeta.
      cbn [ts_add_client ServerTs.latestData ServerTs.subscribers].
      destruct (nonempty (ServerTs.latestData s)) eqn:En.
      * assert (G : In (Send c f) [SetSubscribers (ServerTs.subscribers s ++ [c']);
                                   Log INFO "Nuevo SUBSCRIBER conectado - Total";
                                   Send c' (FJson (JObj (ServerTs.latestData s)))] ->
                    (exists o, f = FJson (JObj o) /\ has_key "C" o = true) /\ c = c').
        { intros [[=]|[[=]|[[= <- <-]|[]]]]. split; [|reflexivity].
          eexists. split; [reflexivity|]. exact (Hlat En). }
        destruct (send_throws env c' _); unfold trace_of, state_of; cbn [fst snd];
          intros H; destruct (G H) as [Hf ->]; (split; [exact Hf|]); cbn;
          now rewrite lookup_insert_eq.
      * unfold trace_of. cbn. intros [[=]|[[=]|[]]].
  - rewrite ts_fire_pong. destruct (ServerTs.listeners s !! c'); intros [].
  - rewrite ts_fire_message.
    destruct (ServerTs.listeners s !! c') as [b|]; [|intros []].
    destruct b.
    + destruct (sample_of message) as [o|] eqn:E.
      * rewrite (ts_onMessage_sample env c' message o s E).
        unfold trace_of at 1, state_of at 1. cbn [fst snd].
        intros [[=]|H].
        destruct (ts_broadcast_spec env o s) as (_ & Hst & Hsends & rest & Htr & Hall).
        rewrite Htr in H. destruct H as [[=]|H].
        rewrite List.Forall_forall in Hall. specialize (Hall _ H). cbn in Hall. subst f.
        split.
        -- exists o. split; [reflexivity|].
           destruct message as [raw|[]]; try discriminate. cbn in E.
           destruct (has_key "C" fields) eqn:Ek; [|discriminate]. now injection E as <-.
        -- rewrite Hst. cbn. apply (ts_wf_sub s Hwf). apply Hsends.
           rewrite Htr. now right.
      * pose proof (ts_onMessage_other env c' true message s (or_intror E))
          as (_ & _ & Hlog).
        intros H. rewrite List.Forall_forall in Hlog. destruct (Hlog _ H).
    + pose proof (ts_onMessage_other env c' false message s (or_introl eq_refl))
        as (_ & _ & Hlog).
      intros H. rewrite List.Forall_forall in Hlog. destruct (Hlog _ H).
  - rewrite ts_fire_closed.
    destruct (ServerTs.listeners s !! c') as [b|]; [|intros []].
    rewrite ts_onClose_spec. destruct b.
    + cbn [ts_drop_client ServerTs.publisher].
      destruct (ServerTs.publisher s) as [p|]; [|intros []].
      destruct (Nat.eqb p c'); [|intros []]. intros [[=]|[[=]|[]]].
    + destruct (indexOf c' _); [|intros []]. intros [[=]|[[=]|[]]].
  - rewrite ts_fire_tick. intros H. apply sends_of_In in H.
    rewrite ts_sweep_sends in H. destruct H.
Qed.

(** X18. In [src/server.ts] a second close event of a socket changes
    nothing and logs nothing: the close handler is a no-op on a socket that is
    no longer in the registry. *)
Theorem ts_close_is_idempotent env env' (c : conn) (s : ServerTs.server) :
  ServerTs.reachable s ->
  ServerTs.fire env' (ServerTs.Closed c)
    (state_of (ServerTs.fire env (ServerTs.Closed c) s)) =
    (Val tt, state_of (ServerTs.fire env (ServerTs.Closed c) s), []).
Proof.
  intros Hr. destruct (ts_within_reachable s Hr) as [Hwf Hin].
  destruct (ServerTs.fire env (ServerTs.Closed c) s) as [[r s1] tr] eqn:H.
  assert (r = Val tt) as ->.
  { destruct r as [[]|]; [reflexivity|].
    assert (Ht : result_of (ServerTs.fire env (ServerTs.Closed c) s) = Throw)
      by now rewrite H.
    apply ts_fire_throws_iff in Ht. now destruct Ht as (? & ? & [=] & _). }
  pose proof (ts_fire_cases env _ s s1 tr Hwf H) as Hc. cbn in Hc.
  unfold state_of. cbn [fst snd].
  assert (Hfil : forall l : list conn,
             List.filter (fun x => negb (Nat.eqb x c))
               (List.filter (fun x => negb (Nat.eqb x c)) l) =
             List.filter (fun x => negb (Nat.eqb x c)) l).
  { intros l. apply List.forallb_filter_id, forallb_forall. intros x Hx.
    now apply List.filter_In in Hx. }
  rewrite ts_fire_closed.
  assert (Hdrop : ts_drop_client c s1 = s1).
  { subst s1. unfold ts_drop_client. cbn. now rewrite Hfil. }
  rewrite Hdrop.
  assert (Hl : ServerTs.listeners s1 !! c = ServerTs.listeners s !! c) by now subst s1.
  rewrite Hl. destruct (ServerTs.listeners s !! c) as [[]|] eqn:El; [| |reflexivity].
  - rewrite ts_onClose_spec.
    assert (Hp : ServerTs.publisher s1 <> Some c).
    { subst s1. cbn. destruct (ServerTs.publisher s) as [p|]; [|discriminate].
      destruct (Nat.eqb p c) eqn:E; [discriminate|].
      apply Nat.eqb_neq in E. congruence. }
    destruct (ServerTs.publisher s1) as [p|]; [|reflexivity].
    destruct (Nat.eqb p c) eqn:E; [|reflexivity].
    apply Nat.eqb_eq in E. congruence.
  - rewrite ts_onClose_spec.
    assert (Hn : ~ In c (ServerTs.subscribers s1)).
    { subst s1. cbn. rewrite filter_negb_eqb_In. tauto. }
    pose proof (indexOf_split c (ServerTs.subscribers s1)) as Hi.
    destruct (indexOf c (ServerTs.subscribers s1)); [|reflexivity].
    destruct Hi as (pre & rest & Heq & _). exfalso. apply Hn. rewrite Heq.
    apply in_app_iff. right. now left.
Qed.

(** ** Runs of [src/server.ts] and of the logging revision *)

Lemma p0_step_of_ts env ev s s1 tr :
  ServerTs.fire env ev s = (Val tt, s1, tr) ->
  exists tr', Part000.fire env ev s = (Val tt, s1, tr') /\
              erase_logs tr' = erase_logs tr.
Proof.
  intros H. destruct (p0_fire_simulates env ev s) as (Hr & Ht & Hs).
  rewrite H in Ht, Hs. unfold result_of, state_of, trace_of in *. cbn [fst snd] in *.
  destruct (Part000.fire env ev s) as [[r' s'] tr']. cbn [fst snd] in *.
  exists tr'. subst r'. split; [|exact Ht]. now destruct ev; subst s'.
Qed.

Lemma ts_step_of_p0 env ev s s1 tr :
  Part000.fire env ev s = (Val tt, s1, tr) ->
  exists env' tr', ServerTs.fire env' ev s = (Val tt, s1, tr').
Proof.
  intros H.
  destruct (result_of (ServerTs.fire env ev s)) as [[]|] eqn:Er.
  - destruct (p0_fire_simulates env ev s) as (_ & _ & Hs).
    rewrite Er, H in Hs. unfold state_of at 1 in Hs. cbn [fst snd] in Hs.
    exists env, (trace_of (ServerTs.fire env ev s)).
    rewrite (triple_eta (ServerTs.fire env ev s)), Er.
    now destruct ev; subst s1.
  - apply ts_fire_throws_iff in Er as (c & header & -> & Eh & _ & _).
    rewrite p0_fire_connection, (p0_onConnection_subscriber env c header _ Eh) in H.
    cbn zeta in H. injection H as <- _.
    exists quiet, (trace_of (ServerTs.fire quiet (ServerTs.Connection c header) s)).
    rewrite ts_fire_connection, (ts_onConnection_subscriber quiet c header _ Eh).
    cbn zeta. cbn [send_throws quiet].
    destruct (nonempty _); reflexivity.
Qed.

Lemma p0_steps_iff s0 evs s :
  (exists tr, p0_steps s0 evs s tr) <-> (exists tr, ServerTs.steps s0 evs s tr).
Proof.
  split; intros [tr H].
  - induction H as [s|s env ev s1 tr1 evs s2 tr2 Hen Hf _ [tr IH]].
    + exists []. constructor.
    + destruct (ts_step_of_p0 env ev s s1 tr1 Hf) as (env' & tr' & Hf').
      exists (tr' ++ tr). exact (ServerTs.steps_cons s env' ev s1 tr' evs s2 tr Hen Hf' IH).
  - induction H as [s|s env ev s1 tr1 evs s2 tr2 Hen Hf _ [tr IH]].
    + exists []. constructor.
    + destruct (p0_step_of_ts env ev s s1 tr1 Hf) as (tr' & Hf' & _).
      exists (tr' ++ tr). exact (p0_steps_cons s env ev s1 tr' evs s2 tr Hen Hf' IH).
Qed.

Section ServerTsRuns.
Import ServerTs.

Lemma ts_enabledb_enabled s ev : ts_enabledb s ev = true -> enabled s ev.
Proof.
  destruct ev as [c header| | | |]; cbn; try exact (fun _ => I).
  now destruct (isAlive s !! c).
Qed.

(** Only the sweep terminates a socket. *)
Lemma ts_terminate_only_in_sweep env ev s c :
  ev <> Tick -> ~ In (Terminate c) (trace_of (fire env ev s)).
Proof.
  intros Hev. destruct ev as [c' header|c'|c' message|c'|]; [| | | |congruence].
  - rewrite ts_fire_connection.
    destruct (is_publisher_header header) eqn:Eh.
    + rewrite (ts_onConnection_publisher env c' header _ Eh).
      unfold trace_of. cbn [snd ts_add_client publisher].
      destruct (publisher s); cbn; [destruct (close_throws env c0); cbn|];
        intros H; repeat (destruct H as [[=]|H]); destruct H.
    + rewrite (ts_onConnection_subscriber env c' header _ Eh). cbn zeta.
      destruct (nonempty _); [destruct (send_throws env c' _)|]; unfold trace_of; cbn;
        intros H; repeat (destruct H as [[=]|H]); destruct H.
  - rewrite ts_fire_pong. destruct (listeners s !! c'); intros [].
  - rewrite ts_fire_message.
    destruct (listeners s !! c') as [b|]; [|intros []].
    destruct b.
    + destruct (sample_of message) as [o|] eqn:E.
      * rewrite (ts_onMessage_sample env c' message o s E).
        unfold trace_of at 1. cbn [fst snd]. intros [[=]|H].
        destruct (ts_broadcast_spec env o s) as (_ & _ & _ & rest & Htr & Hall).
        rewrite Htr in H. destruct H as [[=]|H].
        rewrite List.Forall_forall in Hall. exact (Hall _ H).
      * pose proof (ts_onMessage_other env c' true message s (or_intror E))
          as (_ & _ & Hlog).
        intros H. rewrite List.Forall_forall in Hlog. destruct (Hlog _ H).
    + pose proof (ts_onMessage_other env c' false message s (or_introl eq_refl))
        as (_ & _ & Hlog).
      intros H. rewrite List.Forall_forall in Hlog. destruct (Hlog _ H).
  - rewrite ts_fire_closed.
    destruct (listeners s !! c') as [b|]; [|intros []].
    rewrite ts_onClose_spec. destruct b.
    + cbn [ts_drop_client publisher].
      destruct (publisher s) as [p|]; [|intros []].
      destruct (Nat.eqb p c'); [|intros []]. intros [[=]|[[=]|[]]].
    + destruct (indexOf c' _); [|intros []]. intros [[=]|[[=]|[]]].
Qed.

Lemma ts_run_answers env c :
  ping_throws env c = false ->
  forall evs s alive,
    ts_runs env s evs = true ->
    ts_wf s -> is_Some (listeners s !! c) ->
    (alive = true -> alive_flag (isAlive s) c = true) ->
    answers_probes c alive evs = true ->
    ~ In (Terminate c) (trace_of (forEach evs (fire env) s)).
Proof.
  intros Hping evs.
  induction evs as [|ev evs IH]; intros s alive Hrun Hwf [b Hl] Hal Hans; [intros []|].
  cbn [ts_runs] in Hrun. apply andb_prop in Hrun as [Hen Hrun].
  apply ts_enabledb_enabled in Hen.
  rewrite forEach_cons.
  destruct (fire env ev s) as [[[[]|] s1] tr1] eqn:Hf; [|discriminate].
  unfold trace_of at 1. cbn [snd].
  pose proof (ts_wf_fire env ev s s1 tr1 Hwf Hen Hf) as Hwf1.
  pose proof (ts_listeners_fire env ev s s1 tr1 c b Hwf Hen Hf Hl) as Hl1.
  pose proof (ts_fire_cases env ev s s1 tr1 Hwf Hf) as Hc.
  intros Hin. apply in_app_iff in Hin as [Hin|Hin].
  - destruct ev as [c' header|c'|c' message|c'|];
      try (match type of Hf with
           | fire _ ?ev _ = _ =>
               apply (ts_terminate_only_in_sweep env ev s c ltac:(discriminate));
               rewrite Hf; exact Hin
           end).
    cbn in Hans. apply andb_prop in Hans as [-> _].
    rewrite ts_fire_tick in Hf.
    pose proof (ts_sweep_terminates env (clients s) (ts_wf_clients_nodup s Hwf) s c)
      as Ht.
    rewrite Hf in Ht. apply Ht in Hin as [_ [Hd|Hd]]; [|congruence].
    rewrite (Hal eq_refl) in Hd. discriminate.
  - destruct ev as [c' header|c'|c' message|c'|]; cbn in Hans.
    + refine (IH s1 alive Hrun Hwf1 (ex_intro _ b Hl1) _ Hans Hin).
      intros Ha. specialize (Hal Ha).
      assert (c' <> c) as Hne.
      { intros ->. cbn in Hen.
        pose proof (ts_wf_lis s Hwf c b Hl) as Ht.
        destruct (ts_wf_type s Hwf c) as [x Hx]; [now rewrite Ht|]. congruence. }
      subst s1. destruct (is_publisher_header header); cbn;
        now rewrite alive_flag_insert_ne.
    + refine (IH s1 _ Hrun Hwf1 (ex_intro _ b Hl1) _ Hans Hin).
      intros Ha. subst s1. destruct (Nat.eqb c' c) eqn:E.
      * apply Nat.eqb_eq in E. subst c'. rewrite Hl. cbn. apply alive_flag_insert_eq.
      * rewrite orb_false_r in Ha. specialize (Hal Ha). apply Nat.eqb_neq in E.
        destruct (listeners s !! c'); cbn; [now rewrite alive_flag_insert_ne|exact Hal].
    + refine (IH s1 alive Hrun Hwf1 (ex_intro _ b Hl1) _ Hans Hin).
      intros Ha. specialize (Hal Ha). subst s1.
      destruct (listeners s !! c') as [[]|]; try exact Hal.
      now destruct (sample_of message).
    + refine (IH s1 alive Hrun Hwf1 (ex_intro _ b Hl1) _ Hans Hin).
      intros Ha. specialize (Hal Ha). now subst s1.
    + apply andb_prop in Hans as [_ Hans].
      refine (IH s1 false Hrun Hwf1 (ex_intro _ b Hl1) _ Hans Hin). discriminate.
Qed.
End ServerTsRuns.

(** X9. The logging revision and [src/server.ts] reach the same states:
    from any state, a list of events leads the one to a state exactly when it
    leads the other to it (on some transport). *)
Theorem p0_reaches_the_states_of_server_ts (s0 s : ServerTs.server)
    (evs : list ServerTs.event) :
  (exists tr, p0_steps s0 evs s tr) <-> (exists tr, ServerTs.steps s0 evs s tr).
Proof. apply p0_steps_iff. Qed.

(** X14. In [src/server.ts], along a run on a transport whose pings to [c]
    do not throw, a client that sends a pong between any two sweeps (and whose
    flag is up at the first) is never terminated. *)
Theorem ts_answering_client_is_never_terminated env (s : ServerTs.server)
    (evs : list ServerTs.event) (c : conn) :
  ServerTs.reachable s -> is_Some (ServerTs.listeners s !! c) ->
  ping_throws env c = false ->
  ts_runs env s evs = true ->
  answers_probes c (alive_flag (ServerTs.isAlive s) c) evs = true ->
  ~ In (Terminate c) (trace_of (forEach evs (ServerTs.fire env) s)).
Proof.
  intros Hr Hl Hp Hrun Hans.
  exact (ts_run_answers env c Hp evs s _ Hrun (ts_wf_reachable s Hr) Hl
           (fun H => H) Hans).
Qed.

(** ** The handshake revision: the state after each event *)

Lemma lookup_key_remove_ne (k k' : string) (o : obj) :
  k <> k' -> lookup_key k (remove_key k' o) = lookup_key k o.
Proof.
  intros Hne. induction o as [|[k0 v] o IH]; [reflexivity|]. cbn.
  destruct (String.eqb k' k0) eqn:E0.
  - apply String.eqb_eq in E0. subst k0.
    rewrite IH. destruct (String.eqb k k') eqn:E; [|reflexivity].
    apply String.eqb_eq in E. contradiction.
  - cbn. now rewrite IH.
Qed.

Lemma spread_data_lookup (data : obj) (k : string) :
  lookup_key k (spread_data data) =
    if String.eqb k "type" then
      Some (match lookup_key "type" data with Some v => v | None => JStr "data" end)
    else lookup_key k data.
Proof.
  unfold spread_data. cbn [lookup_key].
  destruct (String.eqb k "type") eqn:E; [reflexivity|].
  apply lookup_key_remove_ne. now apply String.eqb_neq.
Qed.

Section Part002Cases.
Import Part002.

Lemma p2_fire_cases env ev s s1 tr :
  fire env ev s = (Val tt, s1, tr) ->
  match ev with
  | Connection c =>
      s1 = mkServer (subscribers s) (publisher s) (latestData s) (clients s ++ [c])
             (<[c := true]> (isAlive s)) (<[c := false]> (isPublisher s))
  | Message c message =>
      s1 = match isAlive s !! c with
           | None => s
           | Some _ =>
               match register_role message with
               | Some role =>
                   if is_str "publisher" role then
                     mkServer (subscribers s) (Some c) (latestData s) (clients s)
                       (isAlive s) (<[c := true]> (isPublisher s))
                   else
                     mkServer (subscribers s ++ [c]) (publisher s) (latestData s)
                       (clients s) (isAlive s) (isPublisher s)
               | None =>
                   match publisher_flag s c, sample_of message with
                   | true, Some o =>
                       mkServer (List.filter (ready_open env) (subscribers s))
                         (publisher s) o (clients s) (isAlive s) (isPublisher s)
                   | _, _ => s
                   end
               end
           end
  | Closed c =>
      s1 = match isAlive s !! c with
           | None => p2_drop_client c s
           | Some _ =>
               if publisher_flag s c && is_publisher s c then
                 mkServer (subscribers s) None (latestData s)
                   (List.filter (fun x => negb (Nat.eqb x c)) (clients s))
                   (isAlive s) (isPublisher s)
               else
                 mkServer (List.filter (fun x => negb (Nat.eqb x c)) (subscribers s))
                   (publisher s) (latestData s)
                   (List.filter (fun x => negb (Nat.eqb x c)) (clients s))
                   (isAlive s) (isPublisher s)
           end
  | Tick => p2_same_registry s s1
  end.
Proof.
  intros H. destruct ev as [c|c message|c|].
  - rewrite p2_fire_connection, p2_onConnection_spec in H.
    destruct (send_throws env c _); [discriminate|]. now injection H as <- _.
  - rewrite p2_fire_message in H.
    destruct (isAlive s !! c) as [b|]; [|now injection H as <- _].
    destruct (register_role message) as [role|] eqn:Er.
    + rewrite (p2_onMessage_register env c message role s Er) in H. cbn zeta in H.
      injection H as <- _.
      destruct (is_str "publisher" role) eqn:Ep.
      * now rewrite (p2_handleRegistration_publisher env c role s Ep).
      * rewrite (p2_handleRegistration_subscriber env c role s Ep). cbn zeta.
        destruct (send_throws env c (registered "subscriber"));
          [|destruct (nonempty (latestData s))]; reflexivity.
    + destruct (publisher_flag s c) eqn:Ef.
      * destruct (sample_of message) as [o|] eqn:E.
        -- rewrite (p2_onMessage_sample env c message o s Er E Ef) in H. cbn zeta in H.
           injection H as <- _.
           now rewrite (proj1 (proj2 (p2_broadcast_spec env o _))).
        -- pose proof (p2_onMessage_other env c message s Er (or_intror E))
             as (_ & Hs & _).
           rewrite H in Hs. exact Hs.
      * pose proof (p2_onMessage_other env c message s Er (or_introl Ef))
          as (_ & Hs & _).
        rewrite H in Hs. exact Hs.
  - rewrite p2_fire_closed in H.
    destruct (isAlive s !! c) as [b|]; [|now injection H as <- _].
    rewrite p2_onClose_spec in H.
    unfold p2_drop_client, publisher_flag, is_publisher in *.
    cbn [subscribers publisher latestData clients isAlive isPublisher] in H.
    destruct (_ && _); now injection H as <- _.
  - rewrite p2_fire_tick in H.
    pose proof (p2_sweep_registry env (clients s) s) as [Hr _].
    rewrite H in Hr. exact Hr.
Qed.

End Part002Cases.

(** ** The handshake revision: flags, subscribers and the envelope *)

Section Part002Runs.
Import Part002.




Lemma p2_latest_fire env ev s s1 tr :
  fire env ev s = (Val tt, s1, tr) ->
  carries_C (latestData s) -> carries_C (latestData s1).
Proof.
  intros H Hl. pose proof (p2_fire_cases env ev s s1 tr H) as Hc.
  destruct ev as [c|c message|c|].
  - now subst s1.
  - subst s1. destruct (isAlive s !! c); [|exact Hl].
    destruct (register_role message) as [role|].
    + now destruct (is_str "publisher" role).
    + destruct (publisher_flag s c); [|exact Hl].
      destruct (sample_of message) as [o|] eqn:E; [|exact Hl].
      intros _. cbn. destruct message as [raw|[]]; try discriminate.
      cbn in E. destruct (has_key "C" fields) eqn:Ek; [|discriminate].
      now injection E as <-.
  - subst s1. destruct (isAlive s !! c); [|exact Hl]. now destruct (_ && _).
  - destruct Hc as (_ & _ & -> & _). exact Hl.
Qed.

Lemma p2_latest_reachable s : reachable s -> carries_C (latestData s).
Proof.
  intros (evs & tr & H).
  assert (G : forall s0, steps s0 evs s tr ->
                         carries_C (latestData s0) -> carries_C (latestData s)).
  { clear H. intros s0 H. induction H as [s|s env ev s1 tr1 evs s2 tr2 Hen Hf _ IH];
      [auto|].
    intros Hl. apply IH. exact (p2_latest_fire env ev s s1 tr1 Hf Hl). }
  apply (G _ H). intros [=].
Qed.
End Part002Runs.

(** X13. In the handshake revision a subscriber is still subscribed after
    an event exactly when the event is not a close of it that takes the
    subscriber branch (a socket that holds the publisher slot with its flag up
    stays subscribed when it closes) and is not a sample relayed while its
    [readyState] is not [OPEN]. *)
Theorem p2_consumer_durability env (ev : Part002.event) (s s1 : Part002.server)
    (tr : list action) (c : conn) :
  Part002.reachable s ->
  Part002.fire env ev s = (Val tt, s1, tr) ->
  In c (Part002.subscribers s) ->
  (In c (Part002.subscribers s1) <-> ~ p2_evicts env s ev c).
Proof.
  intros Hr H Hc. pose proof (p2_wf_reachable s Hr) as Hwf.
  pose proof (p2_fire_cases env ev s s1 tr H) as Hcases.
  pose proof (p2_wf_sub s Hwf c Hc) as Hcon.
  unfold p2_evicts.
  destruct ev as [c'|c' message|c'|].
  - subst s1. split; [|auto]. intros _ [[[=] _]|(p & m & o & [=] & _)].
  - subst s1. destruct (Part002.isAlive s !! c') as [b|] eqn:Ea.
    + destruct (register_role message) as [role|] eqn:Er.
      * split.
        -- intros _ [[[=] _]|(p & m & o & [= <- <-] & _ & Hn & _)]. congruence.
        -- intros _. destruct (is_str "publisher" role); cbn; [exact Hc|].
           apply in_app_iff. now left.
      * destruct (Part002.publisher_flag s c') eqn:Ef.
        -- destruct (sample_of message) as [o|] eqn:E.
           ++ cbn. rewrite List.filter_In. split.
              ** intros [_ Ho] [[[=] _]|(p & m & o' & [= <- <-] & _ & _ & _ & _ & Hro)].
                 congruence.
              ** intros Hn. split; [exact Hc|].
                 destruct (ready_open env c) eqn:Ero; [reflexivity|].
                 exfalso. apply Hn. right. exists c', message, o.
                 repeat split; eauto.
           ++ split; [|auto].
              intros _ [[[=] _]|(p & m & o' & [= <- <-] & _ & _ & _ & Ho & _)].
              congruence.
        -- split; [|auto].
           intros _ [[[=] _]|(p & m & o' & [= <- <-] & _ & _ & Hp & _)]. congruence.
    + split; [|auto].
      intros _ [[[=] _]|(p & m & o' & [= <- <-] & [x Hx] & _)]. congruence.
  - subst s1. destruct (Nat.eq_dec c' c) as [->|Hne].
    + destruct Hcon as [x Hx]. rewrite Hx.
      destruct (Part002.publisher_flag s c && Part002.is_publisher s c) eqn:Eb; cbn.
      * split; [|auto]. intros _ [[_ [=]]|(p & m & o & [=] & _)].
      * rewrite filter_negb_eqb_In. split; [intros [_ []]; reflexivity|].
        intros Hn. exfalso. apply Hn. now left.
    + split.
      * intros _ [[[= ?] _]|(p & m & o & [=] & _)]. contradiction.
      * intros _. destruct (Part002.isAlive s !! c'); [|exact Hc].
        destruct (_ && _); cbn; [exact Hc|].
        apply filter_negb_eqb_In. split; [exact Hc|]. congruence.
  - destruct Hcases as (-> & _). split; [|auto].
    intros _ [[[=] _]|(p & m & o & [=] & _)].
Qed.


(** X19. In the handshake revision a [register] frame whose role is not
    the string [publisher] (such as [producer], or no role) appends the sender
    to the subscribers, also when it is there already, and leaves the slot and
    the flag; the acknowledgement is sent, and if that send throws the socket
    stays subscribed, gets no sample, and the error is logged as a parse
    failure. *)
Theorem p2_every_other_role_subscribes env (c : conn) (message : inbound)
    (role : option json) (s : Part002.server) :
  is_Some (Part002.isAlive s !! c) ->
  register_role message = Some role ->
  is_str "publisher" role = false ->
  let r := Part002.fire env (Part002.Message c message) s in
  result_of r = Val tt /\
  Part002.subscribers (state_of r) = Part002.subscribers s ++ [c] /\
  Part002.publisher (state_of r) = Part002.publisher s /\
  Part002.publisher_flag (state_of r) c = Part002.publisher_flag s c /\
  In (Send c (Part002.registered "subscriber")) (trace_of r) /\
  (send_throws env c (Part002.registered "subscriber") = true ->
   sends_of (trace_of r) = [(c, Part002.registered "subscriber")] /\
   In (Log ERROR "Failed to parse message as JSON") (trace_of r)).
Proof.
  intros [x Hx] Er Ep. cbn zeta. rewrite p2_fire_message, Hx.
  rewrite (p2_onMessage_register env c message role s Er). cbn zeta.
  rewrite (p2_handleRegistration_subscriber env c role s Ep). cbn zeta.
  destruct (send_throws env c (Part002.registered "subscriber"));
    [|destruct (nonempty (Part002.latestData s))];
    unfold result_of, state_of, trace_of; cbn;
    (split; [reflexivity|split; [reflexivity|split; [reflexivity|
     split; [reflexivity|split; [tauto|]]]]]); try discriminate.
  intros _. split; [reflexivity|tauto].
Qed.

(** X20. Every frame of a fan-out of the handshake revision is an object
    that has every field of the sample other than [type] with its value, and
    whose [type] is that of the sample if it has one, [data] otherwise. *)
Theorem p2_envelope_keeps_the_sample env (data : obj) (s : Part002.server)
    (c : conn) (f : frame) :
  In (Send c f) (trace_of (Part002.broadcastToSubscribers env data s)) ->
  exists e,
    f = FJson (JObj e) /\
    (forall k, k <> "type" -> lookup_key k e = lookup_key k data) /\
    lookup_key "type" e =
      Some (match lookup_key "type" data with Some v => v | None => JStr "data" end).
Proof.
  intros H. apply sends_of_In in H. rewrite p2_broadcast_sends in H.
  apply in_map_iff in H as (x & [= <- <-] & _).
  exists (spread_data data). split; [reflexivity|]. split.
  - intros k Hk. rewrite spread_data_lookup.
    destruct (String.eqb k "type") eqn:E; [|reflexivity].
    apply String.eqb_eq in E. contradiction.
  - now rewrite spread_data_lookup.
Qed.

(** X21. A frame that [JSON.parse] rejects changes nothing in any revision
    and its handler returns; [src/server.ts] and the logging revision only
    log, the handshake revision sends [pong] to the sender when the frame is
    the text [ping] and nothing otherwise. *)
Theorem unparseable_frames_are_dropped env (c : conn) (raw : string) :
  (forall (b : bool) (s : ServerTs.server),
     let r := ServerTs.onMessage env c b (Unparseable raw) s in
     result_of r = Val tt /\ state_of r = s /\ Forall is_log (trace_of r)) /\
  (forall (b : bool) (s : ServerTs.server),
     let r := Part000.onMessage env c b (Unparseable raw) s in
     result_of r = Val tt /\ state_of r = s /\ Forall is_log (trace_of r)) /\
  (forall s : Part002.server,
     let r := Part002.onMessage env c (Unparseable raw) s in
     result_of r = Val tt /\ state_of r = s /\
     sends_of (trace_of r) = if String.eqb raw "ping" then [(c, FText "pong")] else []).
Proof.
  split; [|split].
  - intros b s. cbn zeta. unfold ServerTs.onMessage. unfold_monad. cbn.
    repeat split. repeat constructor.
  - intros b s. cbn zeta. unfold Part000.onMessage. unfold_monad. cbn.
    repeat split. repeat constructor.
  - intros s. cbn zeta. unfold Part002.onMessage. unfold_monad. cbn.
    destruct (String.eqb raw "ping"); cbn; [|auto].
    destruct (send_throws env c (FText "pong")); cbn; auto.
Qed.

(** X22. In every reachable state of [src/server.ts] and of the handshake
    revision [latestData] is empty or has the [C] field, and once non-empty it
    stays non-empty along every run: no handler clears it, not even the close
    of the publisher. *)
Theorem replay_buffer_outlives_the_producer :
  (forall s, ServerTs.reachable s ->
     (nonempty (ServerTs.latestData s) = true ->
      has_key "C" (ServerTs.latestData s) = true) /\
     forall evs s1 tr, ServerTs.steps s evs s1 tr ->
       nonempty (ServerTs.latestData s) = true ->
       nonempty (ServerTs.latestData s1) = true) /\
  (forall s, Part002.reachable s ->
     (nonempty (Part002.latestData s) = true ->
      has_key "C" (Part002.latestData s) = true) /\
     forall evs s1 tr, Part002.steps s evs s1 tr ->
       nonempty (Part002.latestData s) = true ->
       nonempty (Part002.latestData s1) = true).
Proof.
  split; intros s Hr.
  - split; [exact (ts_latest_reachable s Hr)|].
    intros evs s1 tr Hsteps Hn.
    destruct (ts_steps_latest s evs s1 tr Hsteps) as [Hsame Hset].
    destruct (sets_latest_dec tr) as [Hd|Hd]; [now rewrite (Hsame Hd)|exact (Hset Hd)].
  - split; [exact (p2_latest_reachable s Hr)|].
    intros evs s1 tr Hsteps Hn.
    destruct (p2_steps_latest s evs s1 tr Hsteps) as [Hsame Hset].
    destruct (sets_latest_dec tr) as [Hd|Hd]; [now rewrite (Hsame Hd)|exact (Hset Hd)].
Qed.

(** ** Sweeps, fan-out order and the handlers that throw *)

Section Sweeps.

Lemma ts_sweep_pings env l : List.NoDup l -> forall s c,
  In (Ping c) (trace_of (forEach l (ServerTs.probe env) s)) <->
  In c l /\ alive_flag (ServerTs.isAlive s) c = true.
Proof.
  induction 1 as [|x l Hx Hnd IH]; intros s c.
  - cbn. tauto.
  - rewrite forEach_cons, ts_probe_spec.
    destruct (alive_flag (ServerTs.isAlive s) x) eqn:Ex; unfold trace_of at 1;
      cbn [snd]; rewrite in_app_iff, IH; cbn [ServerTs.isAlive].
    + destruct (Nat.eq_dec x c) as [->|Hne].
      * split; [intros _; split; [now left|exact Ex]|intros _; left].
        destruct (ping_throws env c); now left.
      * rewrite alive_flag_insert_ne by exact Hne. split.
        -- intros [H|[H1 H2]]; [|split; [now right|exact H2]].
           destruct (ping_throws env x); cbn in H;
             repeat (destruct H as [[=]|H]); try contradiction; destruct H.
        -- intros [[H|H] H2]; [contradiction|right; now split].
    + split.
      * intros [[[=]|[]]|[H1 H2]]. split; [now right|exact H2].
      * intros [[<-|H] H2]; [congruence|right; now split].
Qed.

Lemma p2_sweep_pings env l : List.NoDup l -> forall s c,
  In (Send c (FText "ping")) (trace_of (forEach l (Part002.probe env) s)) <->
  In c l /\ alive_flag (Part002.isAlive s) c = true.
Proof.
  induction 1 as [|x l Hx Hnd IH]; intros s c.
  - cbn. tauto.
  - rewrite forEach_cons, p2_probe_spec.
    destruct (alive_flag (Part002.isAlive s) x) eqn:Ex; unfold trace_of at 1;
      cbn [snd]; rewrite in_app_iff, IH; cbn [Part002.isAlive].
    + destruct (Nat.eq_dec x c) as [->|Hne].
      * split; [intros _; split; [now left|exact Ex]|intros _; left].
        destruct (send_throws env c _); now left.
      * rewrite alive_flag_insert_ne by exact Hne. split.
        -- intros [H|[H1 H2]]; [|split; [now right|exact H2]].
           destruct (send_throws env x _); cbn in H;
             repeat (destruct H as [[=]|H]); try contradiction; destruct H.
        -- intros [[H|H] H2]; [contradiction|right; now split].
    + split.
      * intros [[[=]|[[=]|[]]]|[H1 H2]]. split; [now right|exact H2].
      * intros [[<-|H] H2]; [congruence|right; now split].
Qed.
End Sweeps.

(** X5. In [src/server.ts] a handler throws exactly when a socket without
    the publisher header connects, [latestData] is non-empty and the send of
    the latest sample to it throws: the message, pong and close handlers and
    the sweep always return. *)
Theorem ts_handlers_throw_only_on_initial_send env (ev : ServerTs.event)
    (s : ServerTs.server) :
  result_of (ServerTs.fire env ev s) = Throw <->
  exists c header,
    ev = ServerTs.Connection c header /\
    is_publisher_header header = false /\
    nonempty (ServerTs.latestData s) = true /\
    send_throws env c (FJson (JObj (ServerTs.latestData s))) = true.
Proof. apply ts_fire_throws_iff. Qed.

(** X7. In the handshake revision a handler throws exactly when the
    greeting [connected] sent to a new socket throws: the message and close
    handlers and the sweep always return. *)
Theorem p2_handlers_throw_only_on_greeting env (ev : Part002.event)
    (s : Part002.server) :
  result_of (Part002.fire env ev s) = Throw <->
  exists c, ev = Part002.Connection c /\ send_throws env c (FText "connected") = true.
Proof. apply p2_fire_throws_iff. Qed.

(** X6. In the logging revision no handler throws, whatever the event, the
    state and the transport: every call that can throw is under
    [try]/[catch]. *)
Theorem p0_handlers_never_throw env (ev : ServerTs.event) (s : ServerTs.server) :
  result_of (Part000.fire env ev s) = Val tt.
Proof. apply (p0_fire_simulates env ev s). Qed.

(** X8. On every event the logging revision performs, between its log
    lines, the actions of [src/server.ts], and it leaves the state of
    [src/server.ts]; where [src/server.ts] throws (the first sample sent to a
    new subscriber) it leaves that state with the listeners attached. *)
Theorem p0_performs_the_actions_of_server_ts env (ev : ServerTs.event)
    (s : ServerTs.server) :
  let r := ServerTs.fire env ev s in
  let r' := Part000.fire env ev s in
  erase_logs (trace_of r') = erase_logs (trace_of r) /\
  state_of r' =
    match ev, result_of r with
    | ServerTs.Connection c _, Throw => state_of (ServerTs.attach c false (state_of r))
    | _, _ => state_of r
    end.
Proof. exact (proj2 (p0_fire_simulates env ev s)). Qed.

(** X11. A fan-out sends the sample once per entry of the subscriber
    array, in the order of the array, whichever sends throw; this holds in the
    three revisions (the handshake revision sends the [data] envelope). *)
Theorem fanout_serves_subscribers_in_order env (data : obj) :
  (forall s : ServerTs.server,
     sends_of (trace_of (ServerTs.broadcastToSubscribers env data s)) =
       map (fun c => (c, FJson (JObj data))) (ServerTs.subscribers s)) /\
  (forall s : ServerTs.server,
     sends_of (trace_of (Part000.broadcastToSubscribers env data s)) =
       map (fun c => (c, FJson (JObj data))) (ServerTs.subscribers s)) /\
  (forall s : Part002.server,
     sends_of (trace_of (Part002.broadcastToSubscribers env data s)) =
       map (fun c => (c, FJson (JObj (spread_data data)))) (Part002.subscribers s)).
Proof.
  split; [|split]; intros s.
  - apply ts_broadcast_sends.
  - destruct (p0_broadcast_effects env data s) as (_ & _ & Ht).
    rewrite <- sends_of_erase_logs, Ht, sends_of_erase_logs.
    apply ts_broadcast_sends.
  - apply p2_broadcast_sends.
Qed.

(** X23. A sweep probes exactly the clients whose liveness flag is up
    ([ping()] in [src/server.ts], the text [ping] in the handshake revision),
    and leaves the flag of every client down. *)
Theorem sweep_probes_the_clients_that_answered :
  (forall env (s : ServerTs.server) (c : conn),
     ServerTs.reachable s ->
     let r := ServerTs.fire env ServerTs.Tick s in
     (In (Ping c) (trace_of r) <->
      In c (ServerTs.clients s) /\ alive_flag (ServerTs.isAlive s) c = true) /\
     (In c (ServerTs.clients s) -> alive_flag (ServerTs.isAlive (state_of r)) c = false)) /\
  (forall env (s : Part002.server) (c : conn),
     Part002.reachable s ->
     let r := Part002.fire env Part002.Tick s in
     (In (Send c (FText "ping")) (trace_of r) <->
      In c (Part002.clients s) /\ alive_flag (Part002.isAlive s) c = true) /\
     (In c (Part002.clients s) -> alive_flag (Part002.isAlive (state_of r)) c = false)).
Proof.
  split; intros env s c Hr; cbn zeta.
  - rewrite ts_fire_tick. split.
    + apply ts_sweep_pings, (ts_wf_clients_nodup s (ts_wf_reachable s Hr)).
    + intros Hc. apply ts_sweep_clears. now left.
  - rewrite p2_fire_tick. split.
    + apply p2_sweep_pings, (p2_wf_clients_nodup s (p2_wf_reachable s Hr)).
    + intros Hc. apply p2_sweep_clears. now left.
Qed.

(** ** The handshake revision: a socket that never registers *)

Lemma ts_steps_of_runs env evs : forall s,
  ts_runs env s evs = true ->
  ServerTs.steps s evs (state_of (forEach evs (ServerTs.fire env) s))
    (trace_of (forEach evs (ServerTs.fire env) s)).
Proof.
  induction evs as [|ev evs IH]; intros s Hrun; [constructor|].
  cbn [ts_runs] in Hrun. apply andb_prop in Hrun as [Hen Hrun].
  rewrite forEach_cons.
  destruct (ServerTs.fire env ev s) as [[[[]|] s1] tr1] eqn:Hf; [|discriminate].
  exact (ServerTs.steps_cons s env ev s1 tr1 evs _ _ (ts_enabledb_enabled s ev Hen) Hf
           (IH s1 Hrun)).
Qed.

Lemma p2_enabledb_enabled s ev : p2_enabledb s ev = true -> Part002.enabled s ev.
Proof.
  destruct ev as [c| | |]; cbn; try exact (fun _ => I).
  now destruct (Part002.isAlive s !! c).
Qed.

Lemma p2_steps_of_runs env evs : forall s,
  p2_runs env s evs = true ->
  Part002.steps s evs (state_of (forEach evs (Part002.fire env) s))
    (trace_of (forEach evs (Part002.fire env) s)).
Proof.
  induction evs as [|ev evs IH]; intros s Hrun; [constructor|].
  cbn [p2_runs] in Hrun. apply andb_prop in Hrun as [Hen Hrun].
  rewrite forEach_cons.
  destruct (Part002.fire env ev s) as [[[[]|] s1] tr1] eqn:Hf; [|discriminate].
  exact (Part002.steps_cons s env ev s1 tr1 evs _ _ (p2_enabledb_enabled s ev Hen) Hf
           (IH s1 Hrun)).
Qed.

Lemma is_pong_reply_send (c c' : conn) (f : frame) :
  is_pong_reply c (Send c' f) -> c' = c.
Proof.
  destruct f as [s|j]; [|intros []]. cbn.
  repeat (match goal with
          | |- context [match ?x with _ => _ end] => is_var x; destruct x
          end); tauto.
Qed.

Section Part002Sends.
Import Part002.

Lemma p2_sweep_sends_pings env l : forall s c f,
  In (Send c f) (trace_of (forEach l (probe env) s)) -> f = FText "ping".
Proof.
  induction l as [|x l IH]; intros s c f; [intros []|].
  rewrite forEach_cons, p2_probe_spec.
  destruct (alive_flag (isAlive s) x); unfold trace_of at 1; cbn [snd];
    rewrite in_app_iff; (intros [H|H]; [|exact (IH _ _ _ H)]).
  - destruct (send_throws env x _); cbn in H;
      repeat (destruct H as [[=]|H]); subst; try reflexivity; destruct H.
  - repeat (destruct H as [[=]|H]). destruct H.
Qed.

Lemma p2_unregistered_sends env ev s c f :
  ~ p2_has_role s c -> p2_sends_nothing c ev ->
  In (Send c f) (trace_of (fire env ev s)) ->
  f = FText "connected" \/ f = FText "ping".
Proof.
  intros Hrole Hev. destruct ev as [c'|c' message|c'|].
  - rewrite p2_fire_connection, p2_onConnection_spec. unfold trace_of. cbn.
    intros [[=]|[[= <- <-]|[]]]. now left.
  - cbn in Hev. rewrite p2_fire_message.
    destruct (isAlive s !! c') as [b|]; [|intros []].
    destruct (register_role message) as [role|] eqn:Er.
    + rewrite (p2_onMessage_register env c' message role s Er). cbn zeta.
      unfold trace_of at 1. cbn [snd]. intros [[=]|H].
      apply in_app_iff in H as [H|H].
      * exfalso. destruct (is_str "publisher" role) eqn:Ep.
        -- rewrite (p2_handleRegistration_publisher env c' role s Ep) in H.
           unfold trace_of in H. cbn [snd] in H. apply in_app_iff in H as [H|H].
           ++ destruct (publisher s) as [old|] eqn:Eo; [|destruct H].
              destruct H as [[=]|[[= <- <-]|H]].
              ** apply Hrole. now left.
              ** destruct (send_throws env old _); cbn in H;
                   repeat (destruct H as [[=]|H]); destruct H.
           ++ destruct H as [[=]|[[=]|[[= -> _]|[]]]]. now apply Hev.
        -- rewrite (p2_handleRegistration_subscriber env c' role s Ep) in H.
           cbn zeta in H.
           destruct (send_throws env c' (registered "subscriber"));
             [|destruct (nonempty (latestData s))]; unfold trace_of in H; cbn in H;
             repeat (destruct H as [[=]|H]); subst; try (now apply Hev); destruct H.
      * destruct (result_of _); cbn in H; repeat (destruct H as [[=]|H]); destruct H.
    + destruct (publisher_flag s c') eqn:Ef.
      * destruct (sample_of message) as [o|] eqn:E.
        -- rewrite (p2_onMessage_sample env c' message o s Er E Ef). cbn zeta.
           unfold trace_of at 1. cbn [snd]. intros [[=]|[[=]|[[=]|H]]].
           exfalso. apply Hrole. right.
           destruct (p2_broadcast_spec env o
                       (mkServer (subscribers s) (publisher s) o (clients s)
                          (isAlive s) (isPublisher s))) as (_ & _ & Hs & Hall).
           rewrite List.Forall_forall in Hall. pose proof (Hall _ H) as Hf.
           cbn in Hf. subst f. exact (proj1 (Hs c) H).
        -- destruct (p2_onMessage_other env c' message s Er (or_intror E))
             as (_ & _ & Hp & _).
           intros H. rewrite List.Forall_forall in Hp. specialize (Hp _ H).
           exfalso. apply Hev. symmetry. exact (is_pong_reply_send _ _ _ Hp).
      * destruct (p2_onMessage_other env c' message s Er (or_introl Ef))
          as (_ & _ & Hp & _).
        intros H. rewrite List.Forall_forall in Hp. specialize (Hp _ H).
        exfalso. apply Hev. symmetry. exact (is_pong_reply_send _ _ _ Hp).
  - rewrite p2_fire_closed.
    destruct (isAlive s !! c') as [b|]; [|intros []].
    rewrite p2_onClose_spec. destruct (_ && _); cbn;
      intros H; repeat (destruct H as [[=]|H]); destruct H.
  - rewrite p2_fire_tick. intros H. right. exact (p2_sweep_sends_pings env _ _ _ _ H).
Qed.

Lemma p2_unregistered_fire env ev s s1 tr c :
  fire env ev s = (Val tt, s1, tr) -> p2_sends_nothing c ev ->
  ~ p2_has_role s c -> ~ p2_has_role s1 c.
Proof.
  intros Hf Hev Hrole [Hp|Hs];
    destruct (p2_fire_roles env ev s s1 tr Hf)
      as [[Hpub Hsub]|(c' & message & role & -> & _ & Hreg)].
  - apply Hrole. left. now apply Hpub.
  - cbn in Hev. destruct Hreg as [[Hp' _]|[Hp' _]].
    + rewrite Hp' in Hp. injection Hp as ->. now apply Hev.
    + apply Hrole. left. now rewrite <- Hp'.
  - apply Hrole. right. now apply Hsub.
  - cbn in Hev. destruct Hreg as [[_ Hs']|[_ Hs']].
    + apply Hrole. right. now rewrite <- Hs'.
    + rewrite Hs' in Hs. apply in_app_iff in Hs as [Hs|[->|[]]].
      * apply Hrole. now right.
      * now apply Hev.
Qed.

Lemma p2_unregistered_steps s evs s1 tr c :
  steps s evs s1 tr -> Forall (p2_sends_nothing c) evs -> ~ p2_has_role s c ->
  ~ p2_has_role s1 c /\
  forall f, In (Send c f) tr -> f = FText "connected" \/ f = FText "ping".
Proof.
  induction 1 as [s|s env ev s1 tr1 evs s2 tr2 Hen Hf _ IH]; intros Hall Hrole.
  - split; [exact Hrole|intros f []].
  - apply List.Forall_cons_iff in Hall as [Hev Hall].
    destruct (IH Hall (p2_unregistered_fire env ev s s1 tr1 c Hf Hev Hrole))
      as [Hrole2 Hsends].
    split; [exact Hrole2|]. intros f H. apply in_app_iff in H as [H|H].
    + apply (p2_unregistered_sends env ev s c f Hrole Hev). now rewrite Hf.
    + exact (Hsends f H).
Qed.
End Part002Sends.

(** X24. In the handshake revision a socket that sends no frame is never
    subscribed nor installed as the publisher, and the server sends it
    nothing but the greeting [connected] and the probes [ping]; the dashboard
    of [static/ws-client.js], which never sends, is such a socket. *)
Theorem p2_socket_that_never_registers_gets_no_sample (evs : list Part002.event)
    (s : Part002.server) (tr : list action) (c : conn) :
  Part002.steps Part002.init evs s tr ->
  Forall (p2_sends_nothing c) evs ->
  ~ In c (Part002.subscribers s) /\
  Part002.publisher s <> Some c /\
  forall f, In (Send c f) tr -> f = FText "connected" \/ f = FText "ping".
Proof.
  intros Hsteps Hall.
  destruct (p2_unregistered_steps _ _ _ _ c Hsteps Hall) as [Hrole Hsends].
  - intros [[=]|[]].
  - split; [intros H; apply Hrole; now right|].
    split; [intros H; apply Hrole; now left|exact Hsends].
Qed.

(** ** The dashboard *)

Lemma window_short {A} (l : list A) :
  length l <= WsClient.MAX_DATA_POINTS -> window l = l.
Proof.
  unfold window, WsClient.MAX_DATA_POINTS. intros H.
  replace (length l - 50) with 0 by lia. reflexivity.
Qed.

Lemma window_length {A} (l : list A) :
  length (window l) = Nat.min (length l) WsClient.MAX_DATA_POINTS.
Proof. unfold window, WsClient.MAX_DATA_POINTS. rewrite List.length_skipn. lia. Qed.

Lemma window_app {A} (a b : list A) : window (window a ++ b) = window (a ++ b).
Proof.
  unfold window, WsClient.MAX_DATA_POINTS.
  rewrite !List.length_app, List.length_skipn.
  destruct (Nat.le_gt_cases (length a) 50) as [H|H].
  - replace (length a - 50) with 0 by lia. now rewrite Nat.sub_0_r.
  - replace (length a - (length a - 50) + length b - 50) with (length b) by lia.
    replace (length a + length b - 50) with (length b + (length a - 50)) by lia.
    rewrite <- List.skipn_skipn. f_equal.
    rewrite List.skipn_app.
    replace (length a - 50 - length a) with 0 by lia.
    now rewrite List.skipn_O.
Qed.

Lemma window_push {A} (l : list A) (x : A) :
  length l <= WsClient.MAX_DATA_POINTS ->
  (if Nat.ltb WsClient.MAX_DATA_POINTS (length (l ++ [x]))
   then tl (l ++ [x]) else l ++ [x]) = window (l ++ [x]).
Proof.
  unfold window, WsClient.MAX_DATA_POINTS. intros H.
  rewrite List.length_app. cbn [length].
  destruct (Nat.ltb_spec 50 (length l + 1)) as [Hlt|Hge].
  - replace (length l + 1 - 50) with 1 by lia. reflexivity.
  - replace (length l + 1 - 50) with 0 by lia. reflexivity.
Qed.

Section Dashboard.
Import WsClient.
Variable env : browser.

Lemma ws_updateChart_spec timeStr reading p :
  updateChart env timeStr reading p =
    (if plotly_throws env then Throw else Val tt,
     let t := time (chart p) ++ [timeStr] in
     let c := conductivity (chart p) ++ [reading] in
     mkPage (if Nat.ltb MAX_DATA_POINTS (length t)
             then mkChart (tl t) (tl c) else mkChart t c)
       (conductivity_text p) (conductivityStatus_text p)
       (conductivityStatus_className p) (lastUpdate p),
     []).
Proof.
  unfold updateChart, set_chart, Plotly_update. unfold_monad.
  cbn -[Nat.ltb length app MAX_DATA_POINTS].
  destruct (Nat.ltb MAX_DATA_POINTS (length (time (chart p) ++ [timeStr])));
    cbn; destruct (plotly_throws env); reflexivity.
Qed.

Lemma p1_updateChart_spec timeStr reading p :
  let r := Part001.updateChart env timeStr reading p in
  result_of r = Val tt /\
  state_of r = state_of (updateChart env timeStr reading p) /\
  Forall is_log (trace_of r).
Proof.
  cbn zeta. rewrite ws_updateChart_spec.
  unfold Part001.updateChart, set_chart, Plotly_update. unfold_monad.
  cbn -[Nat.ltb length app MAX_DATA_POINTS].
  destruct (Nat.ltb MAX_DATA_POINTS (length (time (chart p) ++ [timeStr])));
    cbn; destruct (plotly_throws env); cbn;
    (split; [reflexivity|split; [reflexivity|repeat constructor]]).
Qed.

Lemma ws_updateInterface_reading now now' o reading p :
  lookup_key "C" o = Some (JNum reading) ->
  updateInterface env now now' (JObj o) p =
    (if plotly_throws env then Throw else Val tt, shows now now' reading p, []).
Proof.
  intros Ec. unfold updateInterface, js_get, toFixed.
  unfold bind at 1, ret. rewrite Ec. unfold bind at 1. unfold bind at 1, modify.
  unfold bind at 1. unfold bind at 1. rewrite ws_updateChart_spec.
  cbn -[Nat.ltb length app MAX_DATA_POINTS evaluateConductivity].
  unfold shows. destruct (plotly_throws env); reflexivity.
Qed.

Lemma ws_onmessage_reading now now' message reading p :
  reading_of message = Some reading ->
  onmessage env now now' message p =
    (if plotly_throws env then Throw else Val tt,
     shows now now' reading p, [Log INFO "Datos recibidos:"]).
Proof.
  intros H. destruct message as [raw|[| | | | |o]]; try discriminate.
  cbn in H. destruct (lookup_key "C" o) as [[| |q| | |]|] eqn:Ec; try discriminate.
  injection H as ->.
  unfold onmessage, JSON_parse, js_get. unfold bind at 1, ret.
  unfold bind at 1, log, emit. unfold bind at 1. rewrite Ec.
  rewrite (ws_updateInterface_reading now now' o reading p Ec).
  destruct (plotly_throws env); reflexivity.
Qed.

Lemma ws_onmessage_other now now' message p :
  reading_of message = None ->
  state_of (onmessage env now now' message p) = p /\
  Forall is_log (trace_of (onmessage env now now' message p)).
Proof.
  intros H. unfold onmessage, updateInterface, JSON_parse, js_get, toFixed.
  destruct message as [raw|[| | | | |o]]; unfold_monad; cbn;
    try (split; [reflexivity|repeat constructor]).
  cbn in H. destruct (lookup_key "C" o) as [[| |q| | |]|] eqn:Ec; try discriminate;
    cbn; rewrite ?Ec; cbn; (split; [reflexivity|repeat constructor]).
Qed.

Lemma p1_onmessage_reading now now' message reading p :
  reading_of message = Some reading ->
  let r := Part001.onmessage env now now' message p in
  result_of r = Val tt /\ state_of r = shows now now' reading p /\
  Forall is_log (trace_of r).
Proof.
  intros H. destruct message as [raw|[| | | | |o]]; try discriminate.
  cbn in H. destruct (lookup_key "C" o) as [[| |q| | |]|] eqn:Ec; try discriminate.
  injection H as ->. cbn zeta.
  unfold Part001.onmessage, Part001.updateInterface, Part001.evaluateConductivity,
    Part001.updateChart, set_chart, Plotly_update, JSON_parse, js_get, toFixed.
  unfold_monad. cbn -[Nat.ltb length app MAX_DATA_POINTS evaluateConductivity].
  rewrite Ec. cbn -[Nat.ltb length app MAX_DATA_POINTS evaluateConductivity].
  unfold shows.
  destruct (Nat.ltb MAX_DATA_POINTS (length (time (chart p) ++ [now'])));
    cbn -[evaluateConductivity]; destruct (plotly_throws env);
    cbn -[evaluateConductivity];
    (split; [reflexivity|split; [reflexivity|repeat constructor]]).
Qed.

Lemma p1_onmessage_other now now' message p :
  reading_of message = None ->
  let r := Part001.onmessage env now now' message p in
  result_of r = Val tt /\ state_of r = p /\ Forall is_log (trace_of r).
Proof.
  intros H. cbn zeta.
  unfold Part001.onmessage, Part001.updateInterface, Part001.evaluateConductivity,
    JSON_parse, js_get, toFixed.
  destruct message as [raw|[| | | | |o]]; unfold_monad; cbn;
    try (split; [reflexivity|split; [reflexivity|repeat constructor]]).
  cbn in H. destruct (lookup_key "C" o) as [[| |q| | |]|] eqn:Ec; try discriminate;
    cbn; rewrite ?Ec; cbn;
    (split; [reflexivity|split; [reflexivity|repeat constructor]]).
Qed.
End Dashboard.

Section Charts.
Import WsClient.

Lemma chart_after_cons env t x (l : list (string * Q)) p :
  chart_after env ((t, x) :: l) p =
    chart_after env l (state_of (updateChart env t x p)).
Proof.
  unfold chart_after. rewrite forEach_cons. cbn [fst snd].
  destruct (p1_updateChart_spec env t x p) as (Hr & Hs & _).
  destruct (Part001.updateChart env t x p) as [[r p1] t1].
  unfold result_of in Hr. unfold state_of at 1 in Hs. cbn [fst snd] in Hr, Hs.
  subst r p1. reflexivity.
Qed.

Lemma chart_after_window env (l : list (string * Q)) : forall p,
  length (time (chart p)) = length (conductivity (chart p)) ->
  length (conductivity (chart p)) <= MAX_DATA_POINTS ->
  conductivity (chart (chart_after env l p)) =
    window (conductivity (chart p) ++ map snd l) /\
  time (chart (chart_after env l p)) = window (time (chart p) ++ map fst l).
Proof.
  induction l as [|[t x] l IH]; intros p Heq Hle.
  - unfold chart_after. cbn. rewrite !app_nil_r, !window_short; [auto|lia|lia].
  - rewrite chart_after_cons.
    set (p1 := state_of (updateChart env t x p)).
    assert (Ht : time (chart p1) = window (time (chart p) ++ [t])).
    { subst p1. rewrite ws_updateChart_spec. unfold state_of. cbn [fst snd chart].
      cbn zeta. rewrite <- window_push by lia.
      destruct (Nat.ltb MAX_DATA_POINTS (length (time (chart p) ++ [t])));
        reflexivity. }
    assert (Hc : conductivity (chart p1) = window (conductivity (chart p) ++ [x])).
    { subst p1. rewrite ws_updateChart_spec. unfold state_of. cbn [fst snd chart].
      cbn zeta. rewrite <- window_push by lia.
      rewrite !List.length_app, Heq. cbn [length].
      destruct (Nat.ltb MAX_DATA_POINTS (length (conductivity (chart p)) + 1));
        reflexivity. }
    destruct (IH p1) as [IHc IHt].
    + rewrite Ht, Hc, !window_length, !List.length_app, Heq. reflexivity.
    + rewrite Hc, window_length. lia.
    + rewrite IHc, IHt, Hc, Ht, !window_app, <- !app_assoc. auto.
Qed.
Lemma ws_chart_after env (l : list (string * Q)) :
  plotly_throws env = false -> forall p,
  state_of (forEach l (fun x => updateChart env (fst x) (snd x)) p) =
    chart_after env l p.
Proof.
  intros Hok. induction l as [|[t x] l IH]; intros p; [reflexivity|].
  rewrite chart_after_cons, forEach_cons. cbn [fst snd].
  rewrite ws_updateChart_spec, Hok. cbn zeta. unfold state_of at 1. cbn [fst snd].
  rewrite IH. reflexivity.
Qed.
End Charts.

(** X25. Starting from a chart whose two arrays have the same length, at
    most [MAX_DATA_POINTS], any sequence of [updateChart] calls leaves in each
    array the last [MAX_DATA_POINTS] elements of what was pushed, in order:
    the arrays keep the same length and never exceed the bound. *)
Theorem chart_keeps_the_last_readings env (l : list (string * Q)) (p : WsClient.page) :
  length (WsClient.time (WsClient.chart p)) =
    length (WsClient.conductivity (WsClient.chart p)) ->
  length (WsClient.conductivity (WsClient.chart p)) <= WsClient.MAX_DATA_POINTS ->
  let c := WsClient.chart (chart_after env l p) in
  WsClient.conductivity c =
    window (WsClient.conductivity (WsClient.chart p) ++ map snd l) /\
  WsClient.time c = window (WsClient.time (WsClient.chart p) ++ map fst l) /\
  length (WsClient.conductivity c) <= WsClient.MAX_DATA_POINTS /\
  length (WsClient.time c) = length (WsClient.conductivity c) /\
  (WsClient.plotly_throws env = false ->
   state_of (forEach l (fun x => WsClient.updateChart env (fst x) (snd x)) p) =
     chart_after env l p).
Proof.
  intros Heq Hle. cbn zeta.
  destruct (chart_after_window env l p Heq Hle) as [Hc Ht].
  rewrite Hc, Ht, !window_length, !List.length_app, !List.length_map, Heq.
  split; [reflexivity|]. split; [reflexivity|]. split; [lia|]. split; [lia|].
  intros Hok. now apply ws_chart_after.
Qed.

(** X26. [evaluateConductivity] is monotone: a higher conductivity never
    gets a milder evaluation; the class is [alert-danger] exactly above
    [warning.max], and every value above it gets the same evaluation, so the
    [danger] threshold is never consulted. *)
Theorem evaluateConductivity_is_monotone :
  (forall v w : Q, (v <= w)%Q ->
     severity (WsClient.evaluateConductivity v)
       <= severity (WsClient.evaluateConductivity w)) /\
  (forall v : Q,
     WsClient.class (WsClient.evaluateConductivity v) = "alert-danger" <-> (1200 < v)%Q) /\
  (forall v w : Q, (1200 < v)%Q -> (1200 < w)%Q ->
     WsClient.evaluateConductivity v = WsClient.evaluateConductivity w).
Proof.
  unfold WsClient.evaluateConductivity, WsClient.CONDUCTIVITY_THRESHOLDS.
  cbn [WsClient.ideal WsClient.good WsClient.acceptable WsClient.warning].
  assert (Hb : forall x y : Q, (Qle_bool x y = true -> (x <= y)%Q) /\
                               (Qle_bool x y = false -> (y < x)%Q)).
  { intros x y. split; intros H.
    - now apply Qle_bool_iff.
    - apply Qnot_le_lt. intros Hle. apply Qle_bool_iff in Hle. congruence. }
  split; [|split].
  - intros v w Hvw.
    destruct (Qle_bool v 300) eqn:V1; [cbn; lia|].
    destruct (Qle_bool w 300) eqn:W1;
      [apply Hb in V1; apply Hb in W1; lra|].
    destruct (Qle_bool v 600) eqn:V2;
      [destruct (Qle_bool w 600), (Qle_bool w 900), (Qle_bool w 1200); cbn; lia|].
    destruct (Qle_bool w 600) eqn:W2;
      [apply Hb in V2; apply Hb in W2; lra|].
    destruct (Qle_bool v 900) eqn:V3;
      [destruct (Qle_bool w 900), (Qle_bool w 1200); cbn; lia|].
    destruct (Qle_bool w 900) eqn:W3;
      [apply Hb in V3; apply Hb in W3; lra|].
    destruct (Qle_bool v 1200) eqn:V4;
      [destruct (Qle_bool w 1200); cbn; lia|].
    destruct (Qle_bool w 1200) eqn:W4;
      [apply Hb in V4; apply Hb in W4; lra|].
    cbn. lia.
  - intros v.
    destruct (Qle_bool v 300) eqn:V1;
      [split; [discriminate|intros H; apply Hb in V1; lra]|].
    destruct (Qle_bool v 600) eqn:V2;
      [split; [discriminate|intros H; apply Hb in V2; lra]|].
    destruct (Qle_bool v 900) eqn:V3;
      [split; [discriminate|intros H; apply Hb in V3; lra]|].
    destruct (Qle_bool v 1200) eqn:V4;
      [split; [discriminate|intros H; apply Hb in V4; lra]|].
    split; [intros _; now apply Hb in V4|reflexivity].
  - intros v w Hv Hw.
    assert (G : forall x : Q, (1200 < x)%Q ->
              Qle_bool x 300 = false /\ Qle_bool x 600 = false /\
              Qle_bool x 900 = false /\ Qle_bool x 1200 = false).
    { intros x Hx. repeat split;
        match goal with |- Qle_bool ?a ?b = false =>
          destruct (Qle_bool a b) eqn:E; [apply Hb in E; lra|reflexivity] end. }
    destruct (G v Hv) as (-> & -> & -> & ->).
    destruct (G w Hw) as (-> & -> & -> & ->). reflexivity.
Qed.

(** X27. The message handler of [static/ws-client.js] changes the page
    only for a frame that parses to an object whose [C] is a number, and then
    shows that reading; it throws on a frame that is not JSON, on [null], on a
    [C] that is not a number, and when [Plotly.update] throws. *)
Theorem ws_dashboard_shows_numeric_readings env (now now' : string)
    (message : inbound) (p : WsClient.page) :
  let r := WsClient.onmessage env now now' message p in
  state_of r =
    match reading_of message with
    | Some reading => shows now now' reading p
    | None => p
    end /\
  result_of r =
    match message with
    | Unparseable _ | Parsed JNull => Throw
    | Parsed (JObj o) =>
        match lookup_key "C" o with
        | None => Val tt
        | Some (JNum _) => if WsClient.plotly_throws env then Throw else Val tt
        | Some _ => Throw
        end
    | Parsed _ => Val tt
    end.
Proof.
  cbn zeta. split.
  - destruct (reading_of message) as [q|] eqn:E.
    + now rewrite (ws_onmessage_reading env now now' message q p E).
    + apply (ws_onmessage_other env now now' message p E).
  - destruct message as [raw|[| | | | |o]]; try reflexivity.
    destruct (lookup_key "C" o) as [[| |q| | |]|] eqn:Ec.
    1,2,4,5,6,7:
      unfold WsClient.onmessage, WsClient.updateInterface, JSON_parse, js_get,
        WsClient.toFixed; unfold_monad; cbn; rewrite ?Ec; cbn; rewrite ?Ec;
        reflexivity.
    rewrite (ws_onmessage_reading env now now' (Parsed (JObj o)) q p);
      [reflexivity|]. cbn. now rewrite Ec.
Qed.

(** X28. The message handler of the logging dashboard never throws and
    leaves the page as that of [static/ws-client.js] does. *)
Theorem p1_dashboard_never_throws env (now now' : string) (message : inbound)
    (p : WsClient.page) :
  let r := Part001.onmessage env now now' message p in
  result_of r = Val tt /\
  state_of r = state_of (WsClient.onmessage env now now' message p) /\
  Forall is_log (trace_of r).
Proof.
  cbn zeta. destruct (reading_of message) as [q|] eqn:E.
  - destruct (p1_onmessage_reading env now now' message q p E) as (Hr & Hs & Ht).
    rewrite (ws_onmessage_reading env now now' message q p E). auto.
  - destruct (p1_onmessage_other env now now' message p E) as (Hr & Hs & Ht).
    rewrite (proj1 (ws_onmessage_other env now now' message p E)). auto.
Qed.

(** The frame of a fan-out is the sample, under the [data] tag in the
    handshake revision: it holds the [C] of the sample. *)
Lemma fanout_frame_carries_C env (data : obj) (c : conn) (f : frame) :
  (exists s, In (Send c f) (trace_of (ServerTs.broadcastToSubscribers env data s))) \/
  (exists s, In (Send c f) (trace_of (Part000.broadcastToSubscribers env data s))) \/
  (exists s, In (Send c f) (trace_of (Part002.broadcastToSubscribers env data s))) ->
  exists o, received f = Parsed (JObj o) /\ lookup_key "C" o = lookup_key "C" data.
Proof.
  intros [[s H]|[[s H]|[s H]]]; apply sends_of_In in H.
  - rewrite ts_broadcast_sends in H. apply in_map_iff in H as (x & [= <- <-] & _).
    now exists data.
  - destruct (p0_broadcast_effects env data s) as (_ & _ & Ht).
    rewrite <- sends_of_erase_logs, Ht, sends_of_erase_logs, ts_broadcast_sends in H.
    apply in_map_iff in H as (x & [= <- <-] & _). now exists data.
  - rewrite p2_broadcast_sends in H. apply in_map_iff in H as (x & [= <- <-] & _).
    exists (spread_data data). split; [reflexivity|].
    rewrite spread_data_lookup. reflexivity.
Qed.

(** On a [C] that is [null], [static/ws-client.js] throws at [toFixed] and
    the logging dashboard logs a warning. *)
Lemma ws_onmessage_null env now now' (o : obj) (p : WsClient.page) :
  lookup_key "C" o = Some JNull ->
  result_of (WsClient.onmessage env now now' (Parsed (JObj o)) p) = Throw.
Proof.
  intros Ec.
  unfold WsClient.onmessage, WsClient.updateInterface, JSON_parse, js_get,
    WsClient.toFixed; unfold_monad; cbn; rewrite ?Ec; cbn; rewrite ?Ec; reflexivity.
Qed.

Lemma p1_onmessage_null env now now' (o : obj) (p : WsClient.page) :
  lookup_key "C" o = Some JNull ->
  In (Log WARN "Invalid conductivity value received")
    (trace_of (Part001.onmessage env now now' (Parsed (JObj o)) p)).
Proof.
  intros Ec.
  unfold Part001.onmessage, Part001.updateInterface, JSON_parse, js_get;
    unfold_monad; cbn; rewrite ?Ec; cbn; rewrite ?Ec; cbn. tauto.
Qed.

(** X29. A frame of a fan-out, in any of the three server revisions, gives
    both dashboards the [C] of the sample as [JSON.stringify] wrote it. When
    that is a number (a finite one: [JSON.stringify] writes no other), both
    dashboards show it and append it to the chart as its newest point. When
    it is [null] (which is also how a [C] that is not finite is written)
    neither dashboard shows it: [static/ws-client.js] throws, the logging
    dashboard logs a warning and returns, and the page stays as it was. *)
Theorem relayed_reading_reaches_the_dashboard env benv (now now' : string)
    (data : obj) (c : conn) (f : frame) (p : WsClient.page) :
  (exists s, In (Send c f) (trace_of (ServerTs.broadcastToSubscribers env data s))) \/
  (exists s, In (Send c f) (trace_of (Part000.broadcastToSubscribers env data s))) \/
  (exists s, In (Send c f) (trace_of (Part002.broadcastToSubscribers env data s))) ->
  let ws := WsClient.onmessage benv now now' (received f) p in
  let p1 := Part001.onmessage benv now now' (received f) p in
  (forall reading : Q,
     lookup_key "C" data = Some (JNum reading) ->
     length (WsClient.time (WsClient.chart p)) =
       length (WsClient.conductivity (WsClient.chart p)) ->
     length (WsClient.conductivity (WsClient.chart p)) <= WsClient.MAX_DATA_POINTS ->
     state_of p1 = state_of ws /\
     WsClient.conductivity_text (state_of ws) = Some reading /\
     WsClient.conductivity (WsClient.chart (state_of ws)) =
       window (WsClient.conductivity (WsClient.chart p) ++ [reading]) /\
     last (WsClient.conductivity (WsClient.chart (state_of ws))) = Some reading) /\
  (lookup_key "C" data = Some JNull ->
     result_of ws = Throw /\ state_of ws = p /\
     result_of p1 = Val tt /\ state_of p1 = p /\
     In (Log WARN "Invalid conductivity value received") (trace_of p1)).
Proof.
  intros Hsent. destruct (fanout_frame_carries_C env data c f Hsent) as (o & -> & Ho).
  cbn zeta. split.
  - intros reading Hc Heq Hle.
    assert (Hr : reading_of (Parsed (JObj o)) = Some reading).
    { cbn. now rewrite Ho, Hc. }
    assert (Hp1 : state_of (WsClient.onmessage benv now now' (Parsed (JObj o)) p) =
                  shows now now' reading p)
      by now rewrite (ws_onmessage_reading benv now now' _ reading p Hr).
    rewrite Hp1.
    split; [apply (p1_onmessage_reading benv now now' _ reading p Hr)|].
    split; [reflexivity|].
    assert (Hw : WsClient.conductivity (WsClient.chart (shows now now' reading p)) =
                 window (WsClient.conductivity (WsClient.chart p) ++ [reading])).
    { unfold shows. cbn [WsClient.chart]. rewrite <- window_push by lia.
      rewrite !List.length_app, Heq. cbn [length].
      destruct (Nat.ltb WsClient.MAX_DATA_POINTS
                  (length (WsClient.conductivity (WsClient.chart p)) + 1));
        reflexivity. }
    split; [exact Hw|]. rewrite Hw. unfold window.
    destruct (WsClient.conductivity (WsClient.chart p)) as [|y l] using rev_ind.
    + reflexivity.
    + clear IHl. rewrite List.skipn_app.
      replace (length ((l ++ [y]) ++ [reading]) - WsClient.MAX_DATA_POINTS
               - length (l ++ [y]))
        with 0 by (rewrite !List.length_app; cbn [length];
                   unfold WsClient.MAX_DATA_POINTS; lia).
      cbn [skipn]. apply last_snoc.
  - intros Hc.
    assert (Ho' : lookup_key "C" o = Some JNull) by congruence.
    assert (Hr : reading_of (Parsed (JObj o)) = None).
    { cbn. now rewrite Ho'. }
    split; [exact (ws_onmessage_null benv now now' o p Ho')|].
    split; [apply (ws_onmessage_other benv now now' _ p Hr)|].
    destruct (p1_onmessage_other benv now now' _ p Hr) as (H1 & H2 & _).
    split; [exact H1|]. split; [exact H2|].
    exact (p1_onmessage_null benv now now' o p Ho').
Qed.

(** ** The theorems at concrete inputs *)

Lemma ts_silent_client_reachable : ServerTs.reachable ts_silent_client.
Proof.
  exists [ServerTs.Connection 1 None; ServerTs.Tick]. eexists.
  ts_step quiet. ts_step quiet. apply ServerTs.steps_nil.
Qed.

Lemma p2_silent_client_reachable : Part002.reachable p2_silent_client.
Proof.
  exists [Part002.Connection 1;
          Part002.Message 1 (register_frame "subscriber"); Part002.Tick].
  eexists. p2_step quiet. p2_step quiet. p2_step quiet.
  apply Part002.steps_nil.
Qed.

Lemma ts_three_consumers_reachable : ServerTs.reachable ts_three_consumers.
Proof.
  exists [ServerTs.Connection 0 (Some "arduino-publisher");
          ServerTs.Connection 1 None; ServerTs.Connection 2 None;
          ServerTs.Connection 3 None].
  eexists. ts_step quiet. ts_step quiet. ts_step quiet. ts_step quiet.
  apply ServerTs.steps_nil.
Qed.

Lemma p2_one_consumer_steps :
  exists s tr,
    Part002.steps Part002.init
      [Part002.Connection 1; Part002.Message 1 (register_frame "subscriber")]
      s tr /\ Part002.subscribers s = [1].
Proof.
  eexists _, _. split.
  - p2_step quiet. p2_step quiet. apply Part002.steps_nil.
  - reflexivity.
Qed.


(** The sweep at: a consumer that has not answered the last probe, that
    stays silent, and that answers. *)
Lemma sweep_terminates_silent_client :
  (In (Terminate 1) (trace_of (ServerTs.fire quiet ServerTs.Tick ts_silent_client)) /\
   ~ In 1 (ServerTs.subscribers
             (state_of (ServerTs.fire quiet (ServerTs.Closed 1)
                          (state_of (ServerTs.fire quiet ServerTs.Tick
                                       ts_silent_client))))) /\
   In (Terminate 1)
     (trace_of (ServerTs.fire quiet ServerTs.Tick
                  (state_of (ServerTs.fire quiet ServerTs.Tick ts_silent_client)))) /\
   ~ In (Terminate 1)
       (trace_of (ServerTs.fire quiet ServerTs.Tick
                    (state_of (ServerTs.fire quiet (ServerTs.Pong 1)
                                 ts_silent_client))))) /\
  (In (Terminate 1) (trace_of (Part002.fire quiet Part002.Tick p2_silent_client)) /\
   ~ In 1 (Part002.subscribers
             (state_of (Part002.fire quiet (Part002.Closed 1)
                          (state_of (Part002.fire quiet Part002.Tick
                                       p2_silent_client))))) /\
   In (Terminate 1)
     (trace_of (Part002.fire quiet Part002.Tick
                  (state_of (Part002.fire quiet Part002.Tick p2_silent_client))))).
Proof.
  destruct sweep_terminates_flagged_clients as [Hts Hp2]. split.
  - destruct (Hts ts_silent_client quiet 1 ts_silent_client_reachable
                (or_introl eq_refl)) as (_ & _ & Hdown & Htwice & _ & Hpong).
    destruct (Hdown eq_refl) as [Hterm Hclose].
    destruct (Hclose quiet) as (_ & Hsub & _).
    destruct (Hpong quiet) as [_ Hkeep].
    split; [exact Hterm|]. split; [exact Hsub|]. split; [|exact (Hkeep eq_refl)].
    exact (Htwice [] _ [] quiet (ServerTs.steps_nil _) (List.Forall_nil _)).
  - destruct (Hp2 p2_silent_client quiet 1 p2_silent_client_reachable
                (or_introl eq_refl)) as (_ & _ & Hdown & Htwice & _).
    destruct (Hdown eq_refl) as [Hterm Hclose].
    destruct (Hclose quiet) as (_ & _ & Hsub).
    split; [exact Hterm|]. split.
    + apply Hsub. intros [Hp _]. discriminate Hp.
    + exact (Htwice [] _ [] quiet (Part002.steps_nil _) (List.Forall_nil _)).
Qed.


(** C5 at: the producer sends [{PH: 7.1}], then [{C: 450}]. *)
Lemma C5_witness :
  (state_of (ServerTs.onMessage quiet 0 true (Parsed pH_only) ts_three_consumers)
     = ts_three_consumers /\
   ServerTs.latestData
     (state_of (ServerTs.onMessage quiet 0 true (Parsed (JObj sample_450))
                  ts_three_consumers)) = sample_450) /\
  (state_of (Part002.onMessage quiet 0 (Parsed pH_only) p2_three_consumers)
     = p2_three_consumers /\
   Part002.latestData
     (state_of (Part002.onMessage quiet 0 (Parsed (JObj sample_450))
                  p2_three_consumers)) = sample_450).
Proof.
  destruct C5_producer_message_validation as [Hts Hp2]. split.
  - destruct (Hts quiet 0 pH_only ts_three_consumers) as [Hdrop _].
    destruct (Hts quiet 0 (JObj sample_450) ts_three_consumers) as [_ Hkeep].
    destruct (Hdrop eq_refl) as (_ & H1 & _).
    destruct (Hkeep sample_450 eq_refl) as (_ & H2 & _).
    split; [exact H1|exact H2].
  - destruct (Hp2 quiet 0 pH_only p2_three_consumers eq_refl eq_refl)
      as [Hdrop _].
    destruct (Hp2 quiet 0 (JObj sample_450) p2_three_consumers eq_refl eq_refl)
      as [_ Hkeep].
    destruct (Hdrop eq_refl) as (_ & H1 & _).
    destruct (Hkeep sample_450 eq_refl) as (_ & H2 & _).
    split; [exact H1|exact H2].
Defined.

(** C6 at: three consumers beside the producer, and one socket that
    registered once. *)
Lemma C6_witness :
  ts_exclusive ts_three_consumers /\
  (exists s, Part002.subscribers s = [1] /\ p2_exclusive s).
Proof.
  destruct C6_one_role_per_socket as [Hts Hp2]. split.
  - exact (Hts ts_three_consumers ts_three_consumers_reachable).
  - destruct p2_one_consumer_steps as (s & tr & Hsteps & Hsub).
    exists s. split; [exact Hsub|].
    apply (Hp2 _ s tr Hsteps). intros c.
    destruct c as [|[|c]]; cbn; lia.
Defined.

(** C7 at: producer 1 is superseded by producer 2, then closes. *)
Lemma C7_witness :
  ServerTs.publisher
    (state_of (ServerTs.onClose 1 true
                 (state_of (forEach [(quiet, 1); (quiet, 2)] ts_registerProducer
                              ServerTs.init)))) = Some 2 /\
  Part002.publisher
    (state_of (Part002.onClose 1
                 (state_of (forEach [(quiet, 1); (quiet, 2)] p2_registerProducer
                              Part002.init)))) = Some 2.
Proof.
  destruct C7_removeProducer_guard as (_ & Hts & _ & _ & Hp2 & _). split.
  - apply (Hts (quiet, 1) (quiet, 2) ServerTs.init). cbn. lia.
  - apply (Hp2 (quiet, 1) (quiet, 2) Part002.init). cbn. lia.
Defined.

(** X4 at: consumer 1 was probed by the last sweep and answers [pong]. *)
Lemma X4_witness :
  In (Terminate 1)
    (trace_of
       (Part002.fire quiet Part002.Tick
          (state_of (Part002.fire quiet (Part002.Message 1 (Unparseable "pong"))
                       (state_of (Part002.fire quiet Part002.Tick
                                    p2_silent_client)))))).
Proof.
  eapply (p2_answering_client_times_out p2_silent_client quiet 1
            [Unparseable "pong"]).
  - exact p2_silent_client_reachable.
  - now left.
  - cbn [map]. p2_step quiet. apply Part002.steps_nil.
Defined.

(** X2 at: the sample [{C: 450}] was relayed, consumer 1 connects and the
    send of the sample throws. *)
Lemma X2_witness :
  result_of (Part000.onConnection (only_throws 1) 1 None ts_after_sample) = Val tt /\
  In (Log ERROR "Failed to send initial data to subscriber")
    (trace_of (Part000.onConnection (only_throws 1) 1 None ts_after_sample)).
Proof.
  destruct (p0_registerConsumer_best_effort (only_throws 1) 1 None ts_after_sample
              eq_refl) as (Hr & _ & _ & Hsend).
  destruct (Hsend eq_refl) as [_ Hlog].
  split; [exact Hr|exact (Hlog eq_refl)].
Defined.

(** C10 at: consumer 1 sends [{C: 450}]. *)
Lemma C10_witness :
  state_of (ServerTs.onMessage quiet 1 false (Parsed (JObj sample_450))
              ts_three_consumers) = ts_three_consumers /\
  state_of (Part002.onMessage quiet 1 (Parsed (JObj sample_450))
              p2_three_consumers) = p2_three_consumers.
Proof.
  destruct C10_consumer_message_is_inert as (Hts & _ & Hp2 & _). split.
  - destruct (Hts quiet 1 (JObj sample_450) sample_450 ts_three_consumers eq_refl)
      as (_ & H & _).
    exact H.
  - destruct (Hp2 quiet 1 (JObj sample_450) sample_450 p2_three_consumers
                eq_refl eq_refl eq_refl) as (_ & H & _).
    exact H.
Defined.

(** ** The further theorems at concrete inputs *)

Lemma ts_one_consumer_reachable : ServerTs.reachable ts_one_consumer.
Proof.
  exists [ServerTs.Connection 1 None]. eexists.
  ts_step quiet. apply ServerTs.steps_nil.
Qed.

(** X14 at: consumer 1 answers each of three sweeps. *)
Lemma X14_witness :
  In (Ping 1)
    (trace_of (forEach [ServerTs.Tick; ServerTs.Pong 1; ServerTs.Tick; ServerTs.Pong 1;
                        ServerTs.Tick] (ServerTs.fire quiet) ts_one_consumer)) /\
  ~ In (Terminate 1)
      (trace_of (forEach [ServerTs.Tick; ServerTs.Pong 1; ServerTs.Tick; ServerTs.Pong 1;
                          ServerTs.Tick] (ServerTs.fire quiet) ts_one_consumer)).
Proof.
  split; [vm_compute; now left|].
  refine (ts_answering_client_is_never_terminated quiet ts_one_consumer _ 1
            ts_one_consumer_reachable _ eq_refl _ _).
  - vm_compute. eexists. reflexivity.
  - vm_compute. reflexivity.
  - vm_compute. reflexivity.
Defined.


Lemma p2_three_consumers_reachable : Part002.reachable p2_three_consumers.
Proof.
  exists [Part002.Connection 0; Part002.Message 0 (register_frame "publisher");
          Part002.Connection 1; Part002.Message 1 (register_frame "subscriber");
          Part002.Connection 2; Part002.Message 2 (register_frame "subscriber");
          Part002.Connection 3; Part002.Message 3 (register_frame "subscriber")].
  eexists. do 8 p2_step quiet. apply Part002.steps_nil.
Qed.

(** X10 at: the publisher and the three consumers of [ts_three_consumers]. *)
Lemma X10_witness :
  length (ServerTs.subscribers ts_three_consumers) +
    (if installed (ServerTs.publisher ts_three_consumers) then 1 else 0)
    <= length (ServerTs.clients ts_three_consumers).
Proof.
  exact (proj2 (proj2 (ts_registry_holds_open_sockets ts_three_consumers
                         ts_three_consumers_reachable))).
Defined.

(** X12 at: the sample [{C: 450}] is relayed to consumers 1, 2, 3 and the
    send to consumer 2 throws. *)
Lemma X12_witness :
  let ev := ServerTs.Message 0 (Parsed (JObj sample_450)) in
  let s1 := state_of (ServerTs.fire (only_throws 2) ev ts_three_consumers) in
  In 1 (ServerTs.subscribers s1) /\ ~ In 2 (ServerTs.subscribers s1).
Proof.
  cbn zeta.
  assert (H : forall c, In c (ServerTs.subscribers ts_three_consumers) ->
            (In c (ServerTs.subscribers
                     (state_of (ServerTs.fire (only_throws 2)
                                  (ServerTs.Message 0 (Parsed (JObj sample_450)))
                                  ts_three_consumers))) <->
             ~ ts_evicts (only_throws 2) ts_three_consumers
                 (ServerTs.Message 0 (Parsed (JObj sample_450))) c)).
  { intros c. eapply (ts_consumer_durability (only_throws 2));
      [exact ts_three_consumers_reachable|vm_compute; reflexivity]. }
  split.
  - apply (proj2 (H 1 ltac:(vm_compute; tauto))).
    intros [[=]|(p & m & o & [= <- <-] & _ & [= <-] & Hs)]. discriminate.
  - intros Hin. apply (proj1 (H 2 ltac:(vm_compute; tauto)) Hin). right.
    exists 0, (Parsed (JObj sample_450)), sample_450.
    split; [reflexivity|]. split; [vm_compute; reflexivity|].
    split; [reflexivity|vm_compute; reflexivity].
Defined.

(** X13 at: the sample is relayed while consumer 2 is no longer [OPEN]. *)
Lemma X13_witness :
  let ev := Part002.Message 0 (Parsed (JObj sample_450)) in
  let s1 := state_of (Part002.fire (only_closed 2) ev p2_three_consumers) in
  In 1 (Part002.subscribers s1) /\ ~ In 2 (Part002.subscribers s1).
Proof.
  cbn zeta.
  assert (H : forall c, In c (Part002.subscribers p2_three_consumers) ->
            (In c (Part002.subscribers
                     (state_of (Part002.fire (only_closed 2)
                                  (Part002.Message 0 (Parsed (JObj sample_450)))
                                  p2_three_consumers))) <->
             ~ p2_evicts (only_closed 2) p2_three_consumers
                 (Part002.Message 0 (Parsed (JObj sample_450))) c)).
  { intros c. eapply (p2_consumer_durability (only_closed 2));
      [exact p2_three_consumers_reachable|vm_compute; reflexivity]. }
  split.
  - apply (proj2 (H 1 ltac:(vm_compute; tauto))).
    intros [[[=] _]|(p & m & o & [= <- <-] & _ & _ & _ & _ & Hs)]. discriminate.
  - intros Hin. apply (proj1 (H 2 ltac:(vm_compute; tauto)) Hin). right.
    exists 0, (Parsed (JObj sample_450)), sample_450.
    split; [reflexivity|]. split; [vm_compute; eauto|].
    split; [reflexivity|]. split; [vm_compute; reflexivity|].
    split; [reflexivity|vm_compute; reflexivity].
Defined.

(** X15 at: publisher 0 was superseded by socket 4 and sends [{C: 450}]. *)
Lemma X15_witness :
  ServerTs.publisher ts_superseded_publisher = Some 4 /\
  ServerTs.listeners ts_superseded_publisher !! 0 = Some true /\
  ServerTs.latestData
    (state_of (ServerTs.fire quiet (ServerTs.Message 0 (Parsed (JObj sample_450)))
                 ts_superseded_publisher)) = sample_450.
Proof.
  split; [vm_compute; reflexivity|].
  assert (H : ServerTs.steps ts_three_consumers
                [ServerTs.Connection 4 (Some "arduino-publisher")]
                ts_superseded_publisher
                (trace_of (ServerTs.fire quiet
                             (ServerTs.Connection 4 (Some "arduino-publisher"))
                             ts_three_consumers) ++ [])).
  { eapply (ServerTs.steps_cons _ quiet);
      [vm_compute; reflexivity|vm_compute; reflexivity|apply ServerTs.steps_nil]. }
  destruct (ts_role_is_fixed ts_three_consumers ts_superseded_publisher _ _ 0 true
              ts_three_consumers_reachable H ltac:(vm_compute; reflexivity))
    as (Hl & _ & Hrelay).
  split; [exact Hl|].
  exact (Hrelay quiet (Parsed (JObj sample_450)) sample_450 eq_refl).
Defined.


(** X17 at: the frame consumer 1 gets when [{C: 450}] is relayed. *)
Lemma X17_witness :
  let r := ServerTs.fire quiet (ServerTs.Message 0 (Parsed (JObj sample_450)))
             ts_three_consumers in
  (exists o, FJson (JObj sample_450) = FJson (JObj o) /\ has_key "C" o = true) /\
  ServerTs.type (state_of r) !! 1 = Some ServerTs.SUBSCRIBER.
Proof.
  apply (ts_sends_only_samples_to_subscribers quiet _ ts_three_consumers 1
           (FJson (JObj sample_450)) ts_three_consumers_reachable).
  vm_compute. tauto.
Defined.

(** X18 at: consumer 1 closes twice. *)
Lemma X18_witness :
  ServerTs.fire quiet (ServerTs.Closed 1)
    (state_of (ServerTs.fire quiet (ServerTs.Closed 1) ts_three_consumers)) =
    (Val tt, state_of (ServerTs.fire quiet (ServerTs.Closed 1) ts_three_consumers), []).
Proof.
  exact (ts_close_is_idempotent quiet quiet 1 ts_three_consumers
           ts_three_consumers_reachable).
Defined.

(** X19 at: socket 1 registers with the role [producer]. *)
Lemma X19_witness :
  let r := Part002.fire quiet (Part002.Message 1 producer_role_frame) p2_one_client in
  Part002.subscribers (state_of r) = [1] /\ Part002.publisher (state_of r) = None.
Proof.
  destruct (p2_every_other_role_subscribes quiet 1 producer_role_frame
              (Some (JStr "producer")) p2_one_client
              ltac:(vm_compute; eauto) eq_refl eq_refl) as (_ & Hs & Hp & _).
  split; [exact Hs|exact Hp].
Defined.

(** X20 at: the frame consumer 1 gets when [{C: 450}] is relayed. *)
Lemma X20_witness :
  exists e,
    FJson (JObj (spread_data sample_450)) = FJson (JObj e) /\
    (forall k, k <> "type" -> lookup_key k e = lookup_key k sample_450) /\
    lookup_key "type" e =
      Some (match lookup_key "type" sample_450 with
            | Some v => v
            | None => JStr "data"
            end).
Proof.
  apply (p2_envelope_keeps_the_sample quiet sample_450 p2_three_consumers 1).
  vm_compute. tauto.
Defined.

(** X24 at: a dashboard (socket 1) connects and sends nothing while the
    publisher relays [{C: 450}] and a sweep runs. *)
Lemma X24_witness :
  let r := forEach p2_dashboard_run (Part002.fire quiet) Part002.init in
  Part002.latestData (state_of r) = sample_450 /\
  ~ In 1 (Part002.subscribers (state_of r)) /\
  forall f, In (Send 1 f) (trace_of r) -> f = FText "connected" \/ f = FText "ping".
Proof.
  cbn zeta. split; [vm_compute; reflexivity|].
  destruct (p2_socket_that_never_registers_gets_no_sample p2_dashboard_run _ _ 1
              (p2_steps_of_runs quiet p2_dashboard_run Part002.init
                 ltac:(vm_compute; reflexivity)))
    as (Hs & _ & Hf).
  - repeat constructor; cbn; discriminate.
  - split; [exact Hs|exact Hf].
Defined.

(** X25 at: the readings 1 to 51 pushed on the empty chart. *)
Lemma X25_witness :
  WsClient.conductivity (WsClient.chart (chart_after plotly_ok readings_51 empty_page)) =
    map (fun n => inject_Z (Z.of_nat n)) (seq 2 50).
Proof.
  destruct (chart_keeps_the_last_readings plotly_ok readings_51 empty_page eq_refl
              ltac:(cbn; unfold WsClient.MAX_DATA_POINTS; lia)) as (Hc & _).
  rewrite Hc. vm_compute. reflexivity.
Defined.

(** X29 at: the frame of [{C: 450}] reaches a dashboard with an empty
    chart, and so does the frame of a sample whose [C] is [null]. *)
Lemma X29_witness :
  let ws := WsClient.onmessage plotly_ok "12:00:00" "12:00:00"
              (received (FJson (JObj sample_450))) empty_page in
  let ws' := WsClient.onmessage plotly_ok "12:00:00" "12:00:00"
               (received (FJson (JObj (spread_data null_sample)))) empty_page in
  (WsClient.conductivity_text (state_of ws) = Some (inject_Z 450) /\
   WsClient.conductivity (WsClient.chart (state_of ws)) = [inject_Z 450]) /\
  (result_of ws' = Throw /\ state_of ws' = empty_page).
Proof.
  assert (Hsent : In (Send 1 (FJson (JObj sample_450)))
                    (trace_of (ServerTs.broadcastToSubscribers quiet sample_450
                                 ts_three_consumers)))
    by (vm_compute; tauto).
  assert (Hsent' : In (Send 1 (FJson (JObj (spread_data null_sample))))
                     (trace_of (Part002.broadcastToSubscribers quiet null_sample
                                  p2_three_consumers)))
    by (vm_compute; tauto).
  split.
  - destruct (proj1 (relayed_reading_reaches_the_dashboard quiet plotly_ok
                       "12:00:00" "12:00:00" sample_450 1 (FJson (JObj sample_450))
                       empty_page (or_introl (ex_intro _ ts_three_consumers Hsent)))
                (inject_Z 450) eq_refl eq_refl
                ltac:(cbn; unfold WsClient.MAX_DATA_POINTS; lia))
      as (_ & Ht & Hc & _).
    split; [exact Ht|exact Hc].
  - destruct (proj2 (relayed_reading_reaches_the_dashboard quiet plotly_ok
                       "12:00:00" "12:00:00" null_sample 1
                       (FJson (JObj (spread_data null_sample))) empty_page
                       (or_intror (or_intror (ex_intro _ p2_three_consumers Hsent'))))
                eq_refl) as (Hr & Hs & _).
    split; [exact Hr|exact Hs].
Defined.

Lemma ts_after_sample_reachable : ServerTs.reachable ts_after_sample.
Proof.
  exists [ServerTs.Connection 0 (Some "arduino-publisher");
          ServerTs.Message 0 (Parsed (JObj sample_450))].
  eexists.
  exact (ts_steps_of_runs quiet
           [ServerTs.Connection 0 (Some "arduino-publisher");
            ServerTs.Message 0 (Parsed (JObj sample_450))]
           ServerTs.init ltac:(vm_compute; reflexivity)).
Qed.

(** X22 at: the state after the sample [{C: 450}] was relayed. *)
Lemma X22_witness : has_key "C" (ServerTs.latestData ts_after_sample) = true.
Proof.
  exact (proj1 (proj1 replay_buffer_outlives_the_producer ts_after_sample
                  ts_after_sample_reachable) eq_refl).
Defined.

(** X23 at: the first sweep over one consumer. *)
Lemma X23_witness :
  In (Ping 1) (trace_of (ServerTs.fire quiet ServerTs.Tick ts_one_consumer)) /\
  alive_flag
    (ServerTs.isAlive (state_of (ServerTs.fire quiet ServerTs.Tick ts_one_consumer))) 1
    = false.
Proof.
  destruct (proj1 sweep_probes_the_clients_that_answered quiet ts_one_consumer 1
              ts_one_consumer_reachable) as [Hp Hf].
  split.
  - apply Hp. split; [vm_compute; tauto|vm_compute; reflexivity].
  - apply Hf. vm_compute. tauto.
Defined.

(** X26 at: 250 and 1300 microsiemens per centimetre. *)
Lemma X26_witness :
  severity (WsClient.evaluateConductivity 250)
    <= severity (WsClient.evaluateConductivity 1300).
Proof.
  apply (proj1 evaluateConductivity_is_monotone 250%Q 1300%Q).
  unfold Qle. cbn. lia.
Defined.
